(** * todo-api: the notes service with per-user ownership, and its in-memory
      predecessor

    A shallow embedding of the handlers of [main.go] and proofs of the
    properties its specification states about them.

    The repository holds several programs.  Four are modelled here:
    - the in-memory todo service (package-level slice [todos] and counter
      [nextID], module [MemTodo]);
    - the notes service with registration, login, a session cookie and
      owner-scoped queries (module [AuthNotes]);
    - the notes service without users (module [PlainNotes]) and the todo
      service on the database (module [DbTodo]), both over one table
      (module [Table]).

    What the handlers call but the repository does not contain is modelled
    in [GoLib] (the parts of [strings], [strconv], [encoding/json] and
    [net/http] that the handlers use) and in the [Store] of [AuthNotes] and
    of [Table] (the SQL statements the handlers send).  Go's [int] is taken
    to be 64 bits wide.  The pages rendered from templates and the start-up
    code of [main] are not modelled. *)

From Stdlib Require Import ZArith List String Ascii Bool Lia.
From Stdlib Require Import Sorting.Sorted Sorting.Permutation.
From Stdlib Require Import DecimalString DecimalZ DecimalN DecimalPos.
Import ListNotations.

Local Open Scope string_scope.
Local Open Scope list_scope.
Local Open Scope Z_scope.

(* ================================================================== *)
(** * The Go library functions the handlers use *)
(* ================================================================== *)

Module GoLib.

(** ** Machine integers *)

Definition max_int : Z := 9223372036854775807.
Definition min_int : Z := -9223372036854775808.

(** Go's [int] arithmetic wraps around silently. *)
Definition wrap_int (z : Z) : Z :=
  (z - min_int) mod 18446744073709551616 + min_int.

(** ** strings *)

(** A Go string is a sequence of bytes. *)
Definition bytes (l : list N) : string :=
  string_of_list_ascii (map ascii_of_N l).

Fixpoint rev_string (acc s : string) : string :=
  match s with
  | EmptyString => acc
  | String c r => rev_string (String c acc) r
  end.

Definition reverse (s : string) : string := rev_string "" s.

(** [strings.TrimPrefix]. *)
Fixpoint strip_prefix (p s : string) : option string :=
  match p, s with
  | EmptyString, _ => Some s
  | String a p', String b s' =>
      if Ascii.eqb a b then strip_prefix p' s' else None
  | String _ _, EmptyString => None
  end.

Definition TrimPrefix (s p : string) : string :=
  match strip_prefix p s with
  | Some r => r
  | None => s
  end.

(** The UTF-8 encodings of the code points for which [unicode.IsSpace]
    holds: the six ASCII ones of [asciiSpace], U+0085, U+00A0, U+1680,
    U+2000..U+200A, U+2028, U+2029, U+202F, U+205F and U+3000. *)
Definition space_encodings : list (list N) :=
  ([ [9]; [10]; [11]; [12]; [13]; [32];
    [194; 133]; [194; 160];
    [225; 154; 128];
    [226; 128; 128]; [226; 128; 129]; [226; 128; 130]; [226; 128; 131];
    [226; 128; 132]; [226; 128; 133]; [226; 128; 134]; [226; 128; 135];
    [226; 128; 136]; [226; 128; 137]; [226; 128; 138];
    [226; 128; 168]; [226; 128; 169]; [226; 128; 175];
    [226; 129; 159];
    [227; 128; 128] ])%N.

(** The rest of [s] after one leading token of [toks], if it starts with
    one. *)
Fixpoint strip_any (toks : list string) (s : string) : option string :=
  match toks with
  | [] => None
  | t :: ts =>
      match strip_prefix t s with
      | Some r => Some r
      | None => strip_any ts s
      end
  end.

Fixpoint trim_left (toks : list string) (fuel : nat) (s : string) : string :=
  match fuel with
  | O => s
  | S f =>
      match strip_any toks s with
      | Some r => trim_left toks f r
      | None => s
      end
  end.

Definition TrimLeftSpace (s : string) : string :=
  trim_left (map bytes space_encodings) (String.length s) s.

Definition TrimRightSpace (s : string) : string :=
  reverse (trim_left (map (fun e => bytes (rev e)) space_encodings)
                     (String.length s) (reverse s)).

(** [strings.TrimSpace]: all leading and trailing white space removed, as
    [TrimFunc(s, unicode.IsSpace)] does (the ASCII fast path of the library
    computes the same string). *)
Definition TrimSpace (s : string) : string :=
  TrimRightSpace (TrimLeftSpace s).

(** ** strconv *)

Definition is_digit (c : ascii) : bool :=
  let n := Z.of_N (N_of_ascii c) in (48 <=? n) && (n <=? 57).

Definition digit_val (c : ascii) : Z := Z.of_N (N_of_ascii c) - 48.

(** The digit loop of [Atoi]: [n = n*10 + int(ch - '0')], a syntax error
    at the first byte that is no digit. *)
Fixpoint digits_val (acc : Z) (s : string) : option Z :=
  match s with
  | EmptyString => Some acc
  | String c r =>
      if is_digit c then digits_val (acc * 10 + digit_val c) r else None
  end.

(** [strconv.Atoi]: an optional sign, then one decimal digit or more; the
    value has to fit an [int].  [None] stands for a non-nil error. *)
Definition Atoi (s : string) : option Z :=
  let '(neg, body) :=
    match s with
    | String "-" r => (true, r)
    | String "+" r => (false, r)
    | _ => (false, s)
    end in
  match body with
  | EmptyString => None
  | String _ _ =>
      match digits_val 0 body with
      | None => None
      | Some n =>
          let v := if neg then - n else n in
          if (min_int <=? v) && (v <=? max_int) then Some v else None
      end
  end.

(** [strconv.Itoa]. *)
Definition Itoa (n : Z) : string := NilZero.string_of_int (Z.to_int n).

(** ** encoding/json: the values the handlers write *)

Local Unset Elimination Schemes.
Inductive JSON : Type :=
| JNull
| JBool (b : bool)
| JNum (n : Z)
| JStr (s : string)
| JArr (l : list JSON)
| JObj (fields : list (string * JSON)).
Local Set Elimination Schemes.

(** A Go slice is either nil or has elements (possibly none). *)
Definition slice (A : Type) : Type := option (list A).

Definition append {A : Type} (s : slice A) (x : A) : slice A :=
  match s with
  | None => Some [x]
  | Some l => Some (l ++ [x])
  end.

(** [json.Encode] of a slice: a nil slice is written as [null], any other
    as an array. *)
Definition encode_slice {A : Type} (enc : A -> JSON) (s : slice A) : JSON :=
  match s with
  | None => JNull
  | Some l => JArr (map enc l)
  end.

(** ** net/http *)

Record Cookie : Type := mkCookie {
  Name : string;
  Value : string;
  Expires : Z;          (* an instant, in nanoseconds *)
  HttpOnly : bool
}.

Inductive Body : Type :=
| NoBody
| Text (s : string)
| Json (j : JSON).

Record Response : Type := mkResponse {
  Status : Z;
  ContentType : option string;
  SetCookies : list Cookie;
  RespBody : Body
}.

(** A request: [B] is what [json.NewDecoder(r.Body).Decode(&body)] yields
    for the handler's [body] struct, [None] when it returns an error. *)
Record Request (B : Type) : Type := mkRequest {
  Method : string;
  Path : string;
  Cookies : list (string * string);
  Decoded : option B
}.
Arguments mkRequest {B}.
Arguments Method {B}.
Arguments Path {B}.
Arguments Cookies {B}.
Arguments Decoded {B}.

Definition StatusOK : Z := 200.
Definition StatusCreated : Z := 201.
Definition StatusNoContent : Z := 204.
Definition StatusBadRequest : Z := 400.
Definition StatusUnauthorized : Z := 401.
Definition StatusNotFound : Z := 404.
Definition StatusMethodNotAllowed : Z := 405.
Definition StatusConflict : Z := 409.
Definition StatusInternalServerError : Z := 500.

Definition MethodGet := "GET".
Definition MethodPost := "POST".
Definition MethodPut := "PUT".
Definition MethodDelete := "DELETE".

(** [http.Error(w, msg, code)]: a plain-text reply, the message followed by
    a newline. *)
Definition Error (msg : string) (code : Z) : Response :=
  {| Status := code;
     ContentType := Some "text/plain; charset=utf-8";
     SetCookies := [];
     RespBody := Text (msg ++ String (ascii_of_N 10) "")%string |}.

(** [w.WriteHeader(code)] and nothing else. *)
Definition WriteHeader (code : Z) : Response :=
  {| Status := code; ContentType := None; SetCookies := [];
     RespBody := NoBody |}.

(** [w.Header().Set("Content-Type", "application/json")], an optional
    [w.WriteHeader(code)], then [json.NewEncoder(w).Encode(v)]. *)
Definition WriteJSON (code : Z) (j : JSON) : Response :=
  {| Status := code; ContentType := Some "application/json";
     SetCookies := []; RespBody := Json j |}.

(** [r.Cookie(name)]: the first cookie of that name. *)
Fixpoint lookup_cookie (name : string) (cs : list (string * string))
  : option string :=
  match cs with
  | [] => None
  | (n, v) :: rest => if String.eqb n name then Some v else lookup_cookie name rest
  end.

Definition CookieOf {B : Type} (r : Request B) (name : string) : option string :=
  lookup_cookie name (Cookies r).

(** [time.Hour], a [Duration] in nanoseconds. *)
Definition Hour : Z := 3600 * 1000000000.

End GoLib.

Import GoLib.

(* ================================================================== *)
(** * The in-memory todo service *)
(* ================================================================== *)

Module MemTodo.

Record Todo : Type := mkTodo {
  ID : Z;
  Title : string;
  Done : bool
}.

Definition encode_todo (t : Todo) : JSON :=
  JObj [("id", JNum (ID t)); ("title", JStr (Title t));
        ("done", JBool (Done t))].

(** The package-level variables [todos] and [nextID].  [todos] is
    initialised to [[]Todo{}], so it is never a nil slice.  The mutex [mu]
    makes each handler's critical section one atomic step. *)
Record State : Type := mkState {
  todos : list Todo;
  nextID : Z
}.

Definition init : State := {| todos := []; nextID := 1 |}.

(** GET /todos *)
Definition getTodosHandler {B : Type} (r : Request B) (st : State)
  : Response * State :=
  (WriteJSON StatusOK (encode_slice encode_todo (Some (todos st))), st).

(** POST /todos *)
Definition createTodoHandler (r : Request string) (st : State)
  : Response * State :=
  match Decoded r with
  | None => (Error "invalid JSON" StatusBadRequest, st)
  | Some title =>
      if String.eqb (TrimSpace title) "" then
        (Error "title is required" StatusBadRequest, st)
      else
        let todo := {| ID := nextID st; Title := title; Done := false |} in
        (WriteJSON StatusCreated (encode_todo todo),
         {| todos := todos st ++ [todo];
            nextID := wrap_int (nextID st + 1) |})
  end.

(** The loop of [updateTodoHandler]: the first todo with the id gets the
    new title and flag and is written back. *)
Fixpoint update_first (id : Z) (title : string) (done : bool)
  (l : list Todo) : option (Todo * list Todo) :=
  match l with
  | [] => None
  | t :: rest =>
      if ID t =? id then
        let t' := {| ID := ID t; Title := title; Done := done |} in
        Some (t', t' :: rest)
      else
        match update_first id title done rest with
        | Some (t', rest') => Some (t', t :: rest')
        | None => None
        end
  end.

(** PUT /todos/{id} *)
Definition updateTodoHandler (r : Request (string * bool)) (st : State)
  : Response * State :=
  let idStr := TrimPrefix (Path r) "/todos/" in
  match Atoi idStr with
  | None => (Error "invalid id" StatusBadRequest, st)
  | Some id =>
      if id <=? 0 then (Error "invalid id" StatusBadRequest, st)
      else
        match Decoded r with
        | None => (Error "invalid JSON" StatusBadRequest, st)
        | Some (title, done) =>
            if String.eqb (TrimSpace title) "" then
              (Error "title is required" StatusBadRequest, st)
            else
              match update_first id title done (todos st) with
              | Some (t', l') =>
                  (WriteJSON StatusOK (encode_todo t'),
                   {| todos := l'; nextID := nextID st |})
              | None => (Error "todo not found" StatusNotFound, st)
              end
        end
  end.

(** The search loop of [deleteTodoHandler]: the index of the first todo
    with the id; [None] is the [-1] of the source. *)
Fixpoint find_index (id : Z) (l : list Todo) : option nat :=
  match l with
  | [] => None
  | t :: rest =>
      if ID t =? id then Some O
      else option_map S (find_index id rest)
  end.

(** DELETE /todos/{id} *)
Definition deleteTodoHandler {B : Type} (r : Request B) (st : State)
  : Response * State :=
  let idStr := TrimPrefix (Path r) "/todos/" in
  match Atoi idStr with
  | None => (Error "invalid id" StatusBadRequest, st)
  | Some id =>
      if id <=? 0 then (Error "invalid id" StatusBadRequest, st)
      else
        match find_index id (todos st) with
        | None => (Error "todo not found" StatusNotFound, st)
        | Some index =>
            (WriteHeader StatusNoContent,
             {| todos := firstn index (todos st)
                           ++ skipn (S index) (todos st);
                nextID := nextID st |})
        end
  end.

Definition todosHandler (r : Request string) (st : State)
  : Response * State :=
  if String.eqb (Method r) MethodGet then getTodosHandler r st
  else if String.eqb (Method r) MethodPost then createTodoHandler r st
  else (Error "method not allowed" StatusMethodNotAllowed, st).

Definition todoItemHandler (r : Request (string * bool)) (st : State)
  : Response * State :=
  if String.eqb (Method r) MethodPut then updateTodoHandler r st
  else if String.eqb (Method r) MethodDelete then deleteTodoHandler r st
  else (Error "method not allowed" StatusMethodNotAllowed, st).

(** The two routes of [main], and the service as a machine that takes one
    request after the other. *)
Inductive Call : Type :=
| Todos (r : Request string)
| TodoItem (r : Request (string * bool)).

Definition step (c : Call) (st : State) : Response * State :=
  match c with
  | Todos r => todosHandler r st
  | TodoItem r => todoItemHandler r st
  end.

Fixpoint run (cs : list Call) (st : State) : list Response * State :=
  match cs with
  | [] => ([], st)
  | c :: rest =>
      let '(resp, st1) := step c st in
      let '(resps, st2) := run rest st1 in
      (resp :: resps, st2)
  end.

(** The id a reply hands out: that of the todo in a 201 reply. *)
Definition created_id (resp : Response) : option Z :=
  if Status resp =? StatusCreated then
    match RespBody resp with
    | Json (JObj (("id", JNum n) :: _)) => Some n
    | _ => None
    end
  else None.

Fixpoint created_ids (resps : list Response) : list Z :=
  match resps with
  | [] => []
  | resp :: rest =>
      match created_id resp with
      | Some n => n :: created_ids rest
      | None => created_ids rest
      end
  end.

(** [a; a+1; ...], [n] numbers. *)
Fixpoint zseq (a : Z) (n : nat) : list Z :=
  match n with
  | O => []
  | S k => a :: zseq (a + 1) k
  end.

(** Two creates, a delete of the first todo, one more create. *)
Definition demo_calls : list Call :=
  [ Todos (mkRequest MethodPost "/todos" [] (Some "wash"));
    Todos (mkRequest MethodPost "/todos" [] (Some "cook"));
    TodoItem (mkRequest MethodDelete "/todos/1" [] None);
    Todos (mkRequest MethodPost "/todos" [] (Some "read")) ].

(** What holds of the two variables between requests. *)
Definition Inv (st : State) : Prop :=
  1 <= nextID st /\
  StronglySorted Z.lt (map ID (todos st)) /\
  Forall (fun t => 1 <= ID t < nextID st) (todos st).

End MemTodo.

(* ================================================================== *)
(** * The notes service with users and sessions *)
(* ================================================================== *)

Module AuthNotes.

(** ** What the service is linked against *)

(** [golang.org/x/crypto/bcrypt] and the collation of the [username]
    column are not part of the repository; the handlers are modelled over
    any implementation of them.  [GenerateFromPassword] takes the random
    bytes it draws for the salt as an argument and may fail (it does on
    passwords longer than 72 bytes); [CompareHashAndPassword] answers [true]
    for a nil error; [username_eqb] is the comparison that [UNIQUE] and
    [WHERE username = ?] use. *)
Class External : Type := {
  GenerateFromPassword : string -> string -> Z -> option string;
  CompareHashAndPassword : string -> string -> bool;
  username_eqb : string -> string -> bool
}.

Definition DefaultCost : Z := 10.

(** ** Data *)

Record Note : Type := mkNote {
  ID : Z;
  UserID : Z;
  Title : string;
  Content : string
}.

Definition encode_note (n : Note) : JSON :=
  JObj [("id", JNum (ID n)); ("user_id", JNum (UserID n));
        ("title", JStr (Title n)); ("content", JStr (Content n))].

(** A row of [users(id, username, password)]. *)
Record UserRow : Type := mkUserRow {
  user_id : Z;
  username : string;
  password : string
}.

(** The statements the handlers send through [db]. *)
Inductive Stmt : Type :=
| SelectNotes (userID : Z)
| InsertNote (userID : Z) (title content : string)
| UpdateNote (title content : string) (id userID : Z)
| DeleteNote (id userID : Z)
| InsertUser (name hash : string)
| SelectUser (name : string).

(** The database behind [db]: the two tables with their AUTO_INCREMENT
    counters, the connection's [clientFoundRows] setting (off unless the
    DSN asks for it), and, so that "reaches the storage" can be stated, the
    statements received so far, latest first.  A notes row has the fields
    of [Note]. *)
Record Store : Type := mkStore {
  users : list UserRow;
  users_auto : Z;
  notes : list Note;
  notes_auto : Z;
  clientFoundRows : bool;
  journal : list Stmt
}.

(** What a statement can meet at the storage: nothing, an error for the
    whole statement, or a result set that ends after [k] rows
    ([rows.Next()] turning false early). *)
Inductive Fault : Type :=
| NoFault
| StmtFails
| RowsCut (k : nat).

(** What a request brings besides itself: the clock reading of
    [time.Now()], the random bytes for bcrypt, and the fault its statement
    meets. *)
Record Env : Type := mkEnv {
  now : Z;
  random : string;
  fault : Fault
}.

Definition stmt_fails (f : Fault) : bool :=
  match f with StmtFails => true | _ => false end.

Definition cut_rows {A : Type} (f : Fault) (rows : list A) : list A :=
  match f with RowsCut k => firstn k rows | _ => rows end.

Definition record (s : Stmt) (st : Store) : Store :=
  {| users := users st; users_auto := users_auto st;
     notes := notes st; notes_auto := notes_auto st;
     clientFoundRows := clientFoundRows st;
     journal := s :: journal st |}.

Definition with_notes (l : list Note) (auto : Z) (st : Store) : Store :=
  {| users := users st; users_auto := users_auto st;
     notes := l; notes_auto := auto;
     clientFoundRows := clientFoundRows st;
     journal := journal st |}.

Definition with_users (l : list UserRow) (auto : Z) (st : Store) : Store :=
  {| users := l; users_auto := auto;
     notes := notes st; notes_auto := notes_auto st;
     clientFoundRows := clientFoundRows st;
     journal := journal st |}.

(** ** The statements *)

(** ORDER BY id DESC *)
Fixpoint insert_desc (n : Note) (l : list Note) : list Note :=
  match l with
  | [] => [n]
  | m :: rest =>
      if ID m <? ID n then n :: l else m :: insert_desc n rest
  end.

Definition order_by_id_desc (l : list Note) : list Note :=
  fold_right insert_desc [] l.

Definition owned_by (userID : Z) (n : Note) : bool := UserID n =? userID.

(** [a] may stand before [b] in a listing by descending id. *)
Definition newer_first (a b : Note) : Prop := ID b <= ID a.

(** WHERE id = ? AND user_id = ? *)
Definition matches (id userID : Z) (n : Note) : bool :=
  (ID n =? id) && (UserID n =? userID).

(** SELECT id, user_id, title, content FROM notes WHERE user_id = ?
    ORDER BY id DESC *)
Definition select_notes (f : Fault) (userID : Z) (st : Store)
  : option (list Note) * Store :=
  let st1 := record (SelectNotes userID) st in
  if stmt_fails f then (None, st1)
  else (Some (cut_rows f (order_by_id_desc
                            (filter (owned_by userID) (notes st)))), st1).

(** INSERT INTO notes (user_id, title, content) VALUES (?, ?, ?): the new
    id on success.  The foreign key on [user_id] refuses an owner that is
    not in [users]. *)
Definition insert_note (f : Fault) (userID : Z) (title content : string)
  (st : Store) : option Z * Store :=
  let st1 := record (InsertNote userID title content) st in
  if stmt_fails f || negb (existsb (fun u => user_id u =? userID) (users st))
  then (None, st1)
  else
    let id := notes_auto st in
    (Some id,
     with_notes (notes st ++ [mkNote id userID title content]) (id + 1) st1).

(** SET title = ?, content = ? on the rows the WHERE clause finds. *)
Definition set_columns (title content : string) (id userID : Z)
  (n : Note) : Note :=
  if matches id userID n then mkNote (ID n) (UserID n) title content else n.

(** A row the UPDATE finds and whose columns it has to change. *)
Definition changes (title content : string) (id userID : Z) (n : Note)
  : bool :=
  matches id userID n &&
  negb (String.eqb (Title n) title && String.eqb (Content n) content).

(** UPDATE notes SET title = ?, content = ? WHERE id = ? AND user_id = ?:
    the number of rows affected on success, which counts the rows found
    under [clientFoundRows] and the rows changed otherwise. *)
Definition update_note (f : Fault) (title content : string) (id userID : Z)
  (st : Store) : option Z * Store :=
  let st1 := record (UpdateNote title content id userID) st in
  if stmt_fails f then (None, st1)
  else
    let counted :=
      if clientFoundRows st then matches id userID
      else changes title content id userID in
    (Some (Z.of_nat (List.length (filter counted (notes st)))),
     with_notes (map (set_columns title content id userID) (notes st))
                (notes_auto st) st1).

(** DELETE FROM notes WHERE id = ? AND user_id = ? *)
Definition delete_note (f : Fault) (id userID : Z) (st : Store)
  : option Z * Store :=
  let st1 := record (DeleteNote id userID) st in
  if stmt_fails f then (None, st1)
  else
    (Some (Z.of_nat (List.length (filter (matches id userID) (notes st)))),
     with_notes (filter (fun n => negb (matches id userID n)) (notes st))
                (notes_auto st) st1).

Section Users.
Context `{External}.

(** INSERT INTO users (username, password) VALUES (?, ?): refused when the
    name is taken ([username] is UNIQUE). *)
Definition insert_user (f : Fault) (name hash : string) (st : Store)
  : option Z * Store :=
  let st1 := record (InsertUser name hash) st in
  if stmt_fails f
     || existsb (fun u => username_eqb (username u) name) (users st)
  then (None, st1)
  else
    let id := users_auto st in
    (Some id, with_users (users st ++ [mkUserRow id name hash]) (id + 1) st1).

(** SELECT id, password FROM users WHERE username = ?, read with
    [QueryRow(...).Scan]: the first row, an error when there is none. *)
Definition select_user (f : Fault) (name : string) (st : Store)
  : option (Z * string) * Store :=
  let st1 := record (SelectUser name) st in
  if stmt_fails f then (None, st1)
  else
    match cut_rows f (filter (fun u => username_eqb (username u) name)
                             (users st)) with
    | [] => (None, st1)
    | u :: _ => (Some (user_id u, password u), st1)
    end.

(** Some row has the name, as the column compares names. *)
Definition name_taken (name : string) (st : Store) : Prop :=
  exists u, In u (users st) /\ username_eqb (username u) name = true.

(** The row a lookup by name yields when nothing goes wrong. *)
Definition find_user (name : string) (st : Store) : option UserRow :=
  find (fun u => username_eqb (username u) name) (users st).

End Users.

(** ** The handlers *)

Definition Handler (B : Type) : Type :=
  Env -> Request B -> Store -> Response * Store.

(** The [body] struct of every handler that decodes one has two string
    fields: [(Username, Password)] or [(Title, Content)]. *)
Definition Fields : Type := (string * string)%type.

(** [authMiddleware]: the user id it puts into the request's context under
    [userIDKey] is the first argument of the handler it wraps, which reads
    it back with [r.Context().Value(userIDKey).(int)]. *)
Definition authMiddleware {B : Type} (next : Z -> Handler B) : Handler B :=
  fun e r st =>
    match CookieOf r "session_token" with
    | None => (Error "unauthorized" StatusUnauthorized, st)
    | Some value =>
        match Atoi value with
        | None => (Error "invalid session" StatusUnauthorized, st)
        | Some userID => next userID e r st
        end
    end.

(** [http.SetCookie(w, c)] followed by [w.WriteHeader(code)]. *)
Definition SetCookie (c : Cookie) (code : Z) : Response :=
  {| Status := code; ContentType := None; SetCookies := [c];
     RespBody := NoBody |}.

Section Credentials.
Context `{External}.

Definition registerHandler : Handler Fields :=
  fun e r st =>
    if negb (String.eqb (Method r) MethodPost) then
      (Error "method not allowed" StatusMethodNotAllowed, st)
    else
      match Decoded r with
      | None => (Error "invalid JSON" StatusBadRequest, st)
      | Some (Username, Password) =>
          match GenerateFromPassword (random e) Password DefaultCost with
          | None => (Error "server error" StatusInternalServerError, st)
          | Some hashedPassword =>
              match insert_user (fault e) Username hashedPassword st with
              | (None, st1) =>
                  (Error "username already taken" StatusConflict, st1)
              | (Some _, st1) => (WriteHeader StatusCreated, st1)
              end
          end
      end.

Definition loginHandler : Handler Fields :=
  fun e r st =>
    if negb (String.eqb (Method r) MethodPost) then
      (Error "method not allowed" StatusMethodNotAllowed, st)
    else
      match Decoded r with
      | None => (Error "invalid JSON" StatusBadRequest, st)
      | Some (Username, Password) =>
          match select_user (fault e) Username st with
          | (None, st1) =>
              (Error "invalid credentials" StatusUnauthorized, st1)
          | (Some (id, hash), st1) =>
              if CompareHashAndPassword hash Password then
                (SetCookie {| Name := "session_token";
                              Value := Itoa id;
                              Expires := now e + 24 * Hour;
                              HttpOnly := true |} StatusOK, st1)
              else (Error "invalid credentials" StatusUnauthorized, st1)
          end
      end.

End Credentials.

Definition logoutHandler {B : Type} : Handler B :=
  fun e r st =>
    (SetCookie {| Name := "session_token";
                  Value := "";
                  Expires := now e + (-1) * Hour;
                  HttpOnly := true |} StatusOK, st).

Definition checkAuthHandler {B : Type} : Handler B :=
  fun e r st =>
    match CookieOf r "session_token" with
    | None => (WriteHeader StatusUnauthorized, st)
    | Some value =>
        match Atoi value with
        | None => (WriteHeader StatusUnauthorized, st)
        | Some _ => (WriteHeader StatusOK, st)
        end
    end.

(** [var notes []Note] and the [rows.Next()] loop: the slice stays nil
    when there is no row. *)
Definition collect (rows : list Note) : slice Note :=
  fold_left append rows None.

Definition getNotesHandler {B : Type} (userID : Z) : Handler B :=
  fun e r st =>
    match select_notes (fault e) userID st with
    | (None, st1) => (Error "db error" StatusInternalServerError, st1)
    | (Some rows, st1) =>
        (WriteJSON StatusOK (encode_slice encode_note (collect rows)), st1)
    end.

Definition createNoteHandler (userID : Z) : Handler Fields :=
  fun e r st =>
    match Decoded r with
    | None => (Error "invalid JSON" StatusBadRequest, st)
    | Some (Title0, Content0) =>
        let title := TrimSpace Title0 in
        if String.eqb title "" then
          (Error "title is required" StatusBadRequest, st)
        else
          match insert_note (fault e) userID title Content0 st with
          | (None, st1) => (Error "db error" StatusInternalServerError, st1)
          | (Some id64, st1) =>
              let note := {| ID := id64; UserID := userID;
                             Title := title; Content := Content0 |} in
              (WriteJSON StatusCreated (encode_note note), st1)
          end
    end.

Definition updateNoteHandler (userID : Z) : Handler Fields :=
  fun e r st =>
    let idStr := TrimPrefix (Path r) "/notes/" in
    match Atoi idStr with
    | None => (Error "invalid id" StatusBadRequest, st)
    | Some id =>
        if id <=? 0 then (Error "invalid id" StatusBadRequest, st)
        else
          match Decoded r with
          | None => (Error "invalid JSON" StatusBadRequest, st)
          | Some (Title0, Content0) =>
              let title := TrimSpace Title0 in
              if String.eqb title "" then
                (Error "title is required" StatusBadRequest, st)
              else
                match update_note (fault e) title Content0 id userID st with
                | (None, st1) =>
                    (Error "db error" StatusInternalServerError, st1)
                | (Some aff, st1) =>
                    if aff =? 0 then
                      (Error "note not found or unauthorized"
                             StatusNotFound, st1)
                    else
                      let note := {| ID := id; UserID := userID;
                                     Title := title;
                                     Content := Content0 |} in
                      (WriteJSON StatusOK (encode_note note), st1)
                end
          end
    end.

Definition deleteNoteHandler {B : Type} (userID : Z) : Handler B :=
  fun e r st =>
    let idStr := TrimPrefix (Path r) "/notes/" in
    match Atoi idStr with
    | None => (Error "invalid id" StatusBadRequest, st)
    | Some id =>
        if id <=? 0 then (Error "invalid id" StatusBadRequest, st)
        else
          match delete_note (fault e) id userID st with
          | (None, st1) => (Error "db error" StatusInternalServerError, st1)
          | (Some aff, st1) =>
              if aff =? 0 then
                (Error "note not found or unauthorized" StatusNotFound, st1)
              else (WriteHeader StatusNoContent, st1)
          end
    end.

Definition notesHandler (userID : Z) : Handler Fields :=
  fun e r st =>
    if String.eqb (Method r) MethodGet then getNotesHandler userID e r st
    else if String.eqb (Method r) MethodPost then
      createNoteHandler userID e r st
    else (Error "method not allowed" StatusMethodNotAllowed, st).

Definition noteItemHandler (userID : Z) : Handler Fields :=
  fun e r st =>
    if String.eqb (Method r) MethodPut then updateNoteHandler userID e r st
    else if String.eqb (Method r) MethodDelete then
      deleteNoteHandler userID e r st
    else (Error "method not allowed" StatusMethodNotAllowed, st).

(** The protected routes of [main]: [/notes] and [/notes/]. *)
Definition notesRoute : Handler Fields := authMiddleware notesHandler.
Definition noteItemRoute : Handler Fields := authMiddleware noteItemHandler.

(** ** Well-formed stores *)

(** What the schema guarantees: both keys are positive, below their
    counters and unique, the notes stand in the order of their ids (the
    order they were inserted in), and every note's owner is a row of
    [users]. *)
Definition wf (st : Store) : Prop :=
  1 <= users_auto st /\
  1 <= notes_auto st /\
  Forall (fun u => 1 <= user_id u < users_auto st) (users st) /\
  NoDup (map user_id (users st)) /\
  Forall (fun n => 1 <= ID n < notes_auto st) (notes st) /\
  StronglySorted Z.lt (map ID (notes st)) /\
  Forall (fun n => exists u, In u (users st) /\ user_id u = UserID n)
         (notes st).

(** The store [main] starts from when the database is new: [users] was
    just created and [notes] dropped and created again. *)
Definition empty_store (found_rows : bool) : Store :=
  {| users := []; users_auto := 1; notes := []; notes_auto := 1;
     clientFoundRows := found_rows; journal := [] |}.

(** The same tables without the note [id]. *)
Definition without_note (id : Z) (st : Store) : Store :=
  with_notes (filter (fun n => negb (ID n =? id)) (notes st))
             (notes_auto st) st.

(** A stand-in for bcrypt, with exact comparison of names, to run the
    handlers on examples: the "hash" is a tag, the salt and the password. *)
Definition model_external : External :=
  {| GenerateFromPassword := fun salt pw cost =>
       if 72 <? Z.of_nat (String.length pw) then None
       else Some ("$2a$" ++ salt ++ "$" ++ reverse pw)%string;
     CompareHashAndPassword := fun hash pw =>
       match strip_prefix (pw ++ "$")%string (reverse hash) with
       | Some _ => true
       | None => false
       end;
     username_eqb := String.eqb |}.

(** ** A small scenario

    alice and bob register; alice writes two notes and bob one. *)

Definition env0 : Env := {| now := 1700000000000000000; random := "salt";
                            fault := NoFault |}.

Definition post (path : string) (a b : string) : Request Fields :=
  mkRequest MethodPost path [] (Some (a, b)).

Definition put (path : string) (a b : string) : Request Fields :=
  mkRequest MethodPut path [] (Some (a, b)).

Definition delete (path : string) : Request Fields :=
  mkRequest MethodDelete path [] None.

Definition login_alice : Request Fields := post "/login" "alice" "pw1".
Definition create_milk : Request Fields := post "/notes" "  milk " "2l".
Definition update_milk : Request Fields := put "/notes/1" " oat milk " "1l".
Definition delete_milk : Request Fields := delete "/notes/1".
Definition bobs_note : Note := mkNote 2 2 "keys" "".

(** alice alone, with no note yet. *)
Definition alice_store : Store :=
  snd (@registerHandler model_external env0
         (post "/register" "alice" "pw1") (empty_store false)).

Definition demo_store : Store :=
  let X := model_external in
  let st1 := snd (registerHandler env0 (post "/register" "alice" "pw1")
                    (empty_store false)) in
  let st2 := snd (registerHandler env0 (post "/register" "bob" "pw2") st1) in
  let st3 := snd (createNoteHandler 1 env0 (post "/notes" "milk" "2l") st2) in
  let st4 := snd (createNoteHandler 2 env0 (post "/notes" "keys" "") st3) in
  snd (createNoteHandler 1 env0 (post "/notes" "rent" "due") st4).

(** ** The service as a machine *)


(** The routes that [main] registers for the API, each request with what
    it brings. *)
Inductive Call : Type :=
| Register (e : Env) (r : Request Fields)
| Login (e : Env) (r : Request Fields)
| Logout (e : Env) (r : Request Fields)
| CheckAuth (e : Env) (r : Request Fields)
| Notes (e : Env) (r : Request Fields)
| NoteItem (e : Env) (r : Request Fields).

Section Machine.
Context `{External}.

Definition step (c : Call) (st : Store) : Response * Store :=
  match c with
  | Register e r => registerHandler e r st
  | Login e r => loginHandler e r st
  | Logout e r => logoutHandler e r st
  | CheckAuth e r => checkAuthHandler e r st
  | Notes e r => notesRoute e r st
  | NoteItem e r => noteItemRoute e r st
  end.

Fixpoint run (cs : list Call) (st : Store) : list Response * Store :=
  match cs with
  | [] => ([], st)
  | c :: rest =>
      let '(resp, st1) := step c st in
      let '(resps, st2) := run rest st1 in
      (resp :: resps, st2)
  end.

End Machine.




(** What alice and bob did to get [demo_store], then: alice deletes her
    first note and writes another. *)
Definition demo_calls : list Call :=
  [ Register env0 (post "/register" "alice" "pw1");
    Register env0 (post "/register" "bob" "pw2");
    Notes env0 (mkRequest MethodPost "/notes" [("session_token", "1")]
                  (Some ("milk", "2l")));
    Notes env0 (mkRequest MethodPost "/notes" [("session_token", "2")]
                  (Some ("keys", "")));
    NoteItem env0 (mkRequest MethodDelete "/notes/1"
                     [("session_token", "1")] None);
    Notes env0 (mkRequest MethodPost "/notes" [("session_token", "1")]
                  (Some ("rent", "due"))) ].

End AuthNotes.

(* ================================================================== *)
(** * A table with an AUTO_INCREMENT key *)
(* ================================================================== *)

(** The two services without users keep one table each and send the same
    four kinds of statement to it.  The table and the statements are
    modelled once, over the type of the rows; the fault a statement can
    meet and the environment of a request are those of [AuthNotes]. *)
Module Table.
Import AuthNotes.

Section Rows.
Variables (Row Stmt : Type) (key : Row -> Z).

(** The table behind [db]: the rows in the order they were inserted in,
    the AUTO_INCREMENT counter, the connection's [clientFoundRows] setting
    and the statements received so far, latest first. *)
Record Store : Type := mkStore {
  rows : list Row;
  auto : Z;
  found_rows : bool;
  journal : list Stmt
}.

Definition record (s : Stmt) (st : Store) : Store :=
  {| rows := rows st; auto := auto st; found_rows := found_rows st;
     journal := s :: journal st |}.

Definition with_rows (l : list Row) (a : Z) (st : Store) : Store :=
  {| rows := l; auto := a; found_rows := found_rows st;
     journal := journal st |}.

(** ORDER BY id *)
Fixpoint insert_asc (r : Row) (l : list Row) : list Row :=
  match l with
  | [] => [r]
  | m :: rest =>
      if key r <? key m then r :: l else m :: insert_asc r rest
  end.

Definition order_asc (l : list Row) : list Row := fold_right insert_asc [] l.

(** ORDER BY id DESC *)
Fixpoint insert_desc (r : Row) (l : list Row) : list Row :=
  match l with
  | [] => [r]
  | m :: rest =>
      if key m <? key r then r :: l else m :: insert_desc r rest
  end.

Definition order_desc (l : list Row) : list Row :=
  fold_right insert_desc [] l.

(** SELECT ... FROM t ORDER BY ...: every row, in the order asked for. *)
Definition select (f : Fault) (s : Stmt) (order : list Row -> list Row)
  (st : Store) : option (list Row) * Store :=
  let st1 := record s st in
  if stmt_fails f then (None, st1)
  else (Some (cut_rows f (order (rows st))), st1).

(** INSERT INTO t (...) VALUES (...): the new id on success. *)
Definition insert (f : Fault) (s : Stmt) (mk : Z -> Row) (st : Store)
  : option Z * Store :=
  let st1 := record s st in
  if stmt_fails f then (None, st1)
  else
    let id := auto st in
    (Some id, with_rows (rows st ++ [mk id]) (id + 1) st1).

(** UPDATE t SET ... WHERE id = ?: [set] writes the columns, [same] tells
    whether a row already holds them; the number of rows affected counts
    the rows found under [clientFoundRows] and the rows changed
    otherwise. *)
Definition update (f : Fault) (s : Stmt) (id : Z) (set : Row -> Row)
  (same : Row -> bool) (st : Store) : option Z * Store :=
  let st1 := record s st in
  if stmt_fails f then (None, st1)
  else
    let counted r := (key r =? id) && (found_rows st || negb (same r)) in
    (Some (Z.of_nat (List.length (filter counted (rows st)))),
     with_rows (map (fun r => if key r =? id then set r else r) (rows st))
               (auto st) st1).

(** DELETE FROM t WHERE id = ? *)
Definition delete (f : Fault) (s : Stmt) (id : Z) (st : Store)
  : option Z * Store :=
  let st1 := record s st in
  if stmt_fails f then (None, st1)
  else
    (Some (Z.of_nat (List.length (filter (fun r => key r =? id) (rows st)))),
     with_rows (filter (fun r => negb (key r =? id)) (rows st))
               (auto st) st1).

(** What the schema guarantees: the ids are positive, below the counter,
    and increase along the table. *)
Definition wf (st : Store) : Prop :=
  1 <= auto st /\
  Forall (fun r => 1 <= key r < auto st) (rows st) /\
  StronglySorted Z.lt (map key (rows st)).

(** The same rows, counter and setting (the journal may differ). *)
Definition same_table (st st' : Store) : Prop :=
  rows st' = rows st /\ auto st' = auto st /\
  found_rows st' = found_rows st.

End Rows.

Arguments rows {Row Stmt}.
Arguments auto {Row Stmt}.
Arguments found_rows {Row Stmt}.
Arguments journal {Row Stmt}.
Arguments mkStore {Row Stmt}.
Arguments record {Row Stmt}.
Arguments with_rows {Row Stmt}.
Arguments select {Row Stmt}.
Arguments insert {Row Stmt}.
Arguments update {Row Stmt}.
Arguments delete {Row Stmt}.
Arguments wf {Row Stmt}.
Arguments same_table {Row Stmt}.
Arguments order_asc {Row}.
Arguments order_desc {Row}.
Arguments insert_asc {Row}.
Arguments insert_desc {Row}.

End Table.

(* ================================================================== *)
(** * The notes service without users *)
(* ================================================================== *)

Module PlainNotes.
Import Table.

Record Note : Type := mkNote {
  ID : Z;
  Title : string;
  Content : string
}.

Definition encode_note (n : Note) : JSON :=
  JObj [("id", JNum (ID n)); ("title", JStr (Title n));
        ("content", JStr (Content n))].

Inductive Stmt : Type :=
| SelectNotes
| InsertNote (title content : string)
| UpdateNote (title content : string) (id : Z)
| DeleteNote (id : Z).

Definition Store : Type := Table.Store Note Stmt.
Definition Env : Type := AuthNotes.Env.
Definition fault : Env -> AuthNotes.Fault := AuthNotes.fault.

Definition Handler (B : Type) : Type :=
  Env -> Request B -> Store -> Response * Store.

Definition Fields : Type := (string * string)%type.

Definition getNotesHandler {B : Type} : Handler B :=
  fun e r st =>
    match select (fault e) SelectNotes (order_desc ID) st with
    | (None, st1) => (Error "db error" StatusInternalServerError, st1)
    | (Some rows, st1) =>
        (WriteJSON StatusOK
           (encode_slice encode_note (fold_left append rows None)), st1)
    end.

Definition createNoteHandler : Handler Fields :=
  fun e r st =>
    match Decoded r with
    | None => (Error "invalid JSON" StatusBadRequest, st)
    | Some (Title0, Content0) =>
        let title := TrimSpace Title0 in
        if String.eqb title "" then
          (Error "title is required" StatusBadRequest, st)
        else
          match insert (fault e) (InsertNote title Content0)
                       (fun id => mkNote id title Content0) st with
          | (None, st1) => (Error "db error" StatusInternalServerError, st1)
          | (Some id64, st1) =>
              let note := {| ID := id64; Title := title;
                             Content := Content0 |} in
              (WriteJSON StatusCreated (encode_note note), st1)
          end
    end.

Definition updateNoteHandler : Handler Fields :=
  fun e r st =>
    let idStr := TrimPrefix (Path r) "/notes/" in
    match Atoi idStr with
    | None => (Error "invalid id" StatusBadRequest, st)
    | Some id =>
        if id <=? 0 then (Error "invalid id" StatusBadRequest, st)
        else
          match Decoded r with
          | None => (Error "invalid JSON" StatusBadRequest, st)
          | Some (Title0, Content0) =>
              let title := TrimSpace Title0 in
              if String.eqb title "" then
                (Error "title is required" StatusBadRequest, st)
              else
                match update ID (fault e) (UpdateNote title Content0 id) id
                        (fun n => mkNote (ID n) title Content0)
                        (fun n => String.eqb (Title n) title
                                  && String.eqb (Content n) Content0)
                        st with
                | (None, st1) =>
                    (Error "db error" StatusInternalServerError, st1)
                | (Some aff, st1) =>
                    if aff =? 0 then
                      (Error "note not found" StatusNotFound, st1)
                    else
                      let note := {| ID := id; Title := title;
                                     Content := Content0 |} in
                      (WriteJSON StatusOK (encode_note note), st1)
                end
          end
    end.

Definition deleteNoteHandler {B : Type} : Handler B :=
  fun e r st =>
    let idStr := TrimPrefix (Path r) "/notes/" in
    match Atoi idStr with
    | None => (Error "invalid id" StatusBadRequest, st)
    | Some id =>
        if id <=? 0 then (Error "invalid id" StatusBadRequest, st)
        else
          match delete ID (fault e) (DeleteNote id) id st with
          | (None, st1) => (Error "db error" StatusInternalServerError, st1)
          | (Some aff, st1) =>
              if aff =? 0 then (Error "note not found" StatusNotFound, st1)
              else (WriteHeader StatusNoContent, st1)
          end
    end.

Definition notesHandler : Handler Fields :=
  fun e r st =>
    if String.eqb (Method r) MethodGet then getNotesHandler e r st
    else if String.eqb (Method r) MethodPost then createNoteHandler e r st
    else (Error "method not allowed" StatusMethodNotAllowed, st).

Definition noteItemHandler : Handler Fields :=
  fun e r st =>
    if String.eqb (Method r) MethodPut then updateNoteHandler e r st
    else if String.eqb (Method r) MethodDelete then deleteNoteHandler e r st
    else (Error "method not allowed" StatusMethodNotAllowed, st).

(** The table [main] creates when there is none. *)
Definition empty_store (found : bool) : Store :=
  {| rows := []; auto := 1; found_rows := found; journal := [] |}.

Definition env0 : Env := AuthNotes.env0.

(** Three notes written, the second deleted. *)
Definition demo_store : Store :=
  let post a b := mkRequest MethodPost "/notes" [] (Some (a, b)) in
  let st1 := snd (createNoteHandler env0 (post "milk" "2l")
                    (empty_store false)) in
  let st2 := snd (createNoteHandler env0 (post "keys" "") st1) in
  let st3 := snd (createNoteHandler env0 (post "rent" "due") st2) in
  snd (deleteNoteHandler env0
         (mkRequest MethodDelete "/notes/2" [] (@None Fields)) st3).

End PlainNotes.

(* ================================================================== *)
(** * The todo service on the database *)
(* ================================================================== *)

Module DbTodo.
Import Table.

Record Todo : Type := mkTodo {
  ID : Z;
  Title : string;
  Done : bool
}.

Definition encode_todo (t : Todo) : JSON :=
  JObj [("id", JNum (ID t)); ("title", JStr (Title t));
        ("done", JBool (Done t))].

Inductive Stmt : Type :=
| SelectTodos
| InsertTodo (title : string)
| UpdateTodo (title : string) (done : bool) (id : Z)
| DeleteTodo (id : Z).

Definition Store : Type := Table.Store Todo Stmt.
Definition Env : Type := AuthNotes.Env.
Definition fault : Env -> AuthNotes.Fault := AuthNotes.fault.

Definition Handler (B : Type) : Type :=
  Env -> Request B -> Store -> Response * Store.

Definition getTodosHandler {B : Type} : Handler B :=
  fun e r st =>
    match select (fault e) SelectTodos (order_asc ID) st with
    | (None, st1) => (Error "db error" StatusInternalServerError, st1)
    | (Some rows, st1) =>
        (WriteJSON StatusOK
           (encode_slice encode_todo (fold_left append rows None)), st1)
    end.

(** The [body] struct of [createTodoHandler] has the title only. *)
Definition createTodoHandler : Handler string :=
  fun e r st =>
    match Decoded r with
    | None => (Error "invalid JSON" StatusBadRequest, st)
    | Some Title0 =>
        let title := TrimSpace Title0 in
        if String.eqb title "" then
          (Error "title is required" StatusBadRequest, st)
        else
          match insert (fault e) (InsertTodo title)
                       (fun id => mkTodo id title false) st with
          | (None, st1) => (Error "db error" StatusInternalServerError, st1)
          | (Some id64, st1) =>
              let todo := {| ID := id64; Title := title; Done := false |} in
              (WriteJSON StatusCreated (encode_todo todo), st1)
          end
    end.

Definition updateTodoHandler : Handler (string * bool) :=
  fun e r st =>
    let idStr := TrimPrefix (Path r) "/todos/" in
    match Atoi idStr with
    | None => (Error "invalid id" StatusBadRequest, st)
    | Some id =>
        if id <=? 0 then (Error "invalid id" StatusBadRequest, st)
        else
          match Decoded r with
          | None => (Error "invalid JSON" StatusBadRequest, st)
          | Some (Title0, Done0) =>
              let title := TrimSpace Title0 in
              if String.eqb title "" then
                (Error "title is required" StatusBadRequest, st)
              else
                match update ID (fault e) (UpdateTodo title Done0 id) id
                        (fun t => mkTodo (ID t) title Done0)
                        (fun t => String.eqb (Title t) title
                                  && Bool.eqb (Done t) Done0)
                        st with
                | (None, st1) =>
                    (Error "db error" StatusInternalServerError, st1)
                | (Some aff, st1) =>
                    if aff =? 0 then
                      (Error "todo not found" StatusNotFound, st1)
                    else
                      let todo := {| ID := id; Title := title;
                                     Done := Done0 |} in
                      (WriteJSON StatusOK (encode_todo todo), st1)
                end
          end
    end.

Definition deleteTodoHandler {B : Type} : Handler B :=
  fun e r st =>
    let idStr := TrimPrefix (Path r) "/todos/" in
    match Atoi idStr with
    | None => (Error "invalid id" StatusBadRequest, st)
    | Some id =>
        if id <=? 0 then (Error "invalid id" StatusBadRequest, st)
        else
          match delete ID (fault e) (DeleteTodo id) id st with
          | (None, st1) => (Error "db error" StatusInternalServerError, st1)
          | (Some aff, st1) =>
              if aff =? 0 then (Error "todo not found" StatusNotFound, st1)
              else (WriteHeader StatusNoContent, st1)
          end
    end.

Definition todosHandler : Handler string :=
  fun e r st =>
    if String.eqb (Method r) MethodGet then getTodosHandler e r st
    else if String.eqb (Method r) MethodPost then createTodoHandler e r st
    else (Error "method not allowed" StatusMethodNotAllowed, st).

Definition todoItemHandler : Handler (string * bool) :=
  fun e r st =>
    if String.eqb (Method r) MethodPut then updateTodoHandler e r st
    else if String.eqb (Method r) MethodDelete then deleteTodoHandler e r st
    else (Error "method not allowed" StatusMethodNotAllowed, st).

Definition env0 : Env := AuthNotes.env0.

Definition empty_store (found : bool) : Store :=
  {| rows := []; auto := 1; found_rows := found; journal := [] |}.

(** Two todos written. *)
Definition demo_store : Store :=
  let post a := mkRequest MethodPost "/todos" [] (Some a) in
  let st1 := snd (createTodoHandler env0 (post " wash ")
                    (empty_store false)) in
  snd (createTodoHandler env0 (post "cook") st1).

End DbTodo.

(* ================================================================== *)
(** * Facts about the library model *)
(* ================================================================== *)

Example TrimSpace_ex1 : TrimSpace "  a b  " = "a b".
Proof. reflexivity. Qed.

Example TrimSpace_ex2 :
  TrimSpace (bytes [9; 194; 160; 226; 128; 131; 10]%N) = "".
Proof. reflexivity. Qed.

Example TrimSpace_ex3 :
  TrimSpace (bytes [194; 160; 104; 105; 227; 128; 128]%N) = "hi".
Proof. reflexivity. Qed.

Example Atoi_ex :
  Atoi "42" = Some 42 /\ Atoi "-7" = Some (-7) /\ Atoi "+0" = Some 0 /\
  Atoi "007" = Some 7 /\ Atoi "" = None /\ Atoi "-" = None /\
  Atoi "12a" = None /\ Atoi " 1" = None /\
  Atoi "9223372036854775807" = Some max_int /\
  Atoi "9223372036854775808" = None /\
  Atoi "-9223372036854775808" = Some min_int.
Proof. repeat split; reflexivity. Qed.

Example Itoa_ex : Itoa 0 = "0" /\ Itoa 15 = "15" /\ Itoa (-230) = "-230".
Proof. repeat split; reflexivity. Qed.


(** ** [Atoi] reads back what [Itoa] writes *)

Module GoLibFacts.

Lemma digits_val_cons (acc : Z) (c : ascii) (r : string) :
  is_digit c = true ->
  digits_val acc (String c r) = digits_val (acc * 10 + digit_val c) r.
Proof. intros Hc. simpl. now rewrite Hc. Qed.

Ltac digit_step IH :=
  rewrite digits_val_cons by reflexivity;
  match goal with
  | |- digits_val (?a * 10 + digit_val ?c) _ = _ =>
      let v := eval vm_compute in (digit_val c) in
      change (digit_val c) with v
  end;
  try (rewrite <- IH; f_equal; lia).

Lemma digits_val_acc (d : Decimal.uint) : forall p : positive,
  digits_val (Z.pos p) (NilEmpty.string_of_uint d)
  = Some (Z.pos (Pos.of_uint_acc d p)).
Proof.
  induction d as [|d IH|d IH|d IH|d IH|d IH|d IH|d IH|d IH|d IH|d IH];
    intros p; cbn [NilEmpty.string_of_uint Pos.of_uint_acc];
    [reflexivity | digit_step IH ..].
Qed.

Lemma digits_val_uint (d : Decimal.uint) :
  digits_val 0 (NilEmpty.string_of_uint d) = Some (Z.of_N (Pos.of_uint d)).
Proof.
  induction d as [|d IH|d IH|d IH|d IH|d IH|d IH|d IH|d IH|d IH|d IH];
    cbn [NilEmpty.string_of_uint Pos.of_uint];
    [reflexivity | rewrite digits_val_cons by reflexivity; exact IH
    | rewrite digits_val_cons by reflexivity; apply digits_val_acc .. ].
Qed.

Lemma string_of_uint_head (d : Decimal.uint) :
  d <> Decimal.Nil ->
  exists c r, NilEmpty.string_of_uint d = String c r /\ is_digit c = true.
Proof.
  destruct d; intros Hd; try (now contradiction Hd);
    simpl; eexists _, _; split; reflexivity.
Qed.

Lemma Atoi_unsigned (c : ascii) (r : string) :
  is_digit c = true ->
  Atoi (String c r) =
  match digits_val 0 (String c r) with
  | None => None
  | Some n => if (min_int <=? n) && (n <=? max_int) then Some n else None
  end.
Proof.
  destruct c as [[] [] [] [] [] [] [] []]; intros Hc;
    try discriminate Hc; reflexivity.
Qed.

Lemma Atoi_pos (p : positive) :
  Z.pos p <= max_int ->
  Atoi (NilEmpty.string_of_uint (Pos.to_uint p)) = Some (Z.pos p).
Proof.
  intros Hp.
  destruct (string_of_uint_head _ (Unsigned.to_uint_nonnil p))
    as (c & r & Hs & Hc).
  rewrite Hs, (Atoi_unsigned c r Hc), <- Hs, digits_val_uint.
  rewrite DecimalPos.Unsigned.of_to. simpl Z.of_N.
  replace ((min_int <=? Z.pos p) && (Z.pos p <=? max_int)) with true;
    [reflexivity|].
  symmetry. apply andb_true_iff. unfold min_int. split; apply Z.leb_le; lia.
Qed.

Lemma Atoi_neg (p : positive) :
  min_int <= Z.neg p ->
  Atoi (String "-" (NilEmpty.string_of_uint (Pos.to_uint p)))
  = Some (Z.neg p).
Proof.
  intros Hp.
  destruct (string_of_uint_head _ (Unsigned.to_uint_nonnil p))
    as (c & r & Hs & Hc).
  unfold Atoi. rewrite Hs, <- Hs, digits_val_uint.
  rewrite DecimalPos.Unsigned.of_to. simpl Z.of_N.
  change (- Z.pos p) with (Z.neg p).
  replace ((min_int <=? Z.neg p) && (Z.neg p <=? max_int)) with true;
    [reflexivity|].
  symmetry. apply andb_true_iff. unfold max_int. split; apply Z.leb_le; lia.
Qed.

(** The user id that [loginHandler] writes into the cookie is the one
    [authMiddleware] reads out of it. *)
Lemma Atoi_Itoa (n : Z) :
  min_int <= n <= max_int -> Atoi (Itoa n) = Some n.
Proof.
  intros [Hlo Hhi]. unfold Itoa. destruct n as [|p|p]; simpl Z.to_int.
  - reflexivity.
  - unfold NilZero.string_of_int, NilZero.string_of_uint.
    pose proof (Unsigned.to_uint_nonnil p) as Hnil.
    destruct (Pos.to_uint p) eqn:E; try (now contradiction Hnil);
      rewrite <- E; now apply Atoi_pos.
  - unfold NilZero.string_of_int, NilZero.string_of_uint.
    pose proof (Unsigned.to_uint_nonnil p) as Hnil.
    destruct (Pos.to_uint p) eqn:E; try (now contradiction Hnil);
      rewrite <- E; now apply Atoi_neg.
Qed.

(** What [Atoi] accepts fits an [int]. *)
Lemma Atoi_range (s : string) (n : Z) :
  Atoi s = Some n -> min_int <= n <= max_int.
Proof.
  unfold Atoi.
  destruct (match s with
            | String "-" r => (true, r)
            | String "+" r => (false, r)
            | _ => (false, s)
            end) as [neg body].
  destruct body as [|c r]; [discriminate|].
  destruct (digits_val 0 (String c r)) as [v|]; [|discriminate].
  destruct ((min_int <=? (if neg then - v else v))
            && ((if neg then - v else v) <=? max_int)) eqn:E; [|discriminate].
  intros [= <-]. apply andb_true_iff in E as [H1 H2].
  apply Z.leb_le in H1, H2. lia.
Qed.

End GoLibFacts.

(* ================================================================== *)
(** * Lists in increasing order *)
(* ================================================================== *)

Module ListFacts.

Lemma sorted_snoc (l : list Z) (x : Z) :
  StronglySorted Z.lt l -> Forall (fun y => y < x) l ->
  StronglySorted Z.lt (l ++ [x]).
Proof.
  induction 1 as [|y l Hs IH Hy]; intros Hlt; simpl.
  - repeat constructor.
  - inversion Hlt; subst. constructor.
    + now apply IH.
    + apply Forall_app. split; [assumption | now repeat constructor].
Qed.

Lemma sorted_remove (l1 l2 : list Z) (x : Z) :
  StronglySorted Z.lt (l1 ++ x :: l2) -> StronglySorted Z.lt (l1 ++ l2).
Proof.
  induction l1 as [|y l1 IH]; simpl; intros Hs.
  - now inversion Hs.
  - inversion Hs as [|? ? Hs' Hall]; subst. constructor.
    + now apply IH.
    + apply Forall_app in Hall as [H1 H2]. inversion H2; subst.
      apply Forall_app. now split.
Qed.

Lemma sorted_NoDup (l : list Z) : StronglySorted Z.lt l -> NoDup l.
Proof.
  induction 1 as [|x l Hs IH Hx]; constructor; [|exact IH].
  intros Hin. rewrite Forall_forall in Hx. specialize (Hx x Hin). lia.
Qed.

Lemma sorted_map_filter {A : Type} (key : A -> Z) (p : A -> bool)
  (l : list A) :
  StronglySorted Z.lt (map key l) ->
  StronglySorted Z.lt (map key (filter p l)).
Proof.
  induction l as [|a l IH]; simpl; intros Hs; [constructor|].
  inversion Hs as [|? ? Hs' Ha]; subst.
  destruct (p a); simpl; [|now apply IH].
  constructor; [now apply IH|].
  apply Forall_forall. intros k Hk. apply in_map_iff in Hk as (x & <- & Hx).
  apply filter_In in Hx as [Hx _]. rewrite Forall_forall in Ha.
  apply Ha. now apply in_map.
Qed.

Lemma Forall_filter {A : Type} (P : A -> Prop) (p : A -> bool)
  (l : list A) :
  Forall P l -> Forall P (filter p l).
Proof.
  intros Hl. apply Forall_forall. intros x Hx.
  apply filter_In in Hx as [Hx _]. rewrite Forall_forall in Hl. now apply Hl.
Qed.

Lemma filter_none {A : Type} (p : A -> bool) (l : list A) :
  (forall x, In x l -> p x = false) -> filter p l = [].
Proof.
  induction l as [|a l IH]; simpl; intros Hp; [reflexivity|].
  rewrite (Hp a (or_introl eq_refl)). apply IH. intros x Hx. apply Hp. now right.
Qed.

Lemma filter_all {A : Type} (p : A -> bool) (l : list A) :
  (forall x, In x l -> p x = true) -> filter p l = l.
Proof.
  induction l as [|a l IH]; simpl; intros Hp; [reflexivity|].
  rewrite (Hp a (or_introl eq_refl)). f_equal. apply IH.
  intros x Hx. apply Hp. now right.
Qed.

Lemma filter_some {A : Type} (p : A -> bool) (l : list A) :
  filter p l <> [] -> exists x, In x l /\ p x = true.
Proof.
  intros Hne. destruct (filter p l) as [|x rest] eqn:E; [now contradiction Hne|].
  assert (Hin : In x (filter p l)) by (rewrite E; now left).
  apply filter_In in Hin. now exists x.
Qed.

Lemma find_filter {A : Type} (p : A -> bool) (l : list A) :
  find p l = match filter p l with [] => None | x :: _ => Some x end.
Proof.
  induction l as [|a l IH]; simpl; [reflexivity|].
  destruct (p a); [reflexivity | exact IH].
Qed.

End ListFacts.

(* ================================================================== *)
(** * The in-memory todo service: ids *)
(* ================================================================== *)

Module MemTodoProofs.
Import MemTodo ListFacts.

Lemma wrap_int_small (z : Z) :
  min_int <= z <= max_int -> wrap_int z = z.
Proof.
  unfold wrap_int, min_int, max_int. intros Hz.
  rewrite Z.mod_small; lia.
Qed.

Lemma In_zseq (n : nat) : forall a x,
  In x (zseq a n) <-> a <= x < a + Z.of_nat n.
Proof.
  induction n as [|n IH]; intros a x; simpl zseq.
  - simpl. lia.
  - simpl In. rewrite IH. lia.
Qed.

Lemma zseq_app (n m : nat) : forall a,
  zseq a (n + m) = zseq a n ++ zseq (a + Z.of_nat n) m.
Proof.
  induction n as [|n IH]; intros a.
  - simpl. f_equal. lia.
  - cbn [Nat.add zseq app]. rewrite IH. do 3 f_equal. lia.
Qed.

Lemma zseq_sorted (n : nat) : forall a, StronglySorted Z.lt (zseq a n).
Proof.
  induction n as [|n IH]; intros a; simpl; constructor.
  - apply IH.
  - apply Forall_forall. intros x Hx. apply In_zseq in Hx. lia.
Qed.

(** The slice expression of [deleteTodoHandler] takes out exactly the
    element the search loop stopped at, the first one with the id. *)
Lemma find_index_split (id : Z) (l : list Todo) : forall index,
  find_index id l = Some index ->
  exists l1 t l2,
    l = l1 ++ t :: l2 /\ ID t = id /\
    Forall (fun x => ID x <> id) l1 /\
    firstn index l ++ skipn (S index) l = l1 ++ l2.
Proof.
  induction l as [|t l IH]; intros index; simpl.
  - discriminate.
  - destruct (ID t =? id) eqn:E.
    + intros [= <-]. exists [], t, l. apply Z.eqb_eq in E.
      repeat split; auto.
    + destruct (find_index id l) as [i|]; simpl; [|discriminate].
      intros [= <-]. destruct (IH i eq_refl) as (l1 & t' & l2 & -> & Hid & Hl1 & Hcut).
      exists (t :: l1), t', l2. apply Z.eqb_neq in E.
      repeat split; auto. simpl. now rewrite <- Hcut.
Qed.

(** The loop of [updateTodoHandler] changes no id and moves nothing. *)
Lemma update_first_ids (id : Z) (title : string) (done : bool)
  (l : list Todo) : forall t' l',
  update_first id title done l = Some (t', l') ->
  map ID l' = map ID l /\ ID t' = id.
Proof.
  induction l as [|t l IH]; intros t' l'; simpl.
  - discriminate.
  - destruct (ID t =? id) eqn:E.
    + intros [= <- <-]. apply Z.eqb_eq in E. simpl. auto.
    + destruct (update_first id title done l) as [[u r]|]; [|discriminate].
      intros [= <- <-]. destruct (IH u r eq_refl) as [Hm Hu].
      simpl. now rewrite Hm.
Qed.

Lemma Inv_init : Inv init.
Proof. unfold Inv, init; simpl. repeat split; try lia; constructor. Qed.

Lemma Inv_of_ids (st st' : State) :
  Inv st -> map ID (todos st') = map ID (todos st) ->
  nextID st' = nextID st -> Inv st'.
Proof.
  intros (H1 & Hs & Hb) Hm Hn. unfold Inv. rewrite Hm, Hn.
  repeat split; auto.
  assert (Hb' : Forall (fun i => 1 <= i < nextID st) (map ID (todos st')))
    by (rewrite Hm; apply Forall_map; exact Hb).
  apply Forall_map in Hb'. exact Hb'.
Qed.

(** A successful create hands out the counter and advances it by one. *)
Lemma create_spec (r : Request string) (st : State) resp st' :
  nextID st < max_int -> 1 <= nextID st ->
  createTodoHandler r st = (resp, st') ->
  Status resp = StatusCreated ->
  exists title,
    Decoded r = Some title /\
    resp = WriteJSON StatusCreated (encode_todo (mkTodo (nextID st) title false)) /\
    todos st' = todos st ++ [mkTodo (nextID st) title false] /\
    nextID st' = nextID st + 1.
Proof.
  intros Hmax Hpos. unfold createTodoHandler.
  destruct (Decoded r) as [title|]; [|intros [= <- <-]; discriminate].
  destruct (String.eqb (TrimSpace title) ""); [intros [= <- <-]; discriminate|].
  intros [= <- <-] _. exists title. simpl. repeat split.
  apply wrap_int_small. unfold min_int, max_int in *. lia.
Qed.

(** A successful delete takes one todo out and leaves the others in their
    order. *)
Lemma delete_spec {B : Type} (r : Request B) (st : State) resp st' :
  deleteTodoHandler r st = (resp, st') ->
  Status resp = StatusNoContent ->
  exists l1 t l2,
    todos st = l1 ++ t :: l2 /\ todos st' = l1 ++ l2 /\
    nextID st' = nextID st.
Proof.
  unfold deleteTodoHandler.
  destruct (Atoi _) as [id|]; [|intros [= <- <-]; discriminate].
  destruct (id <=? 0); [intros [= <- <-]; discriminate|].
  destruct (find_index id (todos st)) as [index|] eqn:E;
    [|intros [= <- <-]; discriminate].
  intros [= <- <-] _.
  destruct (find_index_split _ _ _ E) as (l1 & t & l2 & Hl & _ & _ & Hcut).
  exists l1, t, l2. simpl. auto.
Qed.

Lemma delete_other {B : Type} (r : Request B) (st : State) resp st' :
  deleteTodoHandler r st = (resp, st') ->
  Status resp <> StatusNoContent -> st' = st /\ created_id resp = None.
Proof.
  unfold deleteTodoHandler.
  destruct (Atoi _) as [id|]; [|intros [= <- <-]; auto].
  destruct (id <=? 0); [intros [= <- <-]; auto|].
  destruct (find_index id (todos st)); [|intros [= <- <-]; auto].
  intros [= <- <-] Hs. now contradiction Hs.
Qed.

(** What one request does to the counter: it hands out its value and
    advances it, or hands out nothing and leaves it. *)
Definition Effect (st : State) (resp : Response) (st' : State) : Prop :=
  Inv st' /\
  ((created_id resp = Some (nextID st) /\ nextID st' = nextID st + 1) \/
   (created_id resp = None /\ nextID st' = nextID st)).

Lemma Effect_same (st : State) (resp : Response) :
  Inv st -> created_id resp = None -> Effect st resp st.
Proof. intros Hi Hc. split; auto. Qed.

Lemma create_effect (r : Request string) (st : State) resp st' :
  Inv st -> nextID st < max_int ->
  createTodoHandler r st = (resp, st') -> Effect st resp st'.
Proof.
  intros Hi Hmax Hrun.
  destruct (Z.eq_dec (Status resp) StatusCreated) as [Hc|Hc].
  - destruct Hi as (H1 & Hs & Hb).
    destruct (create_spec r st resp st' Hmax H1 Hrun Hc)
      as (title & _ & -> & Ht & Hn).
    split; [|left; split; [reflexivity | exact Hn]].
    unfold Inv. rewrite Ht, Hn, map_app. simpl. repeat split; try lia.
    + apply sorted_snoc; [exact Hs|].
      apply Forall_map. eapply Forall_impl; [|exact Hb]. simpl. lia.
    + apply Forall_app. split.
      * eapply Forall_impl; [|exact Hb]. simpl. lia.
      * repeat constructor; simpl; lia.
  - revert Hrun Hc. unfold createTodoHandler.
    destruct (Decoded r) as [title|];
      [|intros [= <- <-] _; now apply Effect_same].
    destruct (String.eqb (TrimSpace title) "");
      [intros [= <- <-] _; now apply Effect_same|].
    intros [= <- <-] Hc. now contradiction Hc.
Qed.

Lemma update_effect (r : Request (string * bool)) (st : State) resp st' :
  Inv st -> updateTodoHandler r st = (resp, st') -> Effect st resp st'.
Proof.
  intros Hi. unfold updateTodoHandler.
  destruct (Atoi _) as [id|]; [|intros [= <- <-]; now apply Effect_same].
  destruct (id <=? 0); [intros [= <- <-]; now apply Effect_same|].
  destruct (Decoded r) as [[title done]|];
    [|intros [= <- <-]; now apply Effect_same].
  destruct (String.eqb (TrimSpace title) "");
    [intros [= <- <-]; now apply Effect_same|].
  destruct (update_first id title done (todos st)) as [[t' l']|] eqn:E;
    [|intros [= <- <-]; now apply Effect_same].
  intros [= <- <-]. destruct (update_first_ids _ _ _ _ _ _ E) as [Hm _].
  split; [|right; split; reflexivity].
  now apply (Inv_of_ids st).
Qed.

Lemma delete_effect {B : Type} (r : Request B) (st : State) resp st' :
  Inv st -> deleteTodoHandler r st = (resp, st') -> Effect st resp st'.
Proof.
  intros Hi Hrun.
  destruct (Z.eq_dec (Status resp) StatusNoContent) as [Hc|Hc].
  - destruct (delete_spec r st resp st' Hrun Hc)
      as (l1 & t & l2 & Ht & Ht' & Hn).
    destruct Hi as (H1 & Hs & Hb). split.
    + unfold Inv. rewrite Ht', Hn. rewrite Ht in Hs, Hb.
      rewrite map_app in *. simpl in Hs. repeat split; auto.
      * now apply sorted_remove in Hs.
      * apply Forall_app in Hb as [Hb1 Hb2]. inversion Hb2; subst.
        apply Forall_app. now split.
    + right. split; [|exact Hn]. unfold created_id. now rewrite Hc.
  - destruct (delete_other r st resp st' Hrun Hc) as [-> Hn].
    now apply Effect_same.
Qed.

Lemma step_effect (c : Call) (st : State) resp st' :
  Inv st -> nextID st < max_int ->
  step c st = (resp, st') -> Effect st resp st'.
Proof.
  intros Hi Hmax. destruct c as [r|r]; simpl.
  - unfold todosHandler.
    destruct (String.eqb (Method r) MethodGet).
    { intros [= <- <-]. now apply Effect_same. }
    destruct (String.eqb (Method r) MethodPost).
    { now apply create_effect. }
    intros [= <- <-]. now apply Effect_same.
  - unfold todoItemHandler.
    destruct (String.eqb (Method r) MethodPut).
    { now apply update_effect. }
    destruct (String.eqb (Method r) MethodDelete).
    { now apply delete_effect. }
    intros [= <- <-]. now apply Effect_same.
Qed.

(** Over any sequence of requests the ids handed out are consecutive,
    starting at the counter. *)
Lemma run_effect (cs : list Call) : forall st resps st',
  Inv st -> nextID st + Z.of_nat (List.length cs) <= max_int ->
  run cs st = (resps, st') ->
  Inv st' /\
  created_ids resps = zseq (nextID st) (List.length (created_ids resps)) /\
  nextID st' = nextID st + Z.of_nat (List.length (created_ids resps)) /\
  (List.length (created_ids resps) <= List.length cs)%nat.
Proof.
  induction cs as [|c cs IH]; intros st resps st' Hi Hmax; simpl run.
  - intros [= <- <-]. split; [exact Hi|]. simpl. repeat split; lia.
  - destruct (step c st) as [resp st1] eqn:Es.
    destruct (run cs st1) as [resps1 st2] eqn:Er.
    intros [= <- <-].
    assert (Hlt : nextID st < max_int) by (simpl List.length in Hmax; lia).
    destruct (step_effect c st resp st1 Hi Hlt Es) as [Hi1 Hc].
    assert (Hmax1 : nextID st1 + Z.of_nat (List.length cs) <= max_int)
      by (simpl List.length in Hmax; destruct Hc as [[_ ->]|[_ ->]]; lia).
    destruct (IH st1 resps1 st2 Hi1 Hmax1 Er) as (Hi2 & Hids & Hn & Hlen).
    split; [exact Hi2|]. simpl created_ids.
    destruct Hc as [[-> Hn1]|[-> Hn1]]; simpl List.length.
    + rewrite Hn1 in Hids, Hn. simpl zseq. rewrite <- Hids.
      repeat split; auto; lia.
    + rewrite Hn1 in Hids, Hn. repeat split; auto; lia.
Qed.

(** C10.  In the in-memory service, after any sequence of fewer than
    2^63 - 2 requests from the initial state: the ids handed out by the
    successful creates are 1, 2, 3, ... in that order (so none is handed
    out twice, whatever was deleted in between) and the counter is one
    above the last of them; the ids in the list are strictly increasing,
    hence unique, and each was handed out by a create; one more successful
    create answers with the counter's value as id, an id never handed out
    before, appends that todo and advances the counter by one; and one more
    successful delete takes a single todo out of the list and leaves the
    others in their order. *)
Theorem todo_ids_unique_and_increasing :
  forall (cs : list Call) (resps : list Response) (st : State),
    Z.of_nat (List.length cs) < max_int - 1 ->
    run cs init = (resps, st) ->
    let ids := created_ids resps in
    ids = zseq 1 (List.length ids) /\
    StronglySorted Z.lt ids /\
    nextID st = 1 + Z.of_nat (List.length ids) /\
    StronglySorted Z.lt (map ID (todos st)) /\
    (forall t, In t (todos st) -> In (ID t) ids) /\
    (forall (r : Request string) resp st',
        createTodoHandler r st = (resp, st') ->
        Status resp = StatusCreated ->
        exists title,
          Decoded r = Some title /\
          resp = WriteJSON StatusCreated
                   (encode_todo (mkTodo (nextID st) title false)) /\
          todos st' = todos st ++ [mkTodo (nextID st) title false] /\
          nextID st' = nextID st + 1 /\
          ~ In (nextID st) ids) /\
    (forall (B : Type) (r : Request B) resp st',
        deleteTodoHandler r st = (resp, st') ->
        Status resp = StatusNoContent ->
        exists l1 t l2,
          todos st = l1 ++ t :: l2 /\ todos st' = l1 ++ l2 /\
          nextID st' = nextID st).
Proof.
  intros cs resps st Hlen Hrun ids.
  assert (Hmax : nextID init + Z.of_nat (List.length cs) <= max_int)
    by (unfold init; simpl nextID; lia).
  destruct (run_effect cs init resps st Inv_init Hmax Hrun)
    as (Hi & Hids & Hn & Hk).
  simpl nextID in Hids, Hn. fold ids in Hids, Hn, Hk.
  destruct Hi as (H1 & Hs & Hb).
  split; [exact Hids|].
  split; [rewrite Hids; apply zseq_sorted|].
  split; [exact Hn|].
  split; [exact Hs|].
  split.
  { intros t Ht. rewrite Forall_forall in Hb. specialize (Hb t Ht).
    rewrite Hids. apply In_zseq. lia. }
  split.
  - intros r resp st' Hc Hst.
    assert (Hlt : nextID st < max_int) by lia.
    destruct (create_spec r st resp st' Hlt H1 Hc Hst)
      as (title & Hd & Hr & Ht & Hn').
    exists title. repeat split; auto.
    rewrite Hids. intros Hin. apply In_zseq in Hin. lia.
  - intros B r resp st'. apply delete_spec.
Qed.

Lemma todo_ids_unique_and_increasing_witness :
  Z.of_nat (List.length demo_calls) < max_int - 1 /\
  created_ids (fst (run demo_calls init)) = [1; 2; 3] /\
  nextID (snd (run demo_calls init)) = 4 /\
  map ID (todos (snd (run demo_calls init))) = [2; 3].
Proof.
  split; [reflexivity|].
  pose proof (todo_ids_unique_and_increasing demo_calls
                (fst (run demo_calls init)) (snd (run demo_calls init))
                eq_refl eq_refl) as (Hids & _ & Hn & _).
  split; [exact Hids|]. split; [exact Hn|]. reflexivity.
Defined.

End MemTodoProofs.

(* ================================================================== *)
(** * The notes service *)
(* ================================================================== *)

Module AuthNotesProofs.
Import AuthNotes ListFacts.

Example demo_store_tables :
  map (fun u => (user_id u, username u)) (users demo_store)
    = [(1, "alice"); (2, "bob")] /\
  notes demo_store
    = [mkNote 1 1 "milk" "2l"; mkNote 2 2 "keys" ""; mkNote 3 1 "rent" "due"].
Proof. split; reflexivity. Qed.

(** ** Requests that never reach the storage *)

(** C6.  An update or a delete whose path does not end in the decimal text
    of a positive [int] is answered 400 "invalid id" and leaves the store as
    it was, the journal of statements included: nothing was sent to the
    storage.  The same holds through the method switch of [/notes/]. *)
Theorem invalid_id_is_bad_request :
  forall (userID : Z) (e : Env) (r : Request Fields) (st : Store),
    (Atoi (TrimPrefix (Path r) "/notes/") = None \/
     exists id, Atoi (TrimPrefix (Path r) "/notes/") = Some id /\ id <= 0) ->
    updateNoteHandler userID e r st
      = (Error "invalid id" StatusBadRequest, st) /\
    deleteNoteHandler userID e r st
      = (Error "invalid id" StatusBadRequest, st) /\
    (Method r = MethodPut \/ Method r = MethodDelete ->
     noteItemHandler userID e r st
       = (Error "invalid id" StatusBadRequest, st)).
Proof.
  intros userID e r st Hid.
  assert (Hu : updateNoteHandler userID e r st
               = (Error "invalid id" StatusBadRequest, st)).
  { unfold updateNoteHandler.
    destruct Hid as [-> | (id & -> & Hle)]; [reflexivity|].
    apply Z.leb_le in Hle. now rewrite Hle. }
  assert (Hd : deleteNoteHandler userID e r st
               = (Error "invalid id" StatusBadRequest, st)).
  { unfold deleteNoteHandler.
    destruct Hid as [-> | (id & -> & Hle)]; [reflexivity|].
    apply Z.leb_le in Hle. now rewrite Hle. }
  repeat split; auto.
  intros [Hm | Hm]; unfold noteItemHandler; rewrite Hm; simpl; assumption.
Qed.

Lemma invalid_id_is_bad_request_witness :
  (Atoi (TrimPrefix "/notes/0" "/notes/") = None \/
   exists id, Atoi (TrimPrefix "/notes/0" "/notes/") = Some id /\ id <= 0) /\
  updateNoteHandler 1 env0
    (mkRequest MethodPut "/notes/0" [] (Some ("milk", "3l"))) demo_store
    = (Error "invalid id" StatusBadRequest, demo_store) /\
  deleteNoteHandler 1 env0
    (mkRequest MethodPut "/notes/0" [] (Some ("milk", "3l"))) demo_store
    = (Error "invalid id" StatusBadRequest, demo_store).
Proof.
  assert (H : Atoi (TrimPrefix "/notes/0" "/notes/") = None \/
          exists id, Atoi (TrimPrefix "/notes/0" "/notes/") = Some id
                     /\ id <= 0).
  { right. exists 0. split; [reflexivity | lia]. }
  split; [exact H|].
  pose proof (invalid_id_is_bad_request 1 env0
                (mkRequest MethodPut "/notes/0" [] (Some ("milk", "3l")))
                demo_store H) as (Hu & Hd & _).
  split; [exact Hu | exact Hd].
Defined.

Example invalid_ids :
  map (fun p => Atoi (TrimPrefix p "/notes/"))
      ["/notes/abc"; "/notes/"; "/notes/1.5"; "/notes/-4"; "/notes/ 7";
       "/notes/3/x"; "/notes/99999999999999999999"]
  = [None; None; None; Some (-4); None; None; None].
Proof. reflexivity. Qed.

(** C8.  [checkAuthHandler] answers 200 exactly when the request has a
    [session_token] cookie whose value [Atoi] accepts, and 401 otherwise; it
    answers 200 for the decimal text of every [int], zero and the negative
    ones included, whoever the users are; it sends nothing to the storage
    and its answer does not depend on the store. *)
Theorem check_auth_accepts_any_integer :
  forall (B : Type) (e : Env) (r : Request B) (st : Store),
    exists resp,
      checkAuthHandler e r st = (resp, st) /\
      (resp = WriteHeader StatusOK \/ resp = WriteHeader StatusUnauthorized) /\
      (Status resp = StatusOK <->
       exists value n,
         CookieOf r "session_token" = Some value /\ Atoi value = Some n) /\
      (forall n, min_int <= n <= max_int ->
                 CookieOf r "session_token" = Some (Itoa n) ->
                 resp = WriteHeader StatusOK) /\
      (forall st2, fst (checkAuthHandler e r st2) = resp).
Proof.
  intros B e r st. unfold checkAuthHandler.
  destruct (CookieOf r "session_token") as [value|] eqn:Ec.
  - destruct (Atoi value) as [n|] eqn:Ea.
    + exists (WriteHeader StatusOK). repeat split; auto.
      intros _. now exists value, n.
    + exists (WriteHeader StatusUnauthorized). repeat split; auto.
      * discriminate.
      * intros (v & n & [= <-] & Hn). congruence.
      * intros n Hn [= ->]. rewrite (GoLibFacts.Atoi_Itoa n Hn) in Ea.
        discriminate.
  - exists (WriteHeader StatusUnauthorized). repeat split; auto.
    + discriminate.
    + intros (v & n & Hv & _). discriminate.
    + discriminate.
Qed.

Example check_auth_examples :
  map (fun v => Status (fst (checkAuthHandler env0
                               (mkRequest MethodGet "/check-auth"
                                  [("theme", "dark"); ("session_token", v)]
                                  (@None Fields))
                               (empty_store false))))
      ["1"; "0"; "-12"; "4711"; "+3"; ""; "alice"; "1 "; "0x10"]
  = [200; 200; 200; 200; 200; 401; 401; 401; 401] /\
  Status (fst (checkAuthHandler env0
                 (mkRequest MethodGet "/check-auth" [("theme", "dark")]
                    (@None Fields)) demo_store)) = 401.
Proof. split; reflexivity. Qed.

(** ** Credentials and sessions *)

Section CredentialFacts.
Context `{External}.

Lemma select_user_journal (f : Fault) (name : string) (st : Store) :
  snd (select_user f name st) = record (SelectUser name) st.
Proof.
  unfold select_user. destruct (stmt_fails f); [reflexivity|].
  destruct (cut_rows f _); reflexivity.
Qed.

(** Whatever the fault, a row that comes back is the first one with the
    name. *)
Lemma select_user_some (f : Fault) (name : string) (st st1 : Store)
  (id : Z) (hash : string) :
  select_user f name st = (Some (id, hash), st1) ->
  exists u, find_user name st = Some u /\
            id = user_id u /\ hash = password u.
Proof.
  unfold select_user, find_user. rewrite find_filter.
  destruct (stmt_fails f); [discriminate|].
  destruct f as [| |k]; simpl cut_rows.
  - destruct (filter _ _) as [|u l]; [discriminate|].
    intros [= <- <- _]. now exists u.
  - destruct (filter _ _) as [|u l]; [discriminate|].
    intros [= <- <- _]. now exists u.
  - destruct (filter _ _) as [|u l]; [now destruct k|].
    destruct k as [|k]; [discriminate|]. simpl.
    intros [= <- <- _]. now exists u.
Qed.

Lemma select_user_no_fault (e : Env) (name : string) (st : Store)
  (u : UserRow) :
  fault e = NoFault -> find_user name st = Some u ->
  select_user (fault e) name st
    = (Some (user_id u, password u), record (SelectUser name) st).
Proof.
  intros -> Hf. unfold select_user, find_user in *.
  rewrite find_filter in Hf. simpl.
  destruct (filter _ _) as [|v l]; [discriminate|]. now inversion Hf.
Qed.

(** A failed lookup is answered like a failed comparison. *)
Lemma login_refused (e : Env) (r : Request Fields) (st : Store)
  (name pw : string) :
  Method r = MethodPost -> Decoded r = Some (name, pw) ->
  (find_user name st = None \/
   exists u, find_user name st = Some u /\
             CompareHashAndPassword (password u) pw = false) ->
  loginHandler e r st
    = (Error "invalid credentials" StatusUnauthorized,
       record (SelectUser name) st).
Proof.
  intros Hm Hd Hcase. unfold loginHandler. rewrite Hm, Hd. simpl negb. cbv iota.
  pose proof (select_user_journal (fault e) name st) as Hj.
  destruct (select_user (fault e) name st) as [[[id hash]|] st1] eqn:Es;
    simpl in Hj; subst st1; [|reflexivity].
  destruct (select_user_some _ _ _ _ _ _ Es) as (u & Hf & -> & ->).
  destruct Hcase as [Hnone | (u' & Hf' & Hcmp)]; [congruence|].
  assert (u' = u) by congruence. subst u'. now rewrite Hcmp.
Qed.

(** C5.  A login (POST, decoded body) for a name that no row has and a
    login for a name that a row has, with a password that bcrypt does not
    accept for that row's hash, get one and the same response: status 401,
    the text "invalid credentials", no cookie; neither changes a table.
    This holds whatever the storage does to the two lookups.  A login for a
    name that a row has, with a password bcrypt accepts, is answered 200 and
    sets the session cookie (when the lookup meets no fault). *)
Theorem login_gives_no_enumeration_signal :
  forall (e1 e2 : Env) (r1 r2 : Request Fields) (st1 st2 : Store)
         (name1 pw1 name2 pw2 : string) (u2 : UserRow),
    Method r1 = MethodPost -> Decoded r1 = Some (name1, pw1) ->
    Method r2 = MethodPost -> Decoded r2 = Some (name2, pw2) ->
    find_user name1 st1 = None ->
    find_user name2 st2 = Some u2 ->
    (CompareHashAndPassword (password u2) pw2 = false ->
     fst (loginHandler e1 r1 st1) = fst (loginHandler e2 r2 st2) /\
     fst (loginHandler e1 r1 st1)
       = Error "invalid credentials" StatusUnauthorized /\
     Status (fst (loginHandler e2 r2 st2)) = StatusUnauthorized /\
     SetCookies (fst (loginHandler e2 r2 st2)) = [] /\
     users (snd (loginHandler e1 r1 st1)) = users st1 /\
     users (snd (loginHandler e2 r2 st2)) = users st2) /\
    (CompareHashAndPassword (password u2) pw2 = true ->
     fault e2 = NoFault ->
     Status (fst (loginHandler e2 r2 st2)) = StatusOK /\
     map Name (SetCookies (fst (loginHandler e2 r2 st2)))
       = ["session_token"]).
Proof.
  intros e1 e2 r1 r2 st1 st2 name1 pw1 name2 pw2 u2
         Hm1 Hd1 Hm2 Hd2 Hunknown Hknown.
  split.
  - intros Hwrong.
    rewrite (login_refused e1 r1 st1 name1 pw1 Hm1 Hd1 (or_introl Hunknown)).
    rewrite (login_refused e2 r2 st2 name2 pw2 Hm2 Hd2
               (or_intror (ex_intro _ u2 (conj Hknown Hwrong)))).
    repeat split.
  - intros Hright Hok. unfold loginHandler. rewrite Hm2, Hd2.
    simpl negb. cbv iota.
    rewrite (select_user_no_fault e2 name2 st2 u2 Hok Hknown), Hright.
    split; reflexivity.
Qed.

(** A login that is answered 200 went through the lookup and the
    comparison, and set the cookie. *)
Lemma login_accepted (e : Env) (r : Request Fields) (st : Store)
  (resp : Response) (st' : Store) :
  loginHandler e r st = (resp, st') ->
  Status resp = StatusOK ->
  exists name pw u,
    Decoded r = Some (name, pw) /\
    find_user name st = Some u /\
    CompareHashAndPassword (password u) pw = true /\
    resp = SetCookie {| Name := "session_token";
                        Value := Itoa (user_id u);
                        Expires := now e + 24 * Hour;
                        HttpOnly := true |} StatusOK.
Proof.
  unfold loginHandler.
  destruct (negb (String.eqb (Method r) MethodPost));
    [intros [= <- _]; discriminate|].
  destruct (Decoded r) as [[name pw]|]; [|intros [= <- _]; discriminate].
  destruct (select_user (fault e) name st) as [[[id hash]|] st1] eqn:Es;
    [|intros [= <- _]; discriminate].
  destruct (select_user_some _ _ _ _ _ _ Es) as (u & Hf & -> & ->).
  destruct (CompareHashAndPassword (password u) pw) eqn:Ecmp;
    [|intros [= <- _]; discriminate].
  intros [= <- _] _. exists name, pw, u. repeat split; auto.
Qed.

(** C7.  A login that is answered 200 found the first row with the name,
    bcrypt accepted the password for its hash, and the response sets one
    cookie: name [session_token], value the decimal text of that row's id,
    HttpOnly, expiring 24 hours after the clock reading of the request.
    Every logout sets the cookie of that name to the empty value with an
    expiry one hour before the clock reading, HttpOnly, status 200, and
    leaves the store alone. *)
Theorem session_cookie_issued_and_revoked :
  forall (e : Env) (r : Request Fields) (st : Store)
         (resp : Response) (st' : Store),
    loginHandler e r st = (resp, st') ->
    Status resp = StatusOK ->
    (exists name pw u,
        Decoded r = Some (name, pw) /\
        find_user name st = Some u /\
        CompareHashAndPassword (password u) pw = true /\
        resp = SetCookie {| Name := "session_token";
                            Value := Itoa (user_id u);
                            Expires := now e + 24 * 3600 * 1000000000;
                            HttpOnly := true |} StatusOK) /\
    (forall (B : Type) (e2 : Env) (r2 : Request B) (st2 : Store),
        logoutHandler e2 r2 st2
          = (SetCookie {| Name := "session_token";
                          Value := "";
                          Expires := now e2 - 3600 * 1000000000;
                          HttpOnly := true |} StatusOK, st2) /\
        now e2 - 3600 * 1000000000 < now e2).
Proof.
  intros e r st resp st' Hrun Hok. split.
  - destruct (login_accepted e r st resp st' Hrun Hok)
      as (name & pw & u & Hd & Hf & Hc & Hr).
    exists name, pw, u.
    replace (24 * 3600 * 1000000000) with (24 * Hour)
      by (unfold Hour; lia).
    repeat split; auto.
  - intros B e2 r2 st2. split; [|lia].
    unfold logoutHandler.
    replace (now e2 + -1 * Hour) with (now e2 - 3600 * 1000000000)
      by (unfold Hour; lia).
    reflexivity.
Qed.

End CredentialFacts.

Lemma session_cookie_issued_and_revoked_witness :
  Status (fst (@loginHandler model_external env0 login_alice demo_store))
    = StatusOK /\
  SetCookies (fst (@loginHandler model_external env0 login_alice demo_store))
    = [ {| Name := "session_token"; Value := "1";
           Expires := now env0 + 86400000000000; HttpOnly := true |} ].
Proof.
  assert (Hok : Status (fst (@loginHandler model_external env0 login_alice
                               demo_store)) = StatusOK)
    by (vm_compute; reflexivity).
  split; [exact Hok|].
  destruct (@session_cookie_issued_and_revoked model_external env0
              login_alice demo_store _ _
              (surjective_pairing _) Hok)
    as [(name & pw & u & Hd & Hf & Hc & Hr) _].
  rewrite Hr. injection Hd as <- <-. vm_compute in Hf.
  injection Hf as <-. vm_compute. reflexivity.
Defined.

Lemma login_gives_no_enumeration_signal_witness :
  fst (@loginHandler model_external env0 (post "/login" "carol" "pw1")
         demo_store)
  = fst (@loginHandler model_external env0 (post "/login" "alice" "pw2")
           demo_store) /\
  Status (fst (@loginHandler model_external env0
                 (post "/login" "alice" "pw2") demo_store))
  = StatusUnauthorized.
Proof.
  assert (Hknown : @find_user model_external "alice" demo_store
                   = Some (mkUserRow 1 "alice" "$2a$salt$1wp"))
    by (vm_compute; reflexivity).
  assert (Hunknown : @find_user model_external "carol" demo_store = None)
    by (vm_compute; reflexivity).
  destruct (@login_gives_no_enumeration_signal model_external env0 env0
              (post "/login" "carol" "pw1") (post "/login" "alice" "pw2")
              demo_store demo_store "carol" "pw1" "alice" "pw2" _
              eq_refl eq_refl eq_refl eq_refl Hunknown Hknown)
    as [Hwrong _].
  assert (Hcmp : @CompareHashAndPassword model_external
                   (password (mkUserRow 1 "alice" "$2a$salt$1wp")) "pw2"
                 = false) by (vm_compute; reflexivity).
  destruct (Hwrong Hcmp) as (Hsame & _ & Hst & _).
  split; [exact Hsame | exact Hst].
Defined.

(** ** Registration *)

Section RegisterFacts.
Context `{External}.

Lemma name_taken_existsb (name : string) (st : Store) :
  name_taken name st <->
  existsb (fun u => username_eqb (username u) name) (users st) = true.
Proof. unfold name_taken. now rewrite existsb_exists. Qed.

(** C4, as the code has it.  For a POST with a decoded body
    [(name, pw)]: when bcrypt fails, the answer is 500 and nothing reaches
    the storage; when bcrypt yields [h] and the name is taken, or the
    storage fails the statement, the answer is 409 "username already taken"
    and [users] is unchanged; when bcrypt yields [h], the name is free and
    the storage does not fail, the answer is 201 and [users] gains exactly
    the row (next id, name, h).  No case looks at whether the name is
    empty.  In every case the only statement sent is the INSERT with [h],
    the output of bcrypt, in the password column. *)
Theorem register_rejects_taken_names_and_stores_hash :
  forall (e : Env) (r : Request Fields) (st : Store) (name pw : string),
    Method r = MethodPost ->
    Decoded r = Some (name, pw) ->
    (GenerateFromPassword (random e) pw DefaultCost = None ->
     registerHandler e r st
       = (Error "server error" StatusInternalServerError, st)) /\
    (forall h,
        GenerateFromPassword (random e) pw DefaultCost = Some h ->
        name_taken name st \/ fault e = StmtFails ->
        registerHandler e r st
          = (Error "username already taken" StatusConflict,
             record (InsertUser name h) st)) /\
    (forall h,
        GenerateFromPassword (random e) pw DefaultCost = Some h ->
        ~ name_taken name st -> fault e <> StmtFails ->
        registerHandler e r st
          = (WriteHeader StatusCreated,
             with_users (users st ++ [mkUserRow (users_auto st) name h])
                        (users_auto st + 1)
                        (record (InsertUser name h) st))).
Proof.
  intros e r st name pw Hm Hd. unfold registerHandler.
  rewrite Hm, Hd. simpl negb. cbv iota. repeat split.
  - intros ->. reflexivity.
  - intros h -> Hcase. unfold insert_user.
    destruct Hcase as [Htaken | ->].
    + apply name_taken_existsb in Htaken. rewrite Htaken, orb_true_r.
      reflexivity.
    + reflexivity.
  - intros h -> Hfree Hf. unfold insert_user.
    rewrite name_taken_existsb in Hfree.
    apply not_true_is_false in Hfree. rewrite Hfree, orb_false_r.
    destruct (fault e); try reflexivity. now contradiction Hf.
Qed.

End RegisterFacts.

Lemma register_rejects_taken_names_and_stores_hash_witness :
  @registerHandler model_external env0 (post "/register" "alice" "pw9")
     alice_store
  = (Error "username already taken" StatusConflict,
     record (InsertUser "alice" "$2a$salt$9wp") alice_store).
Proof.
  destruct (@register_rejects_taken_names_and_stores_hash model_external
              env0 (post "/register" "alice" "pw9") alice_store
              "alice" "pw9" eq_refl eq_refl) as (_ & Htaken & _).
  apply (Htaken "$2a$salt$9wp"); [vm_compute; reflexivity|].
  left. exists (mkUserRow 1 "alice" "$2a$salt$1wp").
  split; [left|]; vm_compute; reflexivity.
Defined.

(** An empty user name is registered like any other: the first such
    request on a new database is answered 201 and the row is stored. *)
Lemma empty_username_is_registered :
  Status (fst (@registerHandler model_external env0
                 (post "/register" "" "pw1") (empty_store false)))
    = StatusCreated /\
  Status (fst (@registerHandler model_external env0
                 (post "/register" "" "pw1") (empty_store false)))
    <> StatusConflict /\
  users (snd (@registerHandler model_external env0
                (post "/register" "" "pw1") (empty_store false)))
    = [mkUserRow 1 "" "$2a$salt$1wp"].
Proof. vm_compute. repeat split. discriminate. Qed.

(** ** Notes: what the statements do *)

Lemma collect_rows (rows : list Note) :
  collect rows = match rows with [] => None | _ :: _ => Some rows end.
Proof.
  assert (Hacc : forall (l acc : list Note),
             fold_left append l (Some acc) = Some (acc ++ l)).
  { induction l as [|x l IH]; intros acc; simpl.
    - now rewrite app_nil_r.
    - rewrite IH, <- app_assoc. reflexivity. }
  unfold collect. destruct rows as [|x rows]; [reflexivity|].
  simpl. now rewrite Hacc.
Qed.

Lemma insert_desc_perm (n : Note) (l : list Note) :
  Permutation (n :: l) (insert_desc n l).
Proof.
  induction l as [|m l IH]; simpl; [reflexivity|].
  destruct (ID m <? ID n); [reflexivity|].
  rewrite perm_swap. now constructor.
Qed.

Lemma order_by_id_desc_perm (l : list Note) :
  Permutation l (order_by_id_desc l).
Proof.
  induction l as [|n l IH]; simpl; [constructor|].
  rewrite <- insert_desc_perm. now constructor.
Qed.

Lemma insert_desc_sorted (n : Note) (l : list Note) :
  StronglySorted newer_first l ->
  StronglySorted newer_first (insert_desc n l).
Proof.
  induction 1 as [|m l Hs IH Hm]; simpl.
  - repeat constructor.
  - destruct (ID m <? ID n) eqn:E.
    + apply Z.ltb_lt in E. constructor; [now constructor|].
      constructor; [unfold newer_first; lia|].
      eapply Forall_impl; [|exact Hm]. unfold newer_first. intros; lia.
    + apply Z.ltb_ge in E. constructor; [exact IH|].
      rewrite <- insert_desc_perm. constructor; [exact E | exact Hm].
Qed.

Lemma order_by_id_desc_sorted (l : list Note) :
  StronglySorted newer_first (order_by_id_desc l).
Proof.
  induction l as [|n l IH]; simpl; [constructor|].
  now apply insert_desc_sorted.
Qed.

(** The rows of the SELECT: the notes of the user, each once, by
    descending id. *)
Lemma select_notes_rows (userID : Z) (st : Store) :
  let rows := order_by_id_desc (filter (owned_by userID) (notes st)) in
  (forall n, In n rows <-> In n (notes st) /\ UserID n = userID) /\
  Permutation (filter (owned_by userID) (notes st)) rows /\
  StronglySorted newer_first rows.
Proof.
  intros rows.
  split; [|split; [apply order_by_id_desc_perm
                  | apply order_by_id_desc_sorted]].
  intros n. split.
  - intros Hin. apply (Permutation_in _ (Permutation_sym
                         (order_by_id_desc_perm _))) in Hin.
    apply filter_In in Hin as [Hin Hu]. split; [exact Hin|].
    now apply Z.eqb_eq in Hu.
  - intros [Hin Hu]. apply (Permutation_in _ (order_by_id_desc_perm _)).
    apply filter_In. split; [exact Hin|]. now apply Z.eqb_eq.
Qed.

Lemma unique_id (l : list Note) (a b : Note) :
  NoDup (map ID l) -> In a l -> In b l -> ID a = ID b -> a = b.
Proof.
  induction l as [|x l IH]; simpl; intros Hnd Ha Hb Heq; [contradiction|].
  inversion Hnd as [|? ? Hx Hnd']; subst.
  destruct Ha as [-> | Ha], Hb as [-> | Hb]; auto.
  - exfalso. apply Hx. rewrite Heq. now apply in_map.
  - exfalso. apply Hx. rewrite <- Heq. now apply in_map.
Qed.

Lemma set_columns_miss (title content : string) (id userID : Z)
  (l : list Note) :
  (forall m, In m l -> matches id userID m = false) ->
  map (set_columns title content id userID) l = l.
Proof.
  intros Hmiss. rewrite <- (map_id l) at 2. apply map_ext_in.
  intros m Hm. unfold set_columns. now rewrite (Hmiss m Hm).
Qed.

(** With unique ids, the UPDATE rewrites the one row it finds, in place. *)
Lemma set_columns_one (title content : string) (id userID : Z)
  (l : list Note) (old : Note) :
  NoDup (map ID l) -> In old l -> matches id userID old = true ->
  exists l1 l2,
    l = l1 ++ old :: l2 /\
    (forall m, In m (l1 ++ l2) -> ID m <> id) /\
    map (set_columns title content id userID) l
      = l1 ++ mkNote id userID title content :: l2.
Proof.
  intros Hnd Hin Hm.
  destruct (in_split _ _ Hin) as (l1 & l2 & ->). exists l1, l2.
  apply andb_true_iff in Hm as [Hid Hu].
  apply Z.eqb_eq in Hid, Hu.
  assert (Hother : forall m, In m (l1 ++ l2) -> ID m <> id).
  { intros m Hm Heq. rewrite map_app in Hnd. simpl in Hnd.
    apply NoDup_remove_2 in Hnd. apply Hnd. rewrite <- map_app.
    rewrite Hid, <- Heq. now apply in_map. }
  split; [reflexivity|]. split; [exact Hother|].
  rewrite map_app. simpl.
  assert (Hmiss : forall m, In m (l1 ++ l2) -> matches id userID m = false).
  { intros m Hm. unfold matches.
    destruct (ID m =? id) eqn:E; [|reflexivity].
    apply Z.eqb_eq in E. now apply Hother in Hm. }
  rewrite (set_columns_miss _ _ _ _ l1), (set_columns_miss _ _ _ _ l2);
    try (intros m Hm'; apply Hmiss, in_or_app; auto).
  unfold set_columns at 1. unfold matches.
  rewrite (proj2 (Z.eqb_eq _ _) Hid), (proj2 (Z.eqb_eq _ _) Hu). simpl.
  now rewrite Hid, Hu.
Qed.

Lemma changes_matches (title content : string) (id userID : Z) (n : Note) :
  changes title content id userID n = true -> matches id userID n = true.
Proof. unfold changes. intros Hc. now apply andb_true_iff in Hc. Qed.

(** The number an UPDATE or DELETE reports is 0 when no row is found. *)
Lemma counted_miss (found : bool) (title content : string) (id userID : Z)
  (l : list Note) :
  (forall m, In m l -> matches id userID m = false) ->
  filter (if found then matches id userID
          else changes title content id userID) l = [].
Proof.
  intros Hmiss. apply filter_none. intros m Hm.
  destruct found; [now apply Hmiss|].
  unfold changes. now rewrite (Hmiss m Hm).
Qed.

(** A note of another owner is not found by a statement scoped to
    [userID]. *)
Lemma other_owner_miss (st : Store) (n : Note) (userID : Z) :
  wf st -> In n (notes st) -> UserID n <> userID ->
  forall m, In m (notes st) -> matches (ID n) userID m = false.
Proof.
  intros (_ & _ & _ & _ & _ & Hnd & _) Hin Hown m Hm.
  apply sorted_NoDup in Hnd. unfold matches.
  destruct (ID m =? ID n) eqn:E; [|reflexivity].
  apply Z.eqb_eq in E. rewrite (unique_id _ m n Hnd Hm Hin E).
  simpl. now apply Z.eqb_neq.
Qed.

Lemma without_note_miss (st : Store) (id userID : Z) :
  forall m, In m (notes (without_note id st)) -> matches id userID m = false.
Proof.
  intros m Hm. simpl in Hm. apply filter_In in Hm as [_ Hne].
  unfold matches. apply negb_true_iff in Hne. now rewrite Hne.
Qed.

(** ** Notes: the handlers *)

(** Without a fault, the listing is the user's notes by descending id,
    written as [null] when there is none. *)
Lemma getNotes_no_fault {B : Type} (userID : Z) (e : Env) (r : Request B)
  (st : Store) :
  fault e = NoFault ->
  getNotesHandler userID e r st
  = (WriteJSON StatusOK
       (match order_by_id_desc (filter (owned_by userID) (notes st)) with
        | [] => JNull
        | rows => JArr (map encode_note rows)
        end),
     record (SelectNotes userID) st).
Proof.
  intros Hf. unfold getNotesHandler, select_notes. rewrite Hf. simpl.
  rewrite collect_rows.
  now destruct (order_by_id_desc (filter (owned_by userID) (notes st))).
Qed.

Lemma cut_rows_incl {A : Type} (f : Fault) (l : list A) (x : A) :
  In x (cut_rows f l) -> In x l.
Proof.
  destruct f as [| |k]; simpl; auto.
  intros Hin. rewrite <- (firstn_skipn k l). apply in_or_app. now left.
Qed.

(** Whatever the fault, every row listed is a stored note of the user. *)
Lemma getNotes_rows {B : Type} (userID : Z) (e : Env) (r : Request B)
  (st : Store) :
  exists rows,
    (fst (getNotesHandler userID e r st)
       = Error "db error" StatusInternalServerError \/
     fst (getNotesHandler userID e r st)
       = WriteJSON StatusOK (encode_slice encode_note (collect rows))) /\
    (forall m, In m rows -> In m (notes st) /\ UserID m = userID) /\
    snd (getNotesHandler userID e r st) = record (SelectNotes userID) st.
Proof.
  unfold getNotesHandler, select_notes.
  destruct (stmt_fails (fault e)).
  - exists []. simpl. repeat split; auto; contradiction.
  - exists (cut_rows (fault e)
              (order_by_id_desc (filter (owned_by userID) (notes st)))).
    simpl. split; [now right|]. split; [|reflexivity].
    intros m Hm. apply cut_rows_incl in Hm.
    now apply (proj1 (select_notes_rows userID st)) in Hm.
Qed.

(** C2, on the code.  For a user who owns no note, the listing is answered
    200 with the JSON value [null], not with an empty array: the slice
    [notes] of [getNotesHandler] is declared without a value and never
    appended to.  (The in-memory service, whose slice starts as
    [[]Todo{}], answers an empty listing with the empty array.) *)
Theorem list_of_no_notes_is_null :
  forall (B : Type) (userID : Z) (e : Env) (r : Request B) (st : Store),
    fault e <> StmtFails ->
    (forall n, In n (notes st) -> UserID n <> userID) ->
    getNotesHandler userID e r st
      = (WriteJSON StatusOK JNull, record (SelectNotes userID) st).
Proof.
  intros B userID e r st Hf Hnone.
  unfold getNotesHandler, select_notes.
  assert (Hs : stmt_fails (fault e) = false)
    by (destruct (fault e); auto; now contradiction Hf).
  rewrite Hs.
  rewrite (filter_none (owned_by userID) (notes st)).
  - simpl. now destruct (fault e) as [| |[|k]].
  - intros n Hn. apply Z.eqb_neq. now apply Hnone.
Qed.

Lemma list_of_no_notes_is_null_witness :
  notes alice_store = [] /\
  fst (notesRoute env0
         (mkRequest MethodGet "/notes" [("session_token", "1")] None)
         alice_store)
    = WriteJSON StatusOK JNull /\
  fst (MemTodo.todosHandler (mkRequest MethodGet "/todos" [] None)
         MemTodo.init)
    = WriteJSON StatusOK (JArr []).
Proof.
  split; [vm_compute; reflexivity|]. split; [|vm_compute; reflexivity].
  assert (Hf : fault env0 <> StmtFails) by discriminate.
  assert (Hnone : forall n, In n (notes alice_store) -> UserID n <> 1)
    by (intros n Hn; vm_compute in Hn; contradiction).
  change (fst (getNotesHandler 1 env0
                 (mkRequest MethodGet "/notes" [("session_token", "1")]
                    (@None Fields)) alice_store)
          = WriteJSON StatusOK JNull).
  now rewrite (list_of_no_notes_is_null Fields 1 env0 _ alice_store Hf Hnone).
Defined.

Lemma user_exists_existsb (userID : Z) (st : Store) :
  (exists u, In u (users st) /\ user_id u = userID) ->
  existsb (fun u => user_id u =? userID) (users st) = true.
Proof.
  intros (u & Hin & Hid). apply existsb_exists. exists u.
  split; [exact Hin | now apply Z.eqb_eq].
Qed.

(** C3, as the code has it.  For a create with a decoded body
    [(Title0, Content0)] on a well-formed store: when the title is empty
    after trimming, the answer is 400 "title is required" and the store is
    as before, no statement sent; otherwise, for a user that is a row of
    [users] and when the storage does not fail the INSERT, the answer is 201
    with the note (id, user, trimmed title, content), where the id is
    positive and new, and [notes] gains exactly that row.  The title that
    comes back and is stored is the trimmed one, not the request's. *)
Theorem create_validates_title_and_returns_row :
  forall (userID : Z) (e : Env) (r : Request Fields) (st : Store)
         (Title0 Content0 : string),
    wf st ->
    Decoded r = Some (Title0, Content0) ->
    (TrimSpace Title0 = "" ->
     createNoteHandler userID e r st
       = (Error "title is required" StatusBadRequest, st)) /\
    (TrimSpace Title0 <> "" ->
     fault e <> StmtFails ->
     (exists u, In u (users st) /\ user_id u = userID) ->
     exists id st',
       0 < id /\
       ~ In id (map ID (notes st)) /\
       createNoteHandler userID e r st
         = (WriteJSON StatusCreated
              (encode_note (mkNote id userID (TrimSpace Title0) Content0)),
            st') /\
       notes st'
         = notes st ++ [mkNote id userID (TrimSpace Title0) Content0] /\
       users st' = users st).
Proof.
  intros userID e r st Title0 Content0 Hwf Hd.
  unfold createNoteHandler. rewrite Hd. split.
  - intros ->. reflexivity.
  - intros Hne Hf Hu. apply String.eqb_neq in Hne. rewrite Hne.
    unfold insert_note. rewrite (user_exists_existsb _ _ Hu).
    assert (Hs : stmt_fails (fault e) = false)
      by (destruct (fault e); auto; now contradiction Hf).
    rewrite Hs. simpl.
    destruct Hwf as (_ & Hauto & _ & _ & Hids & _).
    eexists _, _. repeat split; simpl; try reflexivity; [lia|].
    intros Hin. apply in_map_iff in Hin as (m & Hid & Hm).
    rewrite Forall_forall in Hids. specialize (Hids m Hm). lia.
Qed.

(** C9.  An update that is answered 200, on a well-formed store, named a
    positive id and had a decoded body; [notes] before holds one row [old]
    with that id, owned by the user, and no other row with that id; [notes]
    after is the same list with that one row replaced, at its place, by
    (id, user, trimmed title, content): its id and owner are as before and
    every other row is untouched; [users] and both counters are unchanged;
    the one statement sent is the UPDATE; and the body of the response is
    the note made of the path's id, the user id, the trimmed title and the
    content of the request. *)
Theorem update_changes_title_and_content_of_one_note :
  forall (userID : Z) (e : Env) (r : Request Fields) (st : Store)
         (resp : Response) (st' : Store),
    wf st ->
    updateNoteHandler userID e r st = (resp, st') ->
    Status resp = StatusOK ->
    exists id Title0 Content0 l1 old l2,
      Atoi (TrimPrefix (Path r) "/notes/") = Some id /\ 0 < id /\
      Decoded r = Some (Title0, Content0) /\
      notes st = l1 ++ old :: l2 /\
      ID old = id /\ UserID old = userID /\
      (forall m, In m (l1 ++ l2) -> ID m <> id) /\
      notes st' = l1 ++ mkNote id userID (TrimSpace Title0) Content0 :: l2 /\
      users st' = users st /\
      users_auto st' = users_auto st /\
      notes_auto st' = notes_auto st /\
      journal st'
        = UpdateNote (TrimSpace Title0) Content0 id userID :: journal st /\
      resp = WriteJSON StatusOK
               (encode_note (mkNote id userID (TrimSpace Title0) Content0)).
Proof.
  intros userID e r st resp st' Hwf. unfold updateNoteHandler.
  destruct (Atoi _) as [id|] eqn:Eid; [|intros [= <- _]; discriminate].
  destruct (id <=? 0) eqn:Epos; [intros [= <- _]; discriminate|].
  destruct (Decoded r) as [[Title0 Content0]|];
    [|intros [= <- _]; discriminate].
  destruct (String.eqb (TrimSpace Title0) "");
    [intros [= <- _]; discriminate|].
  unfold update_note.
  destruct (stmt_fails (fault e)); [intros [= <- _]; discriminate|].
  set (counted := if clientFoundRows st then matches id userID
                  else changes (TrimSpace Title0) Content0 id userID).
  destruct (Z.of_nat (List.length (filter counted (notes st))) =? 0) eqn:Eaff;
    [intros [= <- _]; discriminate|].
  intros [= <- <-] _.
  assert (Hne : filter counted (notes st) <> []).
  { intros Hnil. rewrite Hnil in Eaff. discriminate. }
  destruct (filter_some _ _ Hne) as (old & Hin & Hc).
  assert (Hm : matches id userID old = true).
  { unfold counted in Hc. destruct (clientFoundRows st); [exact Hc|].
    now apply changes_matches in Hc. }
  destruct Hwf as (_ & _ & _ & _ & _ & Hnd & _).
  apply sorted_NoDup in Hnd.
  destruct (set_columns_one (TrimSpace Title0) Content0 id userID
              (notes st) old Hnd Hin Hm) as (l1 & l2 & Hl & Hother & Hmap).
  apply andb_true_iff in Hm as [Hid Hu]. apply Z.eqb_eq in Hid, Hu.
  apply Z.leb_gt in Epos.
  exists id, Title0, Content0, l1, old, l2. simpl.
  repeat split; auto.
Qed.

(** ** Every handler keeps the store well formed *)

Lemma wf_empty (found_rows : bool) : wf (empty_store found_rows).
Proof. unfold wf; simpl. repeat split; try lia; constructor. Qed.

Lemma wf_record (s : Stmt) (st : Store) : wf st -> wf (record s st).
Proof. unfold wf; simpl; auto. Qed.

Lemma wf_insert_user `{External} (f : Fault) (name hash : string)
  (st : Store) :
  wf st -> wf (snd (insert_user f name hash st)).
Proof.
  intros Hwf. unfold insert_user.
  destruct (stmt_fails f || existsb _ (users st)); simpl;
    [now apply wf_record|].
  destruct Hwf as (Hua & Hna & Hu & Hud & Hn & Hnd & Hfk).
  unfold wf; simpl. rewrite map_app. simpl. repeat split; auto; try lia.
  - apply Forall_app. split.
    + eapply Forall_impl; [|exact Hu]. simpl. intros; lia.
    + repeat constructor; simpl; lia.
  - apply NoDup_app; [exact Hud | repeat constructor; now simpl |].
    intros i Hi [<- | []]. apply in_map_iff in Hi as (u & Hid & Hin).
    rewrite Forall_forall in Hu. specialize (Hu u Hin). lia.
  - eapply Forall_impl; [|exact Hfk]. simpl.
    intros n (u & Hin & Hid). exists u. split; [|exact Hid].
    apply in_or_app. now left.
Qed.

Lemma wf_insert_note (f : Fault) (userID : Z) (title content : string)
  (st : Store) :
  wf st -> wf (snd (insert_note f userID title content st)).
Proof.
  intros Hwf. unfold insert_note.
  destruct (stmt_fails f); simpl; [now apply wf_record|].
  destruct (existsb _ (users st)) eqn:Eu; simpl; [|now apply wf_record].
  destruct Hwf as (Hua & Hna & Hu & Hud & Hn & Hnd & Hfk).
  unfold wf; simpl. rewrite map_app. simpl. repeat split; auto; try lia.
  - apply Forall_app. split.
    + eapply Forall_impl; [|exact Hn]. simpl. intros; lia.
    + repeat constructor; simpl; lia.
  - apply sorted_snoc; [exact Hnd|]. apply Forall_map.
    eapply Forall_impl; [|exact Hn]. simpl. intros; lia.
  - apply Forall_app. split; [exact Hfk|]. repeat constructor. simpl.
    apply existsb_exists in Eu as (u & Hin & Hid). exists u.
    split; [exact Hin | now apply Z.eqb_eq].
Qed.

Lemma set_columns_keys (title content : string) (id userID : Z) (n : Note) :
  ID (set_columns title content id userID n) = ID n /\
  UserID (set_columns title content id userID n) = UserID n.
Proof. unfold set_columns. now destruct (matches id userID n). Qed.

Lemma wf_update_note (f : Fault) (title content : string) (id userID : Z)
  (st : Store) :
  wf st -> wf (snd (update_note f title content id userID st)).
Proof.
  intros Hwf. unfold update_note.
  destruct (stmt_fails f); simpl; [now apply wf_record|].
  destruct Hwf as (Hua & Hna & Hu & Hud & Hn & Hnd & Hfk).
  unfold wf; simpl. repeat split; auto.
  - apply Forall_map. eapply Forall_impl; [|exact Hn]. simpl.
    intros n Hb. now rewrite (proj1 (set_columns_keys _ _ _ _ n)).
  - rewrite map_map.
    rewrite (map_ext _ ID); [exact Hnd|].
    intros n. apply set_columns_keys.
  - apply Forall_map. eapply Forall_impl; [|exact Hfk]. simpl.
    intros n Hex. now rewrite (proj2 (set_columns_keys _ _ _ _ n)).
Qed.

Lemma wf_delete_note (f : Fault) (id userID : Z) (st : Store) :
  wf st -> wf (snd (delete_note f id userID st)).
Proof.
  intros Hwf. unfold delete_note.
  destruct (stmt_fails f); simpl; [now apply wf_record|].
  destruct Hwf as (Hua & Hna & Hu & Hud & Hn & Hnd & Hfk).
  unfold wf; simpl. repeat split; auto.
  - now apply Forall_filter.
  - now apply sorted_map_filter.
  - now apply Forall_filter.
Qed.

Lemma wf_createNote (userID : Z) (e : Env) (r : Request Fields)
  (st : Store) :
  wf st -> wf (snd (createNoteHandler userID e r st)).
Proof.
  intros Hwf. unfold createNoteHandler.
  destruct (Decoded r) as [[t c]|]; [|exact Hwf].
  destruct (String.eqb (TrimSpace t) ""); [exact Hwf|].
  pose proof (wf_insert_note (fault e) userID (TrimSpace t) c st Hwf) as H.
  now destruct (insert_note (fault e) userID (TrimSpace t) c st) as [[id|] st1].
Qed.

Lemma wf_updateNote (userID : Z) (e : Env) (r : Request Fields)
  (st : Store) :
  wf st -> wf (snd (updateNoteHandler userID e r st)).
Proof.
  intros Hwf. unfold updateNoteHandler.
  destruct (Atoi _) as [id|]; [|exact Hwf].
  destruct (id <=? 0); [exact Hwf|].
  destruct (Decoded r) as [[t c]|]; [|exact Hwf].
  destruct (String.eqb (TrimSpace t) ""); [exact Hwf|].
  pose proof (wf_update_note (fault e) (TrimSpace t) c id userID st Hwf) as H.
  destruct (update_note (fault e) (TrimSpace t) c id userID st)
    as [[aff|] st1]; [|exact H].
  now destruct (aff =? 0).
Qed.

Lemma wf_deleteNote {B : Type} (userID : Z) (e : Env) (r : Request B)
  (st : Store) :
  wf st -> wf (snd (deleteNoteHandler userID e r st)).
Proof.
  intros Hwf. unfold deleteNoteHandler.
  destruct (Atoi _) as [id|]; [|exact Hwf].
  destruct (id <=? 0); [exact Hwf|].
  pose proof (wf_delete_note (fault e) id userID st Hwf) as H.
  destruct (delete_note (fault e) id userID st) as [[aff|] st1]; [|exact H].
  now destruct (aff =? 0).
Qed.

Lemma wf_getNotes {B : Type} (userID : Z) (e : Env) (r : Request B)
  (st : Store) :
  wf st -> wf (snd (getNotesHandler userID e r st)).
Proof.
  intros Hwf. destruct (getNotes_rows userID e r st) as (_ & _ & _ & ->).
  now apply wf_record.
Qed.

Lemma wf_register `{External} (e : Env) (r : Request Fields) (st : Store) :
  wf st -> wf (snd (registerHandler e r st)).
Proof.
  intros Hwf. unfold registerHandler.
  destruct (negb _); [exact Hwf|].
  destruct (Decoded r) as [[name pw]|]; [|exact Hwf].
  destruct (GenerateFromPassword _ _ _) as [h|]; [|exact Hwf].
  pose proof (wf_insert_user (fault e) name h st Hwf) as Hi.
  now destruct (insert_user (fault e) name h st) as [[id|] st1].
Qed.

Lemma wf_login `{External} (e : Env) (r : Request Fields) (st : Store) :
  wf st -> wf (snd (loginHandler e r st)).
Proof.
  intros Hwf. unfold loginHandler.
  destruct (negb _); [exact Hwf|].
  destruct (Decoded r) as [[name pw]|]; [|exact Hwf].
  pose proof (select_user_journal (fault e) name st) as Hj.
  destruct (select_user (fault e) name st) as [[[id hash]|] st1];
    simpl in Hj; subst st1.
  - destruct (CompareHashAndPassword hash pw); now apply wf_record.
  - now apply wf_record.
Qed.

(** The store stays well formed under every request to every route. *)
Theorem wf_preserved `{External} (e : Env) (r : Request Fields)
  (st : Store) :
  wf st ->
  wf (snd (registerHandler e r st)) /\
  wf (snd (loginHandler e r st)) /\
  wf (snd (logoutHandler e r st)) /\
  wf (snd (checkAuthHandler e r st)) /\
  wf (snd (notesRoute e r st)) /\
  wf (snd (noteItemRoute e r st)).
Proof.
  intros Hwf.
  split; [now apply wf_register|].
  split; [now apply wf_login|].
  split; [exact Hwf|].
  split.
  { unfold checkAuthHandler. destruct (CookieOf _ _) as [v|]; [|exact Hwf].
    now destruct (Atoi v). }
  split.
  - unfold notesRoute, authMiddleware.
    destruct (CookieOf _ _) as [v|]; [|exact Hwf].
    destruct (Atoi v) as [userID|]; [|exact Hwf].
    unfold notesHandler.
    destruct (String.eqb (Method r) MethodGet); [now apply wf_getNotes|].
    destruct (String.eqb (Method r) MethodPost); [now apply wf_createNote|].
    exact Hwf.
  - unfold noteItemRoute, authMiddleware.
    destruct (CookieOf _ _) as [v|]; [|exact Hwf].
    destruct (Atoi v) as [userID|]; [|exact Hwf].
    unfold noteItemHandler.
    destruct (String.eqb (Method r) MethodPut); [now apply wf_updateNote|].
    destruct (String.eqb (Method r) MethodDelete);
      [now apply wf_deleteNote|].
    exact Hwf.
Qed.

Lemma wf_alice_store : wf alice_store.
Proof. apply (@wf_register model_external), wf_empty. Qed.

Lemma wf_demo_store : wf demo_store.
Proof.
  unfold demo_store. cbv zeta.
  repeat apply wf_createNote.
  repeat apply (@wf_register model_external).
  apply wf_empty.
Qed.

(** ** Isolation between users *)

(** What an update answers and leaves behind when its WHERE clause finds
    no row. *)
Lemma update_miss (userID : Z) (e : Env) (r : Request Fields) (st : Store)
  (id : Z) :
  Atoi (TrimPrefix (Path r) "/notes/") = Some id -> 0 < id ->
  (forall m, In m (notes st) -> matches id userID m = false) ->
  notes (snd (updateNoteHandler userID e r st)) = notes st /\
  users (snd (updateNoteHandler userID e r st)) = users st /\
  (forall st2,
      (forall m, In m (notes st2) -> matches id userID m = false) ->
      fst (updateNoteHandler userID e r st2)
        = fst (updateNoteHandler userID e r st)) /\
  (forall Title0 Content0,
      Decoded r = Some (Title0, Content0) ->
      TrimSpace Title0 <> "" ->
      fault e <> StmtFails ->
      fst (updateNoteHandler userID e r st)
        = Error "note not found or unauthorized" StatusNotFound).
Proof.
  intros Hid Hpos Hmiss. unfold updateNoteHandler. rewrite Hid.
  apply Z.leb_gt in Hpos. rewrite Hpos.
  destruct (Decoded r) as [[t c]|]; [|repeat split; auto; discriminate].
  destruct (String.eqb (TrimSpace t) "") eqn:Et.
  { repeat split; auto. intros ? ? [= <- <-] Hne.
    apply String.eqb_eq in Et. now contradiction Hne. }
  unfold update_note.
  destruct (stmt_fails (fault e)) eqn:Ef.
  { repeat split; auto. intros ? ? _ _ Hf.
    destruct (fault e); try discriminate. now contradiction Hf. }
  rewrite (counted_miss _ _ _ _ _ _ Hmiss). simpl.
  rewrite (set_columns_miss _ _ _ _ _ Hmiss).
  repeat split; auto.
  intros st2 Hmiss2. now rewrite (counted_miss _ _ _ _ _ _ Hmiss2).
Qed.

(** The same for a delete. *)
Lemma delete_miss {B : Type} (userID : Z) (e : Env) (r : Request B)
  (st : Store) (id : Z) :
  Atoi (TrimPrefix (Path r) "/notes/") = Some id -> 0 < id ->
  (forall m, In m (notes st) -> matches id userID m = false) ->
  notes (snd (deleteNoteHandler userID e r st)) = notes st /\
  users (snd (deleteNoteHandler userID e r st)) = users st /\
  (forall st2,
      (forall m, In m (notes st2) -> matches id userID m = false) ->
      fst (deleteNoteHandler userID e r st2)
        = fst (deleteNoteHandler userID e r st)) /\
  (fault e <> StmtFails ->
   fst (deleteNoteHandler userID e r st)
     = Error "note not found or unauthorized" StatusNotFound).
Proof.
  intros Hid Hpos Hmiss. unfold deleteNoteHandler. rewrite Hid.
  apply Z.leb_gt in Hpos. rewrite Hpos.
  unfold delete_note.
  destruct (stmt_fails (fault e)) eqn:Ef.
  { repeat split; auto. intros Hf.
    destruct (fault e); try discriminate. now contradiction Hf. }
  rewrite (filter_none _ _ Hmiss). simpl.
  rewrite filter_all
    by (intros m Hm; now rewrite (Hmiss m Hm)).
  repeat split; auto.
  intros st2 Hmiss2. now rewrite (filter_none _ _ Hmiss2).
Qed.

(** C1.  Let A and B be different user ids and [n] a stored note owned by
    B, in a well-formed store.
    - Listing as A, whatever the storage does, answers either 500 or the
      JSON of rows that are all stored notes of A; [n] is not among them;
      the tables are unchanged.
    - An update as A whose path names the id of [n], whatever the body and
      whatever the storage does, leaves [notes] and [users] unchanged and
      gets the very response it would get from the store without that
      note; when the body is decoded with a title that is not blank and
      the storage does not fail, that response is 404 "note not found or
      unauthorized".
    - A delete as A whose path names the id of [n] does the same, with 404
      whenever the storage does not fail. *)
Theorem notes_of_others_are_out_of_reach :
  forall (A B : Z) (st : Store) (n : Note),
    wf st -> A <> B -> In n (notes st) -> UserID n = B ->
    (forall (e : Env) (r : Request Fields),
        exists rows,
          (fst (getNotesHandler A e r st)
             = Error "db error" StatusInternalServerError \/
           fst (getNotesHandler A e r st)
             = WriteJSON StatusOK (encode_slice encode_note (collect rows))) /\
          (forall m, In m rows -> In m (notes st) /\ UserID m = A) /\
          ~ In n rows /\
          notes (snd (getNotesHandler A e r st)) = notes st) /\
    (forall (e : Env) (r : Request Fields),
        Atoi (TrimPrefix (Path r) "/notes/") = Some (ID n) ->
        notes (snd (updateNoteHandler A e r st)) = notes st /\
        users (snd (updateNoteHandler A e r st)) = users st /\
        fst (updateNoteHandler A e r st)
          = fst (updateNoteHandler A e r (without_note (ID n) st)) /\
        (forall Title0 Content0,
            Decoded r = Some (Title0, Content0) ->
            TrimSpace Title0 <> "" ->
            fault e <> StmtFails ->
            fst (updateNoteHandler A e r st)
              = Error "note not found or unauthorized" StatusNotFound)) /\
    (forall (e : Env) (r : Request Fields),
        Atoi (TrimPrefix (Path r) "/notes/") = Some (ID n) ->
        notes (snd (deleteNoteHandler A e r st)) = notes st /\
        users (snd (deleteNoteHandler A e r st)) = users st /\
        fst (deleteNoteHandler A e r st)
          = fst (deleteNoteHandler A e r (without_note (ID n) st)) /\
        (fault e <> StmtFails ->
         fst (deleteNoteHandler A e r st)
           = Error "note not found or unauthorized" StatusNotFound)) /\
    (forall m, In m (notes (without_note (ID n) st)) -> ID m <> ID n).
Proof.
  intros A B st n Hwf HAB Hin Hown.
  assert (Hother : UserID n <> A) by congruence.
  pose proof (other_owner_miss st n A Hwf Hin Hother) as Hmiss.
  assert (Hpos : 0 < ID n).
  { destruct Hwf as (_ & _ & _ & _ & Hids & _).
    rewrite Forall_forall in Hids. specialize (Hids n Hin). lia. }
  split; [|split; [|split]].
  - intros e r. destruct (getNotes_rows A e r st) as (rows & Hresp & Hrows & Hst).
    exists rows. repeat split; auto.
    + now apply Hrows.
    + now apply Hrows.
    + intros Hn. apply Hrows in Hn as [_ Hn]. congruence.
    + now rewrite Hst.
  - intros e r Hid.
    destruct (update_miss A e r st (ID n) Hid Hpos Hmiss)
      as (Hn & Hu & Hsame & H404).
    repeat split; auto.
    symmetry. apply Hsame. apply without_note_miss.
  - intros e r Hid.
    destruct (delete_miss A e r st (ID n) Hid Hpos Hmiss)
      as (Hn & Hu & Hsame & H404).
    repeat split; auto.
    symmetry. apply Hsame. apply without_note_miss.
  - intros m Hm. simpl in Hm. apply filter_In in Hm as [_ Hne].
    apply negb_true_iff in Hne. now apply Z.eqb_neq.
Qed.

(** ** The theorems on the scenario *)

Lemma notes_of_others_are_out_of_reach_witness :
  wf demo_store /\ In bobs_note (notes demo_store) /\
  fst (updateNoteHandler 1 env0 (put "/notes/2" "mine" "now") demo_store)
    = Error "note not found or unauthorized" StatusNotFound /\
  fst (deleteNoteHandler 1 env0 (delete "/notes/2") demo_store)
    = Error "note not found or unauthorized" StatusNotFound /\
  notes (snd (deleteNoteHandler 1 env0 (delete "/notes/2") demo_store))
    = notes demo_store.
Proof.
  assert (Hin : In bobs_note (notes demo_store))
    by (vm_compute; right; left; reflexivity).
  assert (HAB : 1 <> 2) by discriminate.
  destruct (notes_of_others_are_out_of_reach 1 2 demo_store bobs_note
              wf_demo_store HAB Hin eq_refl) as (_ & Hupd & Hdel & _).
  split; [exact wf_demo_store|]. split; [exact Hin|].
  assert (Hp : Atoi (TrimPrefix "/notes/2" "/notes/") = Some (ID bobs_note))
    by (vm_compute; reflexivity).
  destruct (Hupd env0 (put "/notes/2" "mine" "now") Hp) as (_ & _ & _ & H404).
  destruct (Hdel env0 (delete "/notes/2") Hp) as (Hn & _ & _ & Hd404).
  split; [|split].
  - apply (H404 "mine" "now" eq_refl); [vm_compute|]; discriminate.
  - apply Hd404. discriminate.
  - exact Hn.
Defined.

Lemma create_validates_title_and_returns_row_witness :
  wf alice_store /\
  exists id,
    0 < id /\
    fst (createNoteHandler 1 env0 create_milk alice_store)
      = WriteJSON StatusCreated (encode_note (mkNote id 1 "milk" "2l")).
Proof.
  split; [exact wf_alice_store|].
  destruct (create_validates_title_and_returns_row 1 env0 create_milk
              alice_store "  milk " "2l" wf_alice_store eq_refl)
    as [_ Hcreate].
  assert (Hne : TrimSpace "  milk " <> "") by (vm_compute; discriminate).
  assert (Hf : fault env0 <> StmtFails) by discriminate.
  assert (Hu : exists u, In u (users alice_store) /\ user_id u = 1).
  { exists (mkUserRow 1 "alice" "$2a$salt$1wp").
    split; [vm_compute; left|]; reflexivity. }
  destruct (Hcreate Hne Hf Hu) as (id & st' & Hpos & _ & Hrun & _).
  exists id. split; [exact Hpos|]. rewrite Hrun. vm_compute. reflexivity.
Defined.

(** The title of the created note is the trimmed one: it differs from the
    title of the request. *)
Lemma create_returns_trimmed_title :
  fst (createNoteHandler 1 env0 create_milk alice_store)
    = WriteJSON StatusCreated (encode_note (mkNote 1 1 "milk" "2l")) /\
  Decoded create_milk = Some ("  milk ", "2l") /\
  "milk" <> "  milk " /\
  fst (createNoteHandler 1 env0 create_milk alice_store)
    <> WriteJSON StatusCreated (encode_note (mkNote 1 1 "  milk " "2l")).
Proof. vm_compute. repeat split; discriminate. Qed.

Lemma update_changes_title_and_content_of_one_note_witness :
  wf demo_store /\
  Status (fst (updateNoteHandler 1 env0 update_milk demo_store)) = StatusOK /\
  fst (updateNoteHandler 1 env0 update_milk demo_store)
    = WriteJSON StatusOK (encode_note (mkNote 1 1 "oat milk" "1l")) /\
  users (snd (updateNoteHandler 1 env0 update_milk demo_store))
    = users demo_store.
Proof.
  assert (Hok : Status (fst (updateNoteHandler 1 env0 update_milk demo_store))
                = StatusOK) by (vm_compute; reflexivity).
  split; [exact wf_demo_store|]. split; [exact Hok|].
  destruct (update_changes_title_and_content_of_one_note 1 env0 update_milk
              demo_store _ _ wf_demo_store (surjective_pairing _) Hok)
    as (id & T & C & l1 & old & l2 & Hid & _ & Hd & _ & _ & _ & _ & _
        & Hu & _ & _ & _ & Hresp).
  split; [|exact Hu].
  rewrite Hresp. injection Hd as <- <-. vm_compute in Hid.
  injection Hid as <-. vm_compute. reflexivity.
Defined.

Example update_on_demo_store :
  notes (snd (updateNoteHandler 1 env0 update_milk demo_store))
  = [mkNote 1 1 "oat milk" "1l"; mkNote 2 2 "keys" ""; mkNote 3 1 "rent" "due"].
Proof. vm_compute. reflexivity. Qed.

Example list_on_demo_store :
  fst (notesRoute env0
         (mkRequest MethodGet "/notes" [("session_token", "1")] None)
         demo_store)
  = WriteJSON StatusOK
      (JArr [encode_note (mkNote 3 1 "rent" "due");
             encode_note (mkNote 1 1 "milk" "2l")]) /\
  fst (notesRoute env0
         (mkRequest MethodGet "/notes" [("session_token", "2")] None)
         demo_store)
  = WriteJSON StatusOK (JArr [encode_note (mkNote 2 2 "keys" "")]) /\
  fst (notesRoute env0 (mkRequest MethodGet "/notes" [] None) demo_store)
  = Error "unauthorized" StatusUnauthorized.
Proof. vm_compute. repeat split. Qed.

(** ** Further properties of the notes service *)

(** Newest first: with the notes stored in the order of their ids, the
    listing is the user's notes in the reverse of the order they were
    created in. *)
Lemma insert_desc_oldest (n : Note) (l : list Note) :
  Forall (fun m => ID n < ID m) l -> insert_desc n l = l ++ [n].
Proof.
  induction 1 as [|m l Hm Hl IH]; simpl; [reflexivity|].
  destruct (ID m <? ID n) eqn:E; [apply Z.ltb_lt in E; lia|].
  now rewrite IH.
Qed.

Lemma order_by_id_desc_rev (l : list Note) :
  StronglySorted Z.lt (map ID l) -> order_by_id_desc l = rev l.
Proof.
  induction l as [|n l IH]; simpl; intros Hs; [reflexivity|].
  inversion Hs as [|? ? Hs' Hn]; subst. rewrite (IH Hs').
  apply insert_desc_oldest. apply Forall_forall. intros m Hm.
  apply in_rev in Hm. rewrite Forall_forall in Hn. apply Hn.
  now apply in_map.
Qed.

Theorem listing_is_newest_first :
  forall (userID : Z) (e : Env) (r : Request Fields) (st : Store),
    wf st ->
    fault e = NoFault ->
    In userID (map UserID (notes st)) ->
    fst (getNotesHandler userID e r st)
      = WriteJSON StatusOK
          (JArr (map encode_note
                   (rev (filter (owned_by userID) (notes st))))).
Proof.
  intros userID e r st Hwf Hf Hsome.
  rewrite (getNotes_no_fault userID e r st Hf). simpl fst.
  destruct Hwf as (_ & _ & _ & _ & _ & Hs & _).
  rewrite (order_by_id_desc_rev _ (sorted_map_filter ID _ _ Hs)).
  destruct (rev (filter (owned_by userID) (notes st))) as [|x l] eqn:E;
    [|reflexivity].
  exfalso. apply in_map_iff in Hsome as (n & Hu & Hin).
  assert (Hn : In n (rev (filter (owned_by userID) (notes st)))).
  { apply in_rev. rewrite rev_involutive. apply filter_In.
    split; [exact Hin | now apply Z.eqb_eq]. }
  now rewrite E in Hn.
Qed.

Lemma listing_is_newest_first_witness :
  fst (getNotesHandler 1 env0 (post "/notes" "" "") demo_store)
  = WriteJSON StatusOK
      (JArr [encode_note (mkNote 3 1 "rent" "due");
             encode_note (mkNote 1 1 "milk" "2l")]).
Proof.
  assert (Hin : In 1 (map UserID (notes demo_store)))
    by (vm_compute; left; reflexivity).
  rewrite (listing_is_newest_first 1 env0 (post "/notes" "" "") demo_store
             wf_demo_store eq_refl Hin).
  vm_compute. reflexivity.
Defined.

(** [authMiddleware] runs the handler with the id in the cookie. *)
Lemma authMiddleware_resolves {B : Type} (next : Z -> Handler B) (e : Env)
  (r : Request B) (st : Store) (value : string) (userID : Z) :
  CookieOf r "session_token" = Some value -> Atoi value = Some userID ->
  authMiddleware next e r st = next userID e r st.
Proof. intros Hc Ha. unfold authMiddleware. now rewrite Hc, Ha. Qed.

(** The cookie a login sets, sent back, makes [authMiddleware] run the
    handler as the user that logged in. *)
Theorem login_cookie_authenticates `{External} :
  forall (e : Env) (r : Request Fields) (st : Store) (resp : Response)
         (st' : Store) (c : Cookie),
    wf st ->
    users_auto st <= max_int ->
    loginHandler e r st = (resp, st') ->
    SetCookies resp = [c] ->
    exists name pw u,
      Decoded r = Some (name, pw) /\ find_user name st = Some u /\
      forall (B : Type) (next : Z -> Handler B) (e2 : Env) (r2 : Request B)
             (st2 : Store),
        CookieOf r2 (Name c) = Some (Value c) ->
        authMiddleware next e2 r2 st2 = next (user_id u) e2 r2 st2.
Proof.
  intros e r st resp st' c Hwf Hmax Hrun Hc.
  assert (Hok : Status resp = StatusOK).
  { revert Hrun Hc. unfold loginHandler.
    destruct (negb _); [intros [= <- _]; discriminate|].
    destruct (Decoded r) as [[name pw]|]; [|intros [= <- _]; discriminate].
    destruct (select_user (fault e) name st) as [[[id hash]|] st1];
      [|intros [= <- _]; discriminate].
    destruct (CompareHashAndPassword hash pw);
      intros [= <- _]; [reflexivity | discriminate]. }
  destruct (login_accepted e r st resp st' Hrun Hok)
    as (name & pw & u & Hd & Hf & _ & Hr).
  exists name, pw, u. repeat split; auto.
  intros B next e2 r2 st2 Hcookie. subst resp. injection Hc as <-.
  simpl in Hcookie.
  apply (authMiddleware_resolves next e2 r2 st2 _ _ Hcookie).
  apply GoLibFacts.Atoi_Itoa.
  destruct Hwf as (_ & _ & Hu & _).
  unfold find_user in Hf. apply find_some in Hf as [Hin _].
  rewrite Forall_forall in Hu. specialize (Hu u Hin).
  unfold min_int. lia.
Qed.

Lemma login_cookie_authenticates_witness :
  @authMiddleware Fields notesHandler env0
     (mkRequest MethodGet "/notes" [("session_token", "1")] None) demo_store
  = notesHandler 1 env0
      (mkRequest MethodGet "/notes" [("session_token", "1")] None) demo_store.
Proof.
  assert (Hmax : users_auto demo_store <= max_int)
    by (vm_compute; discriminate).
  assert (Hc : SetCookies (fst (@loginHandler model_external env0 login_alice
                                  demo_store))
               = [ {| Name := "session_token"; Value := "1";
                      Expires := now env0 + 24 * Hour; HttpOnly := true |} ])
    by (vm_compute; reflexivity).
  destruct (@login_cookie_authenticates model_external env0 login_alice
              demo_store _ _ _ wf_demo_store Hmax (surjective_pairing _) Hc)
    as (name & pw & u & Hd & Hf & Hauth).
  injection Hd as <- <-. vm_compute in Hf. injection Hf as <-.
  apply (Hauth Fields notesHandler env0
           (mkRequest MethodGet "/notes" [("session_token", "1")] None)
           demo_store).
  reflexivity.
Defined.

(** The session token is the bare user id: a request whose cookie holds the
    decimal text of any [int] is served as that user, whether or not a login
    took place and whether or not such a user exists. *)
Theorem forged_cookie_is_accepted :
  forall (B : Type) (next : Z -> Handler B) (e : Env) (r : Request B)
         (st : Store) (userID : Z),
    min_int <= userID <= max_int ->
    CookieOf r "session_token" = Some (Itoa userID) ->
    authMiddleware next e r st = next userID e r st.
Proof.
  intros B next e r st userID Hrange Hc.
  apply (authMiddleware_resolves next e r st _ _ Hc).
  now apply GoLibFacts.Atoi_Itoa.
Qed.

Lemma forged_cookie_is_accepted_witness :
  fst (notesRoute env0
         (mkRequest MethodGet "/notes" [("session_token", Itoa 2)] None)
         demo_store)
  = WriteJSON StatusOK (JArr [encode_note bobs_note]).
Proof.
  assert (Hr : min_int <= 2 <= max_int) by (vm_compute; split; discriminate).
  unfold notesRoute.
  rewrite (forged_cookie_is_accepted Fields notesHandler env0
             (mkRequest MethodGet "/notes" [("session_token", Itoa 2)] None)
             demo_store 2 Hr eq_refl).
  vm_compute. reflexivity.
Defined.

(** Deleting twice: after a delete that was answered 204, the same delete
    again is answered 404 and changes no table. *)
Theorem delete_twice_is_not_found :
  forall (userID : Z) (e1 e2 : Env) (r : Request Fields) (st : Store)
         (resp1 : Response) (st1 : Store),
    wf st ->
    deleteNoteHandler userID e1 r st = (resp1, st1) ->
    Status resp1 = StatusNoContent ->
    fault e2 <> StmtFails ->
    fst (deleteNoteHandler userID e2 r st1)
      = Error "note not found or unauthorized" StatusNotFound /\
    notes (snd (deleteNoteHandler userID e2 r st1)) = notes st1 /\
    users (snd (deleteNoteHandler userID e2 r st1)) = users st1.
Proof.
  intros userID e1 e2 r st resp1 st1 Hwf Hrun Hok Hf.
  revert Hrun. unfold deleteNoteHandler at 1.
  destruct (Atoi _) as [id|] eqn:Eid; [|intros [= <- _]; discriminate].
  destruct (id <=? 0) eqn:Epos; [intros [= <- _]; discriminate|].
  unfold delete_note.
  destruct (stmt_fails (fault e1)); [intros [= <- _]; discriminate|].
  destruct (_ =? 0); [intros [= <- _]; discriminate|].
  intros [= _ <-]. apply Z.leb_gt in Epos.
  set (st1 := with_notes _ _ _).
  assert (Hmiss : forall m, In m (notes st1) -> matches id userID m = false).
  { intros m Hm. simpl in Hm. apply filter_In in Hm as [_ Hm].
    now apply negb_true_iff in Hm. }
  destruct (delete_miss userID e2 r st1 id Eid Epos Hmiss)
    as (Hn & Hu & _ & H404).
  repeat split; auto.
Qed.

Lemma delete_twice_is_not_found_witness :
  Status (fst (deleteNoteHandler 1 env0 delete_milk demo_store))
    = StatusNoContent /\
  fst (deleteNoteHandler 1 env0 delete_milk
         (snd (deleteNoteHandler 1 env0 delete_milk demo_store)))
    = Error "note not found or unauthorized" StatusNotFound.
Proof.
  assert (Hok : Status (fst (deleteNoteHandler 1 env0 delete_milk demo_store))
                = StatusNoContent) by (vm_compute; reflexivity).
  split; [exact Hok|].
  assert (Hf : fault env0 <> StmtFails) by discriminate.
  exact (proj1 (delete_twice_is_not_found 1 env0 env0 delete_milk demo_store
                  _ _ wf_demo_store (surjective_pairing _) Hok Hf)).
Defined.

Lemma wf_preserved_witness :
  wf (snd (noteItemRoute env0
             (mkRequest MethodDelete "/notes/1" [("session_token", "1")] None)
             demo_store)) /\
  notes (snd (noteItemRoute env0
                (mkRequest MethodDelete "/notes/1" [("session_token", "1")]
                   None)
                demo_store))
  = [mkNote 2 2 "keys" ""; mkNote 3 1 "rent" "due"].
Proof.
  split; [|vm_compute; reflexivity].
  exact (proj2 (proj2 (proj2 (proj2 (proj2
           (@wf_preserved model_external env0
              (mkRequest MethodDelete "/notes/1" [("session_token", "1")] None)
              demo_store wf_demo_store)))))).
Defined.

(** The scenario of the specification: register, log in, create a note
    with the cookie; another user's listing and a request without cookie do
    not show it. *)
Example specification_scenario :
  let X := model_external in
  let '(r1, st1) := registerHandler env0 (post "/register" "alice" "pw1")
                      (empty_store false) in
  let '(r2, st2) := loginHandler env0 (post "/login" "alice" "pw1") st1 in
  let cookie := map (fun c => (Name c, Value c)) (SetCookies r2) in
  let '(r3, st3) := notesRoute env0
                      (mkRequest MethodPost "/notes" cookie (Some ("t", "c")))
                      st2 in
  let '(r4, st4) := notesRoute env0
                      (mkRequest MethodGet "/notes" [("session_token", "2")]
                         None) st3 in
  let '(r5, st5) := notesRoute env0 (mkRequest MethodGet "/notes" [] None)
                      st4 in
  Status r1 = 201 /\ Status r2 = 200 /\ cookie = [("session_token", "1")] /\
  r3 = WriteJSON 201 (encode_note (mkNote 1 1 "t" "c")) /\
  r4 = WriteJSON 200 JNull /\
  r5 = Error "unauthorized" 401.
Proof. vm_compute. repeat split. Qed.

End AuthNotesProofs.

(* ================================================================== *)
(** * The in-memory todo service: the other handlers *)
(* ================================================================== *)

Module MemTodoMore.
Import MemTodo ListFacts MemTodoProofs.

Lemma strip_prefix_app (p s : string) :
  strip_prefix p (p ++ s)%string = Some s.
Proof.
  induction p as [|c p IH]; simpl; [now destruct s|].
  now rewrite Ascii.eqb_refl.
Qed.

Lemma TrimPrefix_app (p s : string) : TrimPrefix (p ++ s)%string p = s.
Proof. unfold TrimPrefix. now rewrite strip_prefix_app. Qed.

(** The loop of [updateTodoHandler] rewrites the first todo with the id,
    at its place. *)
Lemma update_first_split (id : Z) (title : string) (done : bool)
  (l : list Todo) : forall t' l',
  update_first id title done l = Some (t', l') ->
  exists l1 old l2,
    l = l1 ++ old :: l2 /\ ID old = id /\
    Forall (fun x => ID x <> id) l1 /\
    t' = mkTodo id title done /\
    l' = l1 ++ t' :: l2.
Proof.
  induction l as [|t l IH]; intros t' l'; simpl; [discriminate|].
  destruct (ID t =? id) eqn:E.
  - intros [= <- <-]. apply Z.eqb_eq in E. exists [], t, l.
    rewrite E. repeat split; auto.
  - destruct (update_first id title done l) as [[u r]|] eqn:Eu;
      [|discriminate].
    intros [= <- <-].
    destruct (IH u r eq_refl) as (l1 & old & l2 & -> & Hid & Hl1 & Hu & ->).
    exists (t :: l1), old, l2. apply Z.eqb_neq in E.
    repeat split; auto.
Qed.

(** A successful update (200) named a positive id and had a decoded body
    whose title is not blank; it replaces the first todo with that id, at
    its place, by (id, title as sent, done), leaves every other todo and
    the counter alone, and answers with the new todo. *)
Theorem update_rewrites_one_todo :
  forall (r : Request (string * bool)) (st : State) (resp : Response)
         (st' : State),
    updateTodoHandler r st = (resp, st') ->
    Status resp = StatusOK ->
    exists id title done l1 old l2,
      Atoi (TrimPrefix (Path r) "/todos/") = Some id /\ 0 < id /\
      Decoded r = Some (title, done) /\
      TrimSpace title <> "" /\
      todos st = l1 ++ old :: l2 /\ ID old = id /\
      Forall (fun x => ID x <> id) l1 /\
      todos st' = l1 ++ mkTodo id title done :: l2 /\
      nextID st' = nextID st /\
      resp = WriteJSON StatusOK (encode_todo (mkTodo id title done)).
Proof.
  intros r st resp st'. unfold updateTodoHandler.
  destruct (Atoi _) as [id|] eqn:Eid; [|intros [= <- _]; discriminate].
  destruct (id <=? 0) eqn:Epos; [intros [= <- _]; discriminate|].
  destruct (Decoded r) as [[title done]|]; [|intros [= <- _]; discriminate].
  destruct (String.eqb (TrimSpace title) "") eqn:Et;
    [intros [= <- _]; discriminate|].
  destruct (update_first id title done (todos st)) as [[t' l']|] eqn:Eu;
    [|intros [= <- _]; discriminate].
  intros [= <- <-] _.
  destruct (update_first_split _ _ _ _ _ _ Eu)
    as (l1 & old & l2 & Hl & Hid & Hl1 & -> & ->).
  apply Z.leb_gt in Epos. apply String.eqb_neq in Et.
  exists id, title, done, l1, old, l2. repeat split; auto.
Qed.

Lemma update_rewrites_one_todo_witness :
  fst (updateTodoHandler
         (mkRequest MethodPut "/todos/2" [] (Some (" bake ", true)))
         (snd (run demo_calls init)))
    = WriteJSON StatusOK (encode_todo (mkTodo 2 " bake " true)) /\
  todos (snd (updateTodoHandler
                (mkRequest MethodPut "/todos/2" [] (Some (" bake ", true)))
                (snd (run demo_calls init))))
    = [mkTodo 2 " bake " true; mkTodo 3 "read" false].
Proof.
  destruct (update_rewrites_one_todo
              (mkRequest MethodPut "/todos/2" [] (Some (" bake ", true)))
              (snd (run demo_calls init)) _ _ (surjective_pairing _) eq_refl)
    as (id & title & done & l1 & old & l2 & Hid & _ & Hd & _ & _ & _ & _
        & _ & _ & Hresp).
  split; [|reflexivity].
  rewrite Hresp. injection Hd as <- <-. vm_compute in Hid.
  injection Hid as <-. reflexivity.
Defined.

Ltac settle :=
  simpl; repeat split; auto 10; try discriminate;
  try (let H := fresh in intros H; exfalso; vm_compute in H; now apply H).

(** Every answer of the service has one of six statuses, and a request
    that is answered with an error (400, 404, 405) or is a listing changes
    neither the list nor the counter. *)
Theorem refused_requests_change_nothing :
  forall (c : Call) (st : State),
    In (Status (fst (step c st))) [200; 201; 204; 400; 404; 405] /\
    (400 <= Status (fst (step c st)) -> snd (step c st) = st) /\
    (Status (fst (step c st)) = 200 ->
     map ID (todos (snd (step c st))) = map ID (todos st) /\
     nextID (snd (step c st)) = nextID st).
Proof.
  intros c st. destruct c as [r|r]; simpl step.
  - unfold todosHandler.
    destruct (String.eqb (Method r) MethodGet); [settle|].
    destruct (String.eqb (Method r) MethodPost); [|settle].
    unfold createTodoHandler.
    destruct (Decoded r) as [title|]; [|settle].
    destruct (String.eqb (TrimSpace title) ""); settle.
  - unfold todoItemHandler.
    destruct (String.eqb (Method r) MethodPut).
    { unfold updateTodoHandler.
      destruct (Atoi _) as [id|]; [|settle].
      destruct (id <=? 0); [settle|].
      destruct (Decoded r) as [[title done]|]; [|settle].
      destruct (String.eqb (TrimSpace title) ""); [settle|].
      destruct (update_first id title done (todos st)) as [[t' l']|] eqn:Eu;
        [|settle].
      settle. now destruct (update_first_ids _ _ _ _ _ _ Eu). }
    destruct (String.eqb (Method r) MethodDelete); [|settle].
    unfold deleteTodoHandler.
    destruct (Atoi _) as [id|]; [|settle].
    destruct (id <=? 0); [settle|].
    destruct (find_index id (todos st)); settle.
Qed.

Lemma find_index_none (id : Z) (l : list Todo) :
  (forall x, In x l -> ID x <> id) -> find_index id l = None.
Proof.
  induction l as [|t l IH]; simpl; intros Hne; [reflexivity|].
  destruct (ID t =? id) eqn:E.
  - apply Z.eqb_eq in E. now apply Hne in E; [|left].
  - rewrite IH; [reflexivity|]. intros x Hx. apply Hne. now right.
Qed.

Lemma find_index_last (l : list Todo) (t : Todo) :
  (forall x, In x l -> ID x <> ID t) ->
  find_index (ID t) (l ++ [t]) = Some (List.length l).
Proof.
  induction l as [|a l IH]; simpl; intros Hne.
  - now rewrite Z.eqb_refl.
  - destruct (ID a =? ID t) eqn:E.
    + apply Z.eqb_eq in E. now apply Hne in E; [|left].
    + rewrite IH; [reflexivity|]. intros x Hx. apply Hne. now right.
Qed.

(** With unique ids (which [Inv] gives), a successful delete (204) takes
    out the todo with the id and no other, and the same delete again is
    answered 404 "todo not found" and changes nothing. *)
Theorem delete_removes_the_todo :
  forall (r : Request (string * bool)) (st : State) (resp : Response)
         (st' : State),
    Inv st ->
    deleteTodoHandler r st = (resp, st') ->
    Status resp = StatusNoContent ->
    exists id,
      Atoi (TrimPrefix (Path r) "/todos/") = Some id /\
      (forall t, In t (todos st') <-> In t (todos st) /\ ID t <> id) /\
      nextID st' = nextID st /\
      deleteTodoHandler r st' = (Error "todo not found" StatusNotFound, st').
Proof.
  intros r st resp st' (_ & Hs & _). unfold deleteTodoHandler at 1.
  destruct (Atoi _) as [id|] eqn:Eid; [|intros [= <- _]; discriminate].
  destruct (id <=? 0) eqn:Epos; [intros [= <- _]; discriminate|].
  destruct (find_index id (todos st)) as [index|] eqn:E;
    [|intros [= <- _]; discriminate].
  intros [= _ <-] _.
  destruct (find_index_split _ _ _ E) as (l1 & t & l2 & Hl & Hid & _ & Hcut).
  change (match todos st with [] => [] | _ :: l => skipn index l end)
    with (skipn (S index) (todos st)).
  rewrite Hcut.
  assert (Hother : forall x, In x (l1 ++ l2) -> ID x <> id).
  { intros x Hx Heq. apply sorted_NoDup in Hs. rewrite Hl, map_app in Hs.
    simpl in Hs. apply NoDup_remove_2 in Hs. apply Hs.
    rewrite <- map_app, Hid, <- Heq. now apply in_map. }
  exists id. split; [reflexivity|]. split; [|split; [reflexivity|]].
  - intros x. simpl. rewrite Hl. split.
    + intros Hx. split; [|now apply Hother].
      apply in_app_or in Hx as [Hx|Hx]; apply in_or_app; simpl; auto.
    + intros [Hx Hne]. apply in_app_or in Hx as [Hx|[<-|Hx]];
        [apply in_or_app; auto | now contradiction Hne | apply in_or_app; auto].
  - unfold deleteTodoHandler. rewrite Eid, Epos. simpl todos.
    now rewrite (find_index_none id (l1 ++ l2) Hother).
Qed.

Lemma delete_removes_the_todo_witness :
  Inv (snd (run demo_calls init)) /\
  todos (snd (deleteTodoHandler
                (mkRequest MethodDelete "/todos/2" [] (@None (string * bool)))
                (snd (run demo_calls init))))
    = [mkTodo 3 "read" false] /\
  fst (deleteTodoHandler
         (mkRequest MethodDelete "/todos/2" [] (@None (string * bool)))
         (snd (deleteTodoHandler
                 (mkRequest MethodDelete "/todos/2" []
                    (@None (string * bool)))
                 (snd (run demo_calls init)))))
    = Error "todo not found" StatusNotFound.
Proof.
  assert (Hinv : Inv (snd (run demo_calls init))).
  { unfold Inv. vm_compute. repeat split; try discriminate;
      repeat constructor; discriminate. }
  split; [exact Hinv|]. split; [reflexivity|].
  destruct (delete_removes_the_todo
              (mkRequest MethodDelete "/todos/2" [] None)
              (snd (run demo_calls init)) _ _ Hinv (surjective_pairing _)
              eq_refl) as (id & _ & _ & _ & Hagain).
  now rewrite Hagain.
Defined.

(** A todo that was just created is in the next listing, last, with the
    title exactly as it was sent (only the check looks at the trimmed
    title) and not done; and a delete by the id that the create answered
    takes it out again: the list is as before the create, the counter is
    not. *)
Theorem created_todo_is_listed_and_deletable :
  forall (r : Request string) (st : State) (resp : Response) (st1 : State),
    Inv st -> nextID st < max_int ->
    createTodoHandler r st = (resp, st1) ->
    Status resp = StatusCreated ->
    exists title,
      Decoded r = Some title /\
      created_id resp = Some (nextID st) /\
      (forall (B : Type) (r2 : Request B),
          fst (getTodosHandler r2 st1)
            = WriteJSON StatusOK
                (JArr (map encode_todo (todos st)
                         ++ [encode_todo (mkTodo (nextID st) title false)]))) /\
      (forall (B : Type) (r2 : Request B),
          Path r2 = ("/todos/" ++ Itoa (nextID st))%string ->
          deleteTodoHandler r2 st1
            = (WriteHeader StatusNoContent,
               {| todos := todos st; nextID := nextID st + 1 |})).
Proof.
  intros r st resp st1 (Hpos & Hs & Hb) Hmax Hrun Hok.
  destruct (create_spec r st resp st1 Hmax Hpos Hrun Hok)
    as (title & Hd & -> & Ht & Hn).
  exists title. split; [exact Hd|]. split; [reflexivity|]. split.
  - intros B r2. unfold getTodosHandler. simpl. now rewrite Ht, map_app.
  - intros B r2 Hpath. unfold deleteTodoHandler.
    rewrite Hpath, TrimPrefix_app, GoLibFacts.Atoi_Itoa
      by (unfold min_int; lia).
    replace (nextID st <=? 0) with false by (symmetry; apply Z.leb_gt; lia).
    rewrite Ht, Hn.
    assert (Hne : forall x, In x (todos st)
                            -> ID x <> ID (mkTodo (nextID st) title false)).
    { intros x Hx. rewrite Forall_forall in Hb. specialize (Hb x Hx).
      simpl. lia. }
    change (nextID st) with (ID (mkTodo (nextID st) title false)) at 1.
    rewrite (find_index_last _ _ Hne).
    rewrite firstn_app, firstn_all, Nat.sub_diag, app_nil_r.
    rewrite skipn_all2 by (rewrite length_app; simpl; lia).
    simpl. now rewrite app_nil_r.
Qed.

Lemma created_todo_is_listed_and_deletable_witness :
  Inv init /\
  fst (getTodosHandler (mkRequest MethodGet "/todos" [] (@None string))
         (snd (createTodoHandler
                 (mkRequest MethodPost "/todos" [] (Some " wash "))
                 init)))
    = WriteJSON StatusOK (JArr [encode_todo (mkTodo 1 " wash " false)]) /\
  deleteTodoHandler (mkRequest MethodDelete "/todos/1" [] (@None string))
    (snd (createTodoHandler
            (mkRequest MethodPost "/todos" [] (Some " wash ")) init))
    = (WriteHeader StatusNoContent, {| todos := []; nextID := 2 |}).
Proof.
  split; [exact Inv_init|].
  destruct (created_todo_is_listed_and_deletable
              (mkRequest MethodPost "/todos" [] (Some " wash ")) init _ _
              Inv_init eq_refl (surjective_pairing _) eq_refl)
    as (title & Hd & _ & Hlist & Hdel).
  injection Hd as <-. split.
  - exact (Hlist string _).
  - exact (Hdel string
             (mkRequest MethodDelete "/todos/1" [] (@None string)) eq_refl).
Defined.

End MemTodoMore.

(* ================================================================== *)
(** * The notes service: the routes together *)
(* ================================================================== *)

Module AuthNotesMore.
Import AuthNotes ListFacts AuthNotesProofs.


Section Routes.
Context `{External}.














End Routes.

(** With unique ids, the DELETE takes out the one row it finds. *)
Lemma delete_rows_one (id userID : Z) (l : list Note) (old : Note) :
  NoDup (map ID l) -> In old l -> matches id userID old = true ->
  exists l1 l2,
    l = l1 ++ old :: l2 /\
    filter (fun n => negb (matches id userID n)) l = l1 ++ l2.
Proof.
  intros Hnd Hin Hm.
  destruct (set_columns_one "" "" id userID l old Hnd Hin Hm)
    as (l1 & l2 & -> & Hother & _).
  exists l1, l2. split; [reflexivity|].
  assert (Hkeep : forall m, In m (l1 ++ l2)
                            -> negb (matches id userID m) = true).
  { intros m Hm'. apply negb_true_iff. unfold matches.
    destruct (ID m =? id) eqn:E; [|reflexivity].
    apply Z.eqb_eq in E. now apply Hother in Hm'. }
  rewrite filter_app. simpl. rewrite Hm. simpl.
  rewrite (filter_all _ l1), (filter_all _ l2); auto;
    intros m Hm'; apply Hkeep, in_or_app; auto.
Qed.

(** A delete that is answered 204, on a well-formed store, named the id
    of a row owned by the user; [notes] afterwards is the same list without
    that one row; [users] and both counters are unchanged; the one
    statement sent is the DELETE. *)
Theorem delete_removes_one_note :
  forall (userID : Z) (e : Env) (r : Request Fields) (st : Store)
         (resp : Response) (st' : Store),
    wf st ->
    deleteNoteHandler userID e r st = (resp, st') ->
    Status resp = StatusNoContent ->
    exists id l1 old l2,
      Atoi (TrimPrefix (Path r) "/notes/") = Some id /\
      notes st = l1 ++ old :: l2 /\
      ID old = id /\ UserID old = userID /\
      notes st' = l1 ++ l2 /\
      users st' = users st /\
      users_auto st' = users_auto st /\
      notes_auto st' = notes_auto st /\
      journal st' = DeleteNote id userID :: journal st.
Proof.
  intros userID e r st resp st' Hwf. unfold deleteNoteHandler.
  destruct (Atoi _) as [id|] eqn:Eid; [|intros [= <- _]; discriminate].
  destruct (id <=? 0); [intros [= <- _]; discriminate|].
  unfold delete_note.
  destruct (stmt_fails (fault e)); [intros [= <- _]; discriminate|].
  destruct (_ =? 0) eqn:Eaff; [intros [= <- _]; discriminate|].
  intros [= _ <-] _.
  assert (Hne : filter (matches id userID) (notes st) <> []).
  { intros Hnil. rewrite Hnil in Eaff. discriminate. }
  destruct (filter_some _ _ Hne) as (old & Hin & Hm).
  destruct Hwf as (_ & _ & _ & _ & _ & Hs & _). apply sorted_NoDup in Hs.
  destruct (delete_rows_one id userID (notes st) old Hs Hin Hm)
    as (l1 & l2 & Hl & Hcut).
  apply andb_true_iff in Hm as [Hid Hu]. apply Z.eqb_eq in Hid, Hu.
  exists id, l1, old, l2. simpl. repeat split; auto.
Qed.

Lemma delete_removes_one_note_witness :
  wf demo_store /\
  Status (fst (deleteNoteHandler 1 env0 delete_milk demo_store))
    = StatusNoContent /\
  users (snd (deleteNoteHandler 1 env0 delete_milk demo_store))
    = users demo_store /\
  notes (snd (deleteNoteHandler 1 env0 delete_milk demo_store))
    = [mkNote 2 2 "keys" ""; mkNote 3 1 "rent" "due"].
Proof.
  assert (Hok : Status (fst (deleteNoteHandler 1 env0 delete_milk demo_store))
                = StatusNoContent) by (vm_compute; reflexivity).
  split; [exact wf_demo_store|]. split; [exact Hok|].
  destruct (delete_removes_one_note 1 env0 delete_milk demo_store _ _
              wf_demo_store (surjective_pairing _) Hok)
    as (id & l1 & old & l2 & _ & _ & _ & _ & _ & Hu & _).
  split; [exact Hu | vm_compute; reflexivity].
Defined.

(** An update that sets the title and content the note already has: the
    statement finds the row and changes nothing, so MySQL reports no row
    affected unless the connection was opened with [clientFoundRows];
    the handler then answers 404 for a note that exists and belongs to the
    user.  With [clientFoundRows] the answer is 200. *)
Theorem unchanged_update_is_not_found :
  forall (userID : Z) (e : Env) (r : Request Fields) (st : Store)
         (n : Note) (Title0 : string),
    wf st ->
    In n (notes st) -> UserID n = userID ->
    Atoi (TrimPrefix (Path r) "/notes/") = Some (ID n) ->
    Decoded r = Some (Title0, Content n) ->
    TrimSpace Title0 = Title n -> Title n <> "" ->
    fault e <> StmtFails ->
    notes (snd (updateNoteHandler userID e r st)) = notes st /\
    fst (updateNoteHandler userID e r st)
      = if clientFoundRows st
        then WriteJSON StatusOK (encode_note n)
        else Error "note not found or unauthorized" StatusNotFound.
Proof.
  intros userID e r st n Title0 Hwf Hin Hown Hid Hd Ht Hne Hf.
  assert (Hpos : 0 < ID n).
  { destruct Hwf as (_ & _ & _ & _ & Hids & _).
    rewrite Forall_forall in Hids. specialize (Hids n Hin). lia. }
  unfold updateNoteHandler. rewrite Hid, Hd, Ht.
  apply Z.leb_gt in Hpos. rewrite Hpos.
  apply String.eqb_neq in Hne. rewrite Hne.
  unfold update_note.
  assert (Hs : stmt_fails (fault e) = false)
    by (destruct (fault e); auto; now contradiction Hf).
  rewrite Hs.
  assert (Hm : matches (ID n) userID n = true).
  { unfold matches. rewrite Z.eqb_refl, Hown, Z.eqb_refl. reflexivity. }
  assert (Hsame : forall m, In m (notes st) ->
            set_columns (Title n) (Content n) (ID n) userID m = m).
  { intros m Hm'. unfold set_columns.
    destruct (matches (ID n) userID m) eqn:Em; [|reflexivity].
    apply andb_true_iff in Em as [Ei _]. apply Z.eqb_eq in Ei.
    destruct Hwf as (_ & _ & _ & _ & _ & Hsort & _).
    apply sorted_NoDup in Hsort.
    rewrite (unique_id _ m n Hsort Hm' Hin Ei). now destruct n. }
  assert (Hmap : map (set_columns (Title n) (Content n) (ID n) userID)
                     (notes st) = notes st).
  { rewrite <- (map_id (notes st)) at 2. now apply map_ext_in. }
  destruct (clientFoundRows st) eqn:Ecfr.
  - assert (Hne' : filter (matches (ID n) userID) (notes st) <> []).
    { intros Hnil.
      assert (Hx : In n (filter (matches (ID n) userID) (notes st)))
        by (apply filter_In; auto).
      now rewrite Hnil in Hx. }
    destruct (filter (matches (ID n) userID) (notes st)) as [|x l] eqn:Ef;
      [now contradiction Hne'|].
    simpl snd. simpl fst.
    replace (Z.of_nat (List.length (x :: l)) =? 0) with false
      by (symmetry; apply Z.eqb_neq; simpl List.length; lia).
    simpl. split; [exact Hmap|]. rewrite <- Hown. now destruct n.
  - rewrite (filter_none (changes (Title n) (Content n) (ID n) userID)).
    + simpl. split; [exact Hmap | reflexivity].
    + intros m Hm'. unfold changes.
      destruct (matches (ID n) userID m) eqn:Em; [|reflexivity].
      apply andb_true_iff in Em as [Ei _]. apply Z.eqb_eq in Ei.
      destruct Hwf as (_ & _ & _ & _ & _ & Hsort & _).
      apply sorted_NoDup in Hsort.
      rewrite (unique_id _ m n Hsort Hm' Hin Ei).
      now rewrite !String.eqb_refl.
Qed.

Lemma unchanged_update_is_not_found_witness :
  wf demo_store /\ clientFoundRows demo_store = false /\
  fst (updateNoteHandler 1 env0 (put "/notes/1" " milk" "2l") demo_store)
    = Error "note not found or unauthorized" StatusNotFound.
Proof.
  split; [exact wf_demo_store|]. split; [reflexivity|].
  assert (Hin : In (mkNote 1 1 "milk" "2l") (notes demo_store))
    by (vm_compute; left; reflexivity).
  assert (Hne : Title (mkNote 1 1 "milk" "2l") <> "") by discriminate.
  assert (Hf : fault env0 <> StmtFails) by discriminate.
  destruct (unchanged_update_is_not_found 1 env0
              (put "/notes/1" " milk" "2l") demo_store
              (mkNote 1 1 "milk" "2l") " milk" wf_demo_store Hin
              eq_refl eq_refl eq_refl eq_refl Hne Hf) as [_ Hresp].
  exact Hresp.
Defined.


(** A note that was just created heads the creator's next listing,
    before the notes the creator had; the listings of the other users are
    what they were; and a delete by the creator with the id that the create
    answered takes the note out again, leaving [notes] as before the
    create. *)
Theorem created_note_is_listed_and_deletable :
  forall (userID : Z) (e : Env) (r : Request Fields) (st : Store)
         (resp : Response) (st1 : Store),
    wf st ->
    notes_auto st <= max_int ->
    createNoteHandler userID e r st = (resp, st1) ->
    Status resp = StatusCreated ->
    exists new,
      resp = WriteJSON StatusCreated (encode_note new) /\
      ID new = notes_auto st /\ UserID new = userID /\
      (forall (e2 : Env) (r2 : Request Fields),
          fault e2 = NoFault ->
          fst (getNotesHandler userID e2 r2 st1)
            = WriteJSON StatusOK
                (JArr (encode_note new
                         :: map encode_note
                              (rev (filter (owned_by userID) (notes st)))))) /\
      (forall (other : Z) (e2 : Env) (r2 : Request Fields),
          other <> userID ->
          fst (getNotesHandler other e2 r2 st1)
            = fst (getNotesHandler other e2 r2 st)) /\
      (forall (e2 : Env) (r2 : Request Fields),
          Path r2 = ("/notes/" ++ Itoa (ID new))%string ->
          fault e2 <> StmtFails ->
          fst (deleteNoteHandler userID e2 r2 st1)
            = WriteHeader StatusNoContent /\
          notes (snd (deleteNoteHandler userID e2 r2 st1)) = notes st).
Proof.
  intros userID e r st resp st1 Hwf Hmax Hrun Hok.
  pose proof (wf_createNote userID e r st Hwf) as Hwf1.
  rewrite Hrun in Hwf1. simpl in Hwf1.
  revert Hrun Hok. unfold createNoteHandler.
  destruct (Decoded r) as [[t c]|]; [|intros [= <- _]; discriminate].
  destruct (String.eqb (TrimSpace t) ""); [intros [= <- _]; discriminate|].
  unfold insert_note.
  destruct (stmt_fails (fault e) || negb (existsb _ (users st)));
    [intros [= <- _]; discriminate|].
  intros [= <- <-] _.
  set (new := mkNote (notes_auto st) userID (TrimSpace t) c).
  simpl in Hwf1. fold new in Hwf1.
  destruct Hwf as (_ & Hauto & _ & _ & Hids & _).
  assert (Hold : forall m, In m (notes st)
                           -> matches (notes_auto st) userID m = false).
  { intros m Hm. rewrite Forall_forall in Hids. specialize (Hids m Hm).
    unfold matches. replace (ID m =? notes_auto st) with false; [reflexivity|].
    symmetry. apply Z.eqb_neq. lia. }
  exists new. split; [reflexivity|]. split; [reflexivity|].
  split; [reflexivity|]. split; [|split].
  - intros e2 r2 Hf. rewrite (getNotes_no_fault userID e2 r2 _ Hf).
    simpl fst. simpl notes.
    destruct Hwf1 as (_ & _ & _ & _ & _ & Hs1 & _). simpl in Hs1.
    rewrite (order_by_id_desc_rev _ (sorted_map_filter ID _ _ Hs1)).
    rewrite filter_app. simpl. unfold owned_by at 2. simpl.
    rewrite Z.eqb_refl, rev_app_distr. reflexivity.
  - intros other e2 r2 Hne. unfold getNotesHandler, select_notes.
    simpl notes. rewrite filter_app. simpl. unfold owned_by at 2. simpl.
    replace (userID =? other) with false
      by (symmetry; apply Z.eqb_neq; congruence).
    cbv iota. rewrite List.app_nil_r. now destruct (stmt_fails (fault e2)).
  - intros e2 r2 Hpath Hf. unfold deleteNoteHandler.
    rewrite Hpath, MemTodoMore.TrimPrefix_app, GoLibFacts.Atoi_Itoa
      by (simpl; unfold min_int; lia).
    simpl ID. replace (notes_auto st <=? 0) with false
      by (symmetry; apply Z.leb_gt; lia).
    unfold delete_note.
    assert (Hs : stmt_fails (fault e2) = false)
      by (destruct (fault e2); auto; now contradiction Hf).
    rewrite Hs. simpl notes. rewrite !filter_app.
    rewrite (filter_none _ _ Hold).
    rewrite (filter_all (fun n => negb (matches (notes_auto st) userID n)))
      by (intros m Hm; now rewrite (Hold m Hm)).
    assert (Hnew : matches (notes_auto st) userID new = true)
      by (unfold matches, new; simpl; now rewrite !Z.eqb_refl).
    simpl. rewrite !Hnew. simpl. now rewrite List.app_nil_r.
Qed.

Lemma created_note_is_listed_and_deletable_witness :
  wf demo_store /\
  fst (getNotesHandler 2 env0 (post "/notes" "" "")
         (snd (createNoteHandler 2 env0 (post "/notes" " bike " "fix")
                 demo_store)))
    = WriteJSON StatusOK
        (JArr [encode_note (mkNote 4 2 "bike" "fix");
               encode_note (mkNote 2 2 "keys" "")]) /\
  notes (snd (deleteNoteHandler 2 env0 (delete "/notes/4")
                (snd (createNoteHandler 2 env0 (post "/notes" " bike " "fix")
                        demo_store))))
    = notes demo_store.
Proof.
  split; [exact wf_demo_store|].
  assert (Hmax : notes_auto demo_store <= max_int)
    by (vm_compute; discriminate).
  destruct (created_note_is_listed_and_deletable 2 env0
              (post "/notes" " bike " "fix") demo_store _ _ wf_demo_store
              Hmax (surjective_pairing _) eq_refl)
    as (new & Hresp & Hid & Hu & Hlist & _ & Hdel).
  assert (Hnew : new = mkNote 4 2 "bike" "fix").
  { clear - Hresp. vm_compute in Hresp. injection Hresp as Hi Hu' Ht Hc.
    destruct new; simpl in *. congruence. }
  subst new. split.
  - rewrite (Hlist env0 (post "/notes" "" "") eq_refl). vm_compute.
    reflexivity.
  - assert (Hf : fault env0 <> StmtFails) by discriminate.
    exact (proj2 (Hdel env0 (delete "/notes/4") eq_refl Hf)).
Defined.

(** ** Note ids over time *)


Section Ids.
Context `{External}.






End Ids.


End AuthNotesMore.

(* ================================================================== *)
(** * Facts about a table with an AUTO_INCREMENT key *)
(* ================================================================== *)

Module TableFacts.
Import AuthNotes Table ListFacts.

Lemma collect_list {A : Type} (l : list A) :
  fold_left append l None = match l with [] => None | _ :: _ => Some l end.
Proof.
  assert (Hacc : forall (l acc : list A),
             fold_left append l (Some acc) = Some (acc ++ l)).
  { induction l0 as [|x l0 IH]; intros acc; simpl.
    - now rewrite List.app_nil_r.
    - rewrite IH, <- app_assoc. reflexivity. }
  destruct l as [|x l]; [reflexivity|]. simpl. now rewrite Hacc.
Qed.

Section Rows.
Variables (Row Stmt : Type) (key : Row -> Z).

Lemma table_insert_asc_newest (r : Row) (l : list Row) :
  Forall (fun m => key m < key r) l -> insert_asc key r l = l ++ [r].
Proof.
  induction 1 as [|m l Hm Hl IH]; simpl; [reflexivity|].
  destruct (key r <? key m) eqn:E; [apply Z.ltb_lt in E; lia|].
  now rewrite IH.
Qed.

Lemma table_insert_desc_oldest (r : Row) (l : list Row) :
  Forall (fun m => key r < key m) l -> insert_desc key r l = l ++ [r].
Proof.
  induction 1 as [|m l Hm Hl IH]; simpl; [reflexivity|].
  destruct (key m <? key r) eqn:E; [apply Z.ltb_lt in E; lia|].
  now rewrite IH.
Qed.

(** On a table in the order of its ids, ORDER BY id DESC is the reverse of
    the table and ORDER BY id is the table. *)
Lemma order_desc_rev (l : list Row) :
  StronglySorted Z.lt (map key l) -> order_desc key l = rev l.
Proof.
  induction l as [|n l IH]; simpl; intros Hs; [reflexivity|].
  inversion Hs as [|? ? Hs' Hn]; subst. rewrite (IH Hs').
  apply table_insert_desc_oldest. apply Forall_forall. intros m Hm.
  apply in_rev in Hm. rewrite Forall_forall in Hn. apply Hn.
  now apply in_map.
Qed.

Lemma table_insert_asc_first (r : Row) (l : list Row) :
  Forall (fun m => key r < key m) l -> insert_asc key r l = r :: l.
Proof.
  intros Hl. destruct l as [|m l]; simpl; [reflexivity|].
  inversion Hl; subst.
  now replace (key r <? key m) with true by (symmetry; now apply Z.ltb_lt).
Qed.

Lemma order_asc_id (l : list Row) :
  StronglySorted Z.lt (map key l) -> order_asc key l = l.
Proof.
  induction l as [|n l IH]; simpl; intros Hs; [reflexivity|].
  inversion Hs as [|? ? Hs' Hn]; subst. rewrite (IH Hs').
  apply table_insert_asc_first. apply Forall_forall. intros m Hm.
  rewrite Forall_forall in Hn. apply Hn. now apply in_map.
Qed.

(** With ids in increasing order, a row is the only one with its id. *)
Lemma split_at_key (l : list Row) (old : Row) :
  StronglySorted Z.lt (map key l) -> In old l ->
  exists l1 l2,
    l = l1 ++ old :: l2 /\
    forall m, In m (l1 ++ l2) -> key m <> key old.
Proof.
  intros Hs Hin. destruct (in_split _ _ Hin) as (l1 & l2 & ->).
  exists l1, l2. split; [reflexivity|].
  intros m Hm Heq. apply sorted_NoDup in Hs. rewrite map_app in Hs.
  simpl in Hs. apply NoDup_remove_2 in Hs. apply Hs.
  rewrite <- map_app, <- Heq. now apply in_map.
Qed.

Lemma table_update_one (set : Row -> Row) (l1 l2 : list Row) (old : Row) :
  (forall m, In m (l1 ++ l2) -> key m <> key old) ->
  map (fun r => if key r =? key old then set r else r) (l1 ++ old :: l2)
    = l1 ++ set old :: l2.
Proof.
  intros Hother.
  assert (Hid : forall l, (forall m, In m l -> key m <> key old) ->
            map (fun r => if key r =? key old then set r else r) l = l).
  { intros l Hl. rewrite <- (map_id l) at 2. apply map_ext_in.
    intros m Hm. now rewrite (proj2 (Z.eqb_neq _ _) (Hl m Hm)). }
  rewrite map_app. simpl. rewrite Z.eqb_refl.
  rewrite (Hid l1), (Hid l2); auto;
    intros m Hm; apply Hother, in_or_app; auto.
Qed.

Lemma table_delete_one (l1 l2 : list Row) (old : Row) :
  (forall m, In m (l1 ++ l2) -> key m <> key old) ->
  filter (fun r => negb (key r =? key old)) (l1 ++ old :: l2) = l1 ++ l2.
Proof.
  intros Hother. rewrite filter_app. simpl. rewrite Z.eqb_refl. simpl.
  rewrite (filter_all _ l1), (filter_all _ l2); auto;
    intros m Hm; apply negb_true_iff, Z.eqb_neq, Hother, in_or_app; auto.
Qed.

(** A statement that counted a row found a row with the id. *)
Lemma counted_found (id : Z) (p : Row -> bool) (l : list Row) :
  Z.of_nat (List.length (filter (fun r => (key r =? id) && p r) l)) <> 0 ->
  exists old, In old l /\ key old = id.
Proof.
  intros Hne.
  destruct (filter_some (fun r => (key r =? id) && p r) l) as (old & Hin & Hc).
  { intros Hnil. rewrite Hnil in Hne. now apply Hne. }
  apply andb_true_iff in Hc as [Hk _]. exists old.
  split; [exact Hin | now apply Z.eqb_eq].
Qed.

(** A statement that counted no row changed no row. *)
Lemma update_none_counted (id : Z) (set : Row -> Row) (same : Row -> bool)
  (found : bool) (l : list Row) :
  Z.of_nat (List.length
              (filter (fun r => (key r =? id) && (found || negb (same r))) l))
    = 0 ->
  (forall r, key r = id -> same r = true -> set r = r) ->
  map (fun r => if key r =? id then set r else r) l = l.
Proof.
  intros Hz Hsame. rewrite <- (map_id l) at 2. apply map_ext_in.
  intros r Hr. destruct (key r =? id) eqn:Ek; [|reflexivity].
  destruct ((key r =? id) && (found || negb (same r))) eqn:Ec.
  - assert (Hin : In r (filter (fun r => (key r =? id)
                                         && (found || negb (same r))) l))
      by (apply filter_In; auto).
    destruct (filter _ l); [contradiction | discriminate].
  - rewrite Ek in Ec. simpl in Ec. apply orb_false_iff in Ec as [_ Ec].
    apply negb_false_iff in Ec. apply Z.eqb_eq in Ek. now apply Hsame.
Qed.

Lemma delete_none_counted (id : Z) (l : list Row) :
  Z.of_nat (List.length (filter (fun r => key r =? id) l)) = 0 ->
  filter (fun r => negb (key r =? id)) l = l.
Proof.
  intros Hz. apply filter_all. intros r Hr. apply negb_true_iff.
  destruct (key r =? id) eqn:Ek; [|reflexivity].
  assert (Hin : In r (filter (fun r => key r =? id) l))
    by (apply filter_In; auto).
  destruct (filter _ l); [contradiction | discriminate].
Qed.

Lemma table_wf_record (s : Stmt) (st : Store Row Stmt) :
  wf key st -> wf key (record s st).
Proof. unfold wf; simpl; auto. Qed.

Lemma table_wf_select (f : Fault) (s : Stmt) (order : list Row -> list Row)
  (st : Store Row Stmt) :
  wf key st -> wf key (snd (select f s order st)).
Proof.
  intros Hwf. unfold select.
  destruct (stmt_fails f); simpl; now apply table_wf_record.
Qed.

Lemma table_wf_insert (f : Fault) (s : Stmt) (mk : Z -> Row)
  (st : Store Row Stmt) :
  (forall id, key (mk id) = id) ->
  wf key st -> wf key (snd (insert f s mk st)).
Proof.
  intros Hmk Hwf. unfold insert.
  destruct (stmt_fails f); simpl; [now apply table_wf_record|].
  destruct Hwf as (Ha & Hb & Hs). unfold wf; simpl.
  rewrite map_app. simpl. rewrite Hmk. repeat split; try lia.
  - apply Forall_app. split.
    + eapply Forall_impl; [|exact Hb]. simpl. intros; lia.
    + repeat constructor; rewrite Hmk; lia.
  - apply sorted_snoc; [exact Hs|]. apply Forall_map.
    eapply Forall_impl; [|exact Hb]. simpl. intros; lia.
Qed.

Lemma table_wf_update (f : Fault) (s : Stmt) (id : Z) (set : Row -> Row)
  (same : Row -> bool) (st : Store Row Stmt) :
  (forall r, key (set r) = key r) ->
  wf key st -> wf key (snd (update key f s id set same st)).
Proof.
  intros Hset Hwf. unfold update.
  destruct (stmt_fails f); simpl; [now apply table_wf_record|].
  destruct Hwf as (Ha & Hb & Hs). unfold wf; simpl.
  assert (Hk : forall r, key (if key r =? id then set r else r) = key r).
  { intros r. destruct (key r =? id); auto. }
  repeat split; auto.
  - apply Forall_map. eapply Forall_impl; [|exact Hb]. simpl.
    intros r Hr. now rewrite Hk.
  - rewrite map_map. rewrite (map_ext _ key); [exact Hs | exact Hk].
Qed.

Lemma table_wf_delete (f : Fault) (s : Stmt) (id : Z) (st : Store Row Stmt) :
  wf key st -> wf key (snd (delete key f s id st)).
Proof.
  intros Hwf. unfold delete.
  destruct (stmt_fails f); simpl; [now apply table_wf_record|].
  destruct Hwf as (Ha & Hb & Hs). unfold wf; simpl. repeat split; auto.
  - now apply Forall_filter.
  - now apply sorted_map_filter.
Qed.

End Rows.

End TableFacts.

(* ================================================================== *)
(** * The notes service without users *)
(* ================================================================== *)

Module PlainNotesProofs.
Import AuthNotes.
Import Table TableFacts ListFacts PlainNotes.

Ltac calm :=
  simpl; unfold same_table; simpl; repeat split; auto 12;
  try discriminate;
  try (exfalso;
       match goal with
       | H : 400 <= _ |- _ => vm_compute in H; now apply H
       end).

Lemma plain_listing_rows (e : Env) (r : Request Fields)
  (st : Store) :
  wf ID st ->
  fault e = NoFault ->
  getNotesHandler e r st
    = (WriteJSON StatusOK
         (match rows st with
          | [] => JNull
          | _ :: _ => JArr (map encode_note (rev (rows st)))
          end),
       record SelectNotes st).
Proof.
  intros (_ & _ & Hs) Hf. unfold getNotesHandler, select.
  rewrite Hf. simpl. rewrite (order_desc_rev _ ID _ Hs), collect_list.
  destruct (rows st) as [|n l]; [reflexivity|].
  destruct (rev (n :: l)) as [|x l'] eqn:E; [|reflexivity].
  apply (f_equal (@List.length Note)) in E. rewrite length_rev in E.
  discriminate.
Qed.

(** The listing, when the storage meets no fault: every note, the newest
    first; the JSON value [null] when the table is empty. *)
Theorem plain_listing_is_newest_first :
  forall (e : Env) (r : Request Fields) (st : Store),
    wf ID st ->
    fault e = NoFault ->
    getNotesHandler e r st
      = (WriteJSON StatusOK
           (match rows st with
            | [] => JNull
            | _ :: _ => JArr (map encode_note (rev (rows st)))
            end),
         record SelectNotes st).
Proof. intros e r st. apply plain_listing_rows. Qed.

Lemma plain_wf_empty (found : bool) : wf ID (empty_store found).
Proof. unfold wf, empty_store; simpl. repeat split; try lia; constructor. Qed.

Lemma plain_wf_getNotes (e : Env) (r : Request Fields) (st : Store) :
  wf ID st -> wf ID (snd (getNotesHandler e r st)).
Proof.
  intros Hwf. unfold getNotesHandler.
  pose proof (table_wf_select _ _ ID (fault e) SelectNotes (order_desc ID) st Hwf)
    as Hs.
  now destruct (select _ _ _ _) as [[l|] st1].
Qed.

Lemma plain_wf_createNote (e : Env) (r : Request Fields) (st : Store) :
  wf ID st -> wf ID (snd (createNoteHandler e r st)).
Proof.
  intros Hwf. unfold createNoteHandler.
  destruct (Decoded r) as [[t c]|]; [|exact Hwf].
  destruct (String.eqb (TrimSpace t) ""); [exact Hwf|].
  pose proof (table_wf_insert _ _ ID (fault e) (InsertNote (TrimSpace t) c)
                (fun id => mkNote id (TrimSpace t) c) st
                (fun id => eq_refl) Hwf) as Hi.
  now destruct (insert _ _ _ _) as [[id|] st1].
Qed.

Lemma plain_wf_updateNote (e : Env) (r : Request Fields) (st : Store) :
  wf ID st -> wf ID (snd (updateNoteHandler e r st)).
Proof.
  intros Hwf. unfold updateNoteHandler.
  destruct (Atoi _) as [id|]; [|exact Hwf].
  destruct (id <=? 0); [exact Hwf|].
  destruct (Decoded r) as [[t c]|]; [|exact Hwf].
  destruct (String.eqb (TrimSpace t) ""); [exact Hwf|].
  pose proof (table_wf_update _ _ ID (fault e) (UpdateNote (TrimSpace t) c id) id
                (fun n => mkNote (ID n) (TrimSpace t) c)
                (fun n => String.eqb (Title n) (TrimSpace t)
                          && String.eqb (Content n) c)
                st (fun n => eq_refl) Hwf) as Hu.
  destruct (update _ _ _ _ _ _ _) as [[aff|] st1]; [|exact Hu].
  now destruct (aff =? 0).
Qed.

Lemma plain_wf_deleteNote {B : Type} (e : Env) (r : Request B) (st : Store) :
  wf ID st -> wf ID (snd (deleteNoteHandler e r st)).
Proof.
  intros Hwf. unfold deleteNoteHandler.
  destruct (Atoi _) as [id|]; [|exact Hwf].
  destruct (id <=? 0); [exact Hwf|].
  pose proof (table_wf_delete _ _ ID (fault e) (DeleteNote id) id st Hwf) as Hd.
  destruct (delete _ _ _ _ _) as [[aff|] st1]; [|exact Hd].
  now destruct (aff =? 0).
Qed.

Lemma plain_wf_demo_store : wf ID demo_store.
Proof.
  unfold demo_store. cbv zeta.
  apply plain_wf_deleteNote. repeat apply plain_wf_createNote. apply plain_wf_empty.
Qed.

Lemma plain_listing_is_newest_first_witness :
  fst (getNotesHandler env0 (mkRequest MethodGet "/notes" [] (@None Fields))
         demo_store)
    = WriteJSON StatusOK
        (JArr [encode_note (mkNote 3 "rent" "due");
               encode_note (mkNote 1 "milk" "2l")]) /\
  fst (getNotesHandler env0 (mkRequest MethodGet "/notes" [] (@None Fields))
         (empty_store false))
    = WriteJSON StatusOK JNull.
Proof.
  split.
  - rewrite (plain_listing_is_newest_first env0 _ demo_store plain_wf_demo_store
               eq_refl).
    vm_compute. reflexivity.
  - vm_compute. reflexivity.
Defined.

(** A create that is answered 201 had a decoded body whose title is not
    blank; the note that comes back has the counter's value as id, which is
    positive, the trimmed title and the content; it is appended to the
    table; and the next listing shows it first, before all notes there
    were. *)
Theorem plain_create_appends_and_is_listed_first :
  forall (e : Env) (r : Request Fields) (st : Store) (resp : Response)
         (st1 : Store),
    wf ID st ->
    createNoteHandler e r st = (resp, st1) ->
    Status resp = StatusCreated ->
    exists Title0 Content0,
      Decoded r = Some (Title0, Content0) /\
      TrimSpace Title0 <> "" /\
      0 < auto st /\
      resp = WriteJSON StatusCreated
               (encode_note (mkNote (auto st) (TrimSpace Title0) Content0)) /\
      rows st1 = rows st ++ [mkNote (auto st) (TrimSpace Title0) Content0] /\
      auto st1 = auto st + 1 /\
      forall (e2 : Env) (r2 : Request Fields),
        fault e2 = NoFault ->
        fst (getNotesHandler e2 r2 st1)
          = WriteJSON StatusOK
              (JArr (encode_note (mkNote (auto st) (TrimSpace Title0) Content0)
                       :: map encode_note (rev (rows st)))).
Proof.
  intros e r st resp st1 Hwf Hrun Hok.
  pose proof (plain_wf_createNote e r st Hwf) as Hwf1.
  rewrite Hrun in Hwf1. simpl in Hwf1.
  revert Hrun Hok. unfold createNoteHandler.
  destruct (Decoded r) as [[t c]|]; [|intros [= <- _]; discriminate].
  destruct (String.eqb (TrimSpace t) "") eqn:Et;
    [intros [= <- _]; discriminate|].
  unfold insert.
  destruct (stmt_fails (fault e)); [intros [= <- _]; discriminate|].
  intros [= <- <-] _. apply String.eqb_neq in Et.
  destruct Hwf as (Ha & _).
  exists t, c. repeat split; auto; [lia|].
  intros e2 r2 Hf.
  rewrite (plain_listing_rows e2 r2 _ Hwf1 Hf). simpl.
  destruct (rows st ++ [mkNote (auto st) (TrimSpace t) c]) as [|x l] eqn:E.
  - now destruct (rows st).
  - rewrite <- E, rev_app_distr. reflexivity.
Qed.

Lemma plain_create_appends_and_is_listed_first_witness :
  wf ID demo_store /\
  fst (getNotesHandler env0 (mkRequest MethodGet "/notes" [] (@None Fields))
         (snd (createNoteHandler env0
                 (mkRequest MethodPost "/notes" [] (Some (" bike ", "fix")))
                 demo_store)))
    = WriteJSON StatusOK
        (JArr [encode_note (mkNote 4 "bike" "fix");
               encode_note (mkNote 3 "rent" "due");
               encode_note (mkNote 1 "milk" "2l")]).
Proof.
  split; [exact plain_wf_demo_store|].
  destruct (plain_create_appends_and_is_listed_first env0
              (mkRequest MethodPost "/notes" [] (Some (" bike ", "fix")))
              demo_store _ _ plain_wf_demo_store (surjective_pairing _) eq_refl)
    as (t & c & Hd & _ & _ & _ & _ & _ & Hlist).
  injection Hd as <- <-.
  rewrite (Hlist env0 _ eq_refl). vm_compute. reflexivity.
Defined.

(** There is no owner: whoever sends it, an update that is answered 200
    replaced the one row with the id of the path by (id, trimmed title,
    content), at its place, and a delete that is answered 204 took out the
    one row with the id of the path; every other row and the counter are
    as before. *)
Theorem plain_update_and_delete_touch_one_row :
  forall (e : Env) (r : Request Fields) (st : Store),
    wf ID st ->
    (Status (fst (updateNoteHandler e r st)) = StatusOK ->
     exists id Title0 Content0 l1 old l2,
       Atoi (TrimPrefix (Path r) "/notes/") = Some id /\
       Decoded r = Some (Title0, Content0) /\
       rows st = l1 ++ old :: l2 /\ ID old = id /\
       rows (snd (updateNoteHandler e r st))
         = l1 ++ mkNote id (TrimSpace Title0) Content0 :: l2 /\
       auto (snd (updateNoteHandler e r st)) = auto st /\
       fst (updateNoteHandler e r st)
         = WriteJSON StatusOK
             (encode_note (mkNote id (TrimSpace Title0) Content0))) /\
    (Status (fst (deleteNoteHandler e r st)) = StatusNoContent ->
     exists id l1 old l2,
       Atoi (TrimPrefix (Path r) "/notes/") = Some id /\
       rows st = l1 ++ old :: l2 /\ ID old = id /\
       rows (snd (deleteNoteHandler e r st)) = l1 ++ l2 /\
       auto (snd (deleteNoteHandler e r st)) = auto st).
Proof.
  intros e r st (_ & _ & Hs). split.
  - unfold updateNoteHandler.
    destruct (Atoi _) as [id|] eqn:Eid; [|discriminate].
    destruct (id <=? 0); [discriminate|].
    destruct (Decoded r) as [[t c]|]; [|discriminate].
    destruct (String.eqb (TrimSpace t) ""); [discriminate|].
    unfold update.
    destruct (stmt_fails (fault e)); [discriminate|].
    destruct (_ =? 0) eqn:Eaff; [discriminate|]. intros _.
    apply Z.eqb_neq in Eaff.
    destruct (counted_found _ ID id _ _ Eaff) as (old & Hin & Hid).
    destruct (split_at_key _ ID _ old Hs Hin) as (l1 & l2 & Hl & Hother).
    exists id, t, c, l1, old, l2. simpl.
    repeat split; auto.
    rewrite Hl, <- Hid. rewrite (table_update_one _ ID _ l1 l2 old Hother).
    reflexivity.
  - unfold deleteNoteHandler.
    destruct (Atoi _) as [id|] eqn:Eid; [|discriminate].
    destruct (id <=? 0); [discriminate|].
    unfold delete.
    destruct (stmt_fails (fault e)); [discriminate|].
    destruct (_ =? 0) eqn:Eaff; [discriminate|]. intros _.
    apply Z.eqb_neq in Eaff.
    destruct (counted_found _ ID id (fun _ => true) (rows st))
      as (old & Hin & Hid).
    { rewrite (filter_ext _ (fun r => ID r =? id)); [exact Eaff|].
      intros a. now rewrite andb_true_r. }
    destruct (split_at_key _ ID _ old Hs Hin) as (l1 & l2 & Hl & Hother).
    exists id, l1, old, l2. simpl. repeat split; auto.
    rewrite Hl, <- Hid. apply (table_delete_one _ ID l1 l2 old Hother).
Qed.

Lemma plain_update_and_delete_touch_one_row_witness :
  wf ID demo_store /\
  Status (fst (updateNoteHandler env0
                 (mkRequest MethodPut "/notes/3" [] (Some (" rent ", "paid")))
                 demo_store)) = StatusOK /\
  auto (snd (updateNoteHandler env0
               (mkRequest MethodPut "/notes/3" [] (Some (" rent ", "paid")))
               demo_store)) = auto demo_store /\
  rows (snd (updateNoteHandler env0
               (mkRequest MethodPut "/notes/3" [] (Some (" rent ", "paid")))
               demo_store))
    = [mkNote 1 "milk" "2l"; mkNote 3 "rent" "paid"].
Proof.
  split; [exact plain_wf_demo_store|]. split; [reflexivity|].
  destruct (plain_update_and_delete_touch_one_row env0
              (mkRequest MethodPut "/notes/3" [] (Some (" rent ", "paid")))
              demo_store plain_wf_demo_store) as [Hupd _].
  destruct (Hupd eq_refl)
    as (id & t & c & l1 & old & l2 & _ & _ & _ & _ & _ & Hauto & _).
  split; [exact Hauto | vm_compute; reflexivity].
Defined.

(** Every request keeps the table well formed; every answer has one of
    seven statuses; and a request that is answered with an error leaves
    the rows and the counter as they were. *)
Theorem plain_requests_keep_the_table :
  forall (e : Env) (r : Request Fields) (st : Store),
    wf ID st ->
    (wf ID (snd (notesHandler e r st)) /\
     wf ID (snd (noteItemHandler e r st))) /\
    (In (Status (fst (notesHandler e r st))) [200; 201; 400; 405; 500] /\
     In (Status (fst (noteItemHandler e r st)))
        [200; 204; 400; 404; 405; 500]) /\
    (400 <= Status (fst (notesHandler e r st)) ->
     same_table st (snd (notesHandler e r st))) /\
    (400 <= Status (fst (noteItemHandler e r st)) ->
     same_table st (snd (noteItemHandler e r st))).
Proof.
  intros e r st Hwf. split; [|split; [|split]].
  - split.
    + unfold notesHandler.
      destruct (String.eqb (Method r) MethodGet); [now apply plain_wf_getNotes|].
      destruct (String.eqb (Method r) MethodPost);
        [now apply plain_wf_createNote | exact Hwf].
    + unfold noteItemHandler.
      destruct (String.eqb (Method r) MethodPut); [now apply plain_wf_updateNote|].
      destruct (String.eqb (Method r) MethodDelete);
        [now apply plain_wf_deleteNote | exact Hwf].
  - split.
    + unfold notesHandler, getNotesHandler, createNoteHandler, select, insert.
      destruct (String.eqb (Method r) MethodGet);
        [destruct (stmt_fails (fault e)); calm|].
      destruct (String.eqb (Method r) MethodPost); [|calm].
      destruct (Decoded r) as [[t c]|]; [|calm].
      destruct (String.eqb (TrimSpace t) ""); [calm|].
      destruct (stmt_fails (fault e)); calm.
    + unfold noteItemHandler, updateNoteHandler, deleteNoteHandler,
        update, delete.
      destruct (Atoi _) as [id|];
        [|destruct (String.eqb (Method r) MethodPut);
          [|destruct (String.eqb (Method r) MethodDelete)]; calm].
      destruct (id <=? 0);
        [destruct (String.eqb (Method r) MethodPut);
         [|destruct (String.eqb (Method r) MethodDelete)]; calm|].
      destruct (String.eqb (Method r) MethodPut).
      * destruct (Decoded r) as [[t c]|]; [|calm].
        destruct (String.eqb (TrimSpace t) ""); [calm|].
        destruct (stmt_fails (fault e)); [calm|].
        destruct (_ =? 0); calm.
      * destruct (String.eqb (Method r) MethodDelete); [|calm].
        destruct (stmt_fails (fault e)); [calm|].
        destruct (_ =? 0); calm.
  - unfold notesHandler, getNotesHandler, createNoteHandler, select, insert.
    destruct (String.eqb (Method r) MethodGet);
      [destruct (stmt_fails (fault e)); calm|].
    destruct (String.eqb (Method r) MethodPost); [|calm].
    destruct (Decoded r) as [[t c]|]; [|calm].
    destruct (String.eqb (TrimSpace t) ""); [calm|].
    destruct (stmt_fails (fault e)); calm.
  - unfold noteItemHandler.
    destruct (String.eqb (Method r) MethodPut).
    + unfold updateNoteHandler.
      destruct (Atoi _) as [id|]; [|calm].
      destruct (id <=? 0); [calm|].
      destruct (Decoded r) as [[t c]|]; [|calm].
      destruct (String.eqb (TrimSpace t) ""); [calm|].
      unfold update. destruct (stmt_fails (fault e)); [calm|].
      destruct (_ =? 0) eqn:Eaff; [|calm].
      intros _. unfold same_table. simpl. repeat split.
      rewrite <- (map_id (rows st)) at 2. apply map_ext_in. intros n Hn.
      destruct (ID n =? id) eqn:Ek; [|reflexivity].
      apply Z.eqb_eq in Eaff.
      assert (Hc : (ID n =? id)
                   && (found_rows st
                       || negb (String.eqb (Title n) (TrimSpace t)
                                && String.eqb (Content n) c)) = false).
      { destruct (_ && _) eqn:Ec; [|reflexivity].
        assert (Hin : In n (filter
                  (fun r => (ID r =? id)
                            && (found_rows st
                                || negb (String.eqb (Title r) (TrimSpace t)
                                         && String.eqb (Content r) c)))
                  (rows st))) by (apply filter_In; auto).
        destruct (filter _ (rows st)); [contradiction | discriminate]. }
      rewrite Ek in Hc. simpl in Hc.
      apply orb_false_iff in Hc as [_ Hc].
      apply negb_false_iff, andb_true_iff in Hc as [Ht Hc].
      apply String.eqb_eq in Ht, Hc. destruct n; simpl in *. congruence.
    + destruct (String.eqb (Method r) MethodDelete); [|calm].
      unfold deleteNoteHandler.
      destruct (Atoi _) as [id|]; [|calm].
      destruct (id <=? 0); [calm|].
      unfold delete. destruct (stmt_fails (fault e)); [calm|].
      destruct (_ =? 0) eqn:Eaff; [|calm].
      intros _. unfold same_table. simpl. repeat split.
      apply filter_all. intros n Hn. apply negb_true_iff.
      destruct (ID n =? id) eqn:Ek; [|reflexivity].
      apply Z.eqb_eq in Eaff.
      assert (Hin : In n (filter (fun r => ID r =? id) (rows st)))
        by (apply filter_In; auto).
      destruct (filter _ (rows st)); [contradiction | discriminate].
Qed.

Lemma plain_requests_keep_the_table_witness :
  wf ID demo_store /\
  wf ID (snd (noteItemHandler env0
                (mkRequest MethodPut "/notes/3" [] (Some ("rent", "paid")))
                demo_store)) /\
  same_table demo_store
    (snd (noteItemHandler env0
            (mkRequest MethodPut "/notes/2" [] (Some ("keys", "found")))
            demo_store)).
Proof.
  split; [exact plain_wf_demo_store|].
  destruct (plain_requests_keep_the_table env0
              (mkRequest MethodPut "/notes/3" [] (Some ("rent", "paid")))
              demo_store plain_wf_demo_store) as ((_ & Hwf) & _).
  split; [exact Hwf|].
  destruct (plain_requests_keep_the_table env0
              (mkRequest MethodPut "/notes/2" [] (Some ("keys", "found")))
              demo_store plain_wf_demo_store) as (_ & _ & _ & Hsame).
  apply Hsame. vm_compute. discriminate.
Defined.

End PlainNotesProofs.

(* ================================================================== *)
(** * The todo service on the database *)
(* ================================================================== *)

Module DbTodoProofs.
Import AuthNotes.
Import Table TableFacts ListFacts DbTodo.

Ltac calm :=
  simpl; unfold same_table; simpl; repeat split; auto 12;
  try discriminate;
  try (exfalso;
       match goal with
       | H : 400 <= _ |- _ => vm_compute in H; now apply H
       end).

Lemma db_listing_rows {B : Type} (e : Env) (r : Request B) (st : Store) :
  wf ID st ->
  fault e = NoFault ->
  getTodosHandler e r st
    = (WriteJSON StatusOK
         (match rows st with
          | [] => JNull
          | _ :: _ => JArr (map encode_todo (rows st))
          end),
       record SelectTodos st).
Proof.
  intros (_ & _ & Hs) Hf. unfold getTodosHandler, select.
  rewrite Hf. simpl. rewrite (order_asc_id _ ID _ Hs), collect_list.
  now destruct (rows st).
Qed.

Lemma db_wf_empty (found : bool) : wf ID (empty_store found).
Proof. unfold wf, empty_store; simpl. repeat split; try lia; constructor. Qed.

Lemma db_wf_getTodos {B : Type} (e : Env) (r : Request B) (st : Store) :
  wf ID st -> wf ID (snd (getTodosHandler e r st)).
Proof.
  intros Hwf. unfold getTodosHandler.
  pose proof (table_wf_select _ _ ID (fault e) SelectTodos (order_asc ID) st Hwf)
    as Hs.
  now destruct (select _ _ _ _) as [[l|] st1].
Qed.

Lemma db_wf_createTodo (e : Env) (r : Request string) (st : Store) :
  wf ID st -> wf ID (snd (createTodoHandler e r st)).
Proof.
  intros Hwf. unfold createTodoHandler.
  destruct (Decoded r) as [t|]; [|exact Hwf].
  destruct (String.eqb (TrimSpace t) ""); [exact Hwf|].
  pose proof (table_wf_insert _ _ ID (fault e) (InsertTodo (TrimSpace t))
                (fun id => mkTodo id (TrimSpace t) false) st
                (fun id => eq_refl) Hwf) as Hi.
  now destruct (insert _ _ _ _) as [[id|] st1].
Qed.

Lemma db_wf_updateTodo (e : Env) (r : Request (string * bool)) (st : Store) :
  wf ID st -> wf ID (snd (updateTodoHandler e r st)).
Proof.
  intros Hwf. unfold updateTodoHandler.
  destruct (Atoi _) as [id|]; [|exact Hwf].
  destruct (id <=? 0); [exact Hwf|].
  destruct (Decoded r) as [[t d]|]; [|exact Hwf].
  destruct (String.eqb (TrimSpace t) ""); [exact Hwf|].
  pose proof (table_wf_update _ _ ID (fault e) (UpdateTodo (TrimSpace t) d id) id
                (fun x => mkTodo (ID x) (TrimSpace t) d)
                (fun x => String.eqb (Title x) (TrimSpace t)
                          && Bool.eqb (Done x) d)
                st (fun x => eq_refl) Hwf) as Hu.
  destruct (update _ _ _ _ _ _ _) as [[aff|] st1]; [|exact Hu].
  now destruct (aff =? 0).
Qed.

Lemma db_wf_deleteTodo {B : Type} (e : Env) (r : Request B) (st : Store) :
  wf ID st -> wf ID (snd (deleteTodoHandler e r st)).
Proof.
  intros Hwf. unfold deleteTodoHandler.
  destruct (Atoi _) as [id|]; [|exact Hwf].
  destruct (id <=? 0); [exact Hwf|].
  pose proof (table_wf_delete _ _ ID (fault e) (DeleteTodo id) id st Hwf) as Hd.
  destruct (delete _ _ _ _ _) as [[aff|] st1]; [|exact Hd].
  now destruct (aff =? 0).
Qed.

Lemma db_wf_demo_store : wf ID demo_store.
Proof.
  unfold demo_store. cbv zeta. repeat apply db_wf_createTodo. apply db_wf_empty.
Qed.

(** A create that is answered 201 had a decoded title that is not blank;
    the todo that comes back and is stored has the counter's value as id,
    which is positive, the trimmed title (the in-memory service keeps the
    title as sent) and is not done; the next listing is the todos there
    were, oldest first, and then the new one.  An empty table is listed as
    the JSON value [null]. *)
Theorem db_create_appends_and_is_listed_last :
  forall (e : Env) (r : Request string) (st : Store) (resp : Response)
         (st1 : Store),
    wf ID st ->
    createTodoHandler e r st = (resp, st1) ->
    Status resp = StatusCreated ->
    exists Title0,
      Decoded r = Some Title0 /\
      TrimSpace Title0 <> "" /\
      0 < auto st /\
      resp = WriteJSON StatusCreated
               (encode_todo (mkTodo (auto st) (TrimSpace Title0) false)) /\
      rows st1 = rows st ++ [mkTodo (auto st) (TrimSpace Title0) false] /\
      auto st1 = auto st + 1 /\
      (forall (e2 : Env) (r2 : Request string),
          fault e2 = NoFault ->
          fst (getTodosHandler e2 r2 st1)
            = WriteJSON StatusOK
                (JArr (map encode_todo (rows st)
                         ++ [encode_todo
                               (mkTodo (auto st) (TrimSpace Title0) false)]))) /\
      (forall (e2 : Env) (r2 : Request string),
          fault e2 = NoFault -> rows st = [] ->
          fst (getTodosHandler e2 r2 st) = WriteJSON StatusOK JNull).
Proof.
  intros e r st resp st1 Hwf Hrun Hok.
  pose proof (db_wf_createTodo e r st Hwf) as Hwf1.
  rewrite Hrun in Hwf1. simpl in Hwf1.
  revert Hrun Hok. unfold createTodoHandler.
  destruct (Decoded r) as [t|]; [|intros [= <- _]; discriminate].
  destruct (String.eqb (TrimSpace t) "") eqn:Et;
    [intros [= <- _]; discriminate|].
  unfold insert.
  destruct (stmt_fails (fault e)); [intros [= <- _]; discriminate|].
  intros [= <- <-] _. apply String.eqb_neq in Et.
  pose proof Hwf as (Ha & _).
  exists t. repeat split; auto; [lia| |].
  - intros e2 r2 Hf. rewrite (db_listing_rows e2 r2 _ Hwf1 Hf). simpl.
    destruct (rows st ++ [mkTodo (auto st) (TrimSpace t) false])
      as [|x l] eqn:E.
    + now destruct (rows st).
    + rewrite <- E, map_app. reflexivity.
  - intros e2 r2 Hf Hnil. rewrite (db_listing_rows e2 r2 _ Hwf Hf).
    now rewrite Hnil.
Qed.

Lemma db_create_appends_and_is_listed_last_witness :
  wf ID demo_store /\
  fst (getTodosHandler env0 (mkRequest MethodGet "/todos" [] (@None string))
         (snd (createTodoHandler env0
                 (mkRequest MethodPost "/todos" [] (Some "read  "))
                 demo_store)))
    = WriteJSON StatusOK
        (JArr [encode_todo (mkTodo 1 "wash" false);
               encode_todo (mkTodo 2 "cook" false);
               encode_todo (mkTodo 3 "read" false)]).
Proof.
  split; [exact db_wf_demo_store|].
  destruct (db_create_appends_and_is_listed_last env0
              (mkRequest MethodPost "/todos" [] (Some "read  "))
              demo_store _ _ db_wf_demo_store (surjective_pairing _) eq_refl)
    as (t & Hd & _ & _ & _ & _ & _ & Hlist & _).
  injection Hd as <-.
  rewrite (Hlist env0 _ eq_refl). vm_compute. reflexivity.
Defined.

(** An update that is answered 200 replaced the one row with the id of
    the path by (id, trimmed title, done), at its place, and a delete that
    is answered 204 took out the one row with the id of the path; every
    other row and the counter are as before. *)
Theorem db_update_and_delete_touch_one_row :
  forall (e : Env) (r : Request (string * bool)) (st : Store),
    wf ID st ->
    (Status (fst (updateTodoHandler e r st)) = StatusOK ->
     exists id Title0 Done0 l1 old l2,
       Atoi (TrimPrefix (Path r) "/todos/") = Some id /\
       Decoded r = Some (Title0, Done0) /\
       rows st = l1 ++ old :: l2 /\ ID old = id /\
       rows (snd (updateTodoHandler e r st))
         = l1 ++ mkTodo id (TrimSpace Title0) Done0 :: l2 /\
       auto (snd (updateTodoHandler e r st)) = auto st /\
       fst (updateTodoHandler e r st)
         = WriteJSON StatusOK
             (encode_todo (mkTodo id (TrimSpace Title0) Done0))) /\
    (Status (fst (deleteTodoHandler e r st)) = StatusNoContent ->
     exists id l1 old l2,
       Atoi (TrimPrefix (Path r) "/todos/") = Some id /\
       rows st = l1 ++ old :: l2 /\ ID old = id /\
       rows (snd (deleteTodoHandler e r st)) = l1 ++ l2 /\
       auto (snd (deleteTodoHandler e r st)) = auto st).
Proof.
  intros e r st (_ & _ & Hs). split.
  - unfold updateTodoHandler.
    destruct (Atoi _) as [id|] eqn:Eid; [|discriminate].
    destruct (id <=? 0); [discriminate|].
    destruct (Decoded r) as [[t d]|]; [|discriminate].
    destruct (String.eqb (TrimSpace t) ""); [discriminate|].
    unfold update.
    destruct (stmt_fails (fault e)); [discriminate|].
    destruct (_ =? 0) eqn:Eaff; [discriminate|]. intros _.
    apply Z.eqb_neq in Eaff.
    destruct (counted_found _ ID id _ _ Eaff) as (old & Hin & Hid).
    destruct (split_at_key _ ID _ old Hs Hin) as (l1 & l2 & Hl & Hother).
    exists id, t, d, l1, old, l2. simpl.
    repeat split; auto.
    rewrite Hl, <- Hid. rewrite (table_update_one _ ID _ l1 l2 old Hother).
    reflexivity.
  - unfold deleteTodoHandler.
    destruct (Atoi _) as [id|] eqn:Eid; [|discriminate].
    destruct (id <=? 0); [discriminate|].
    unfold delete.
    destruct (stmt_fails (fault e)); [discriminate|].
    destruct (_ =? 0) eqn:Eaff; [discriminate|]. intros _.
    apply Z.eqb_neq in Eaff.
    destruct (counted_found _ ID id (fun _ => true) (rows st))
      as (old & Hin & Hid).
    { rewrite (filter_ext _ (fun r => ID r =? id)); [exact Eaff|].
      intros a. now rewrite andb_true_r. }
    destruct (split_at_key _ ID _ old Hs Hin) as (l1 & l2 & Hl & Hother).
    exists id, l1, old, l2. simpl. repeat split; auto.
    rewrite Hl, <- Hid. apply (table_delete_one _ ID l1 l2 old Hother).
Qed.

Lemma db_update_and_delete_touch_one_row_witness :
  wf ID demo_store /\
  Status (fst (updateTodoHandler env0
                 (mkRequest MethodPut "/todos/1" [] (Some ("wash", true)))
                 demo_store)) = StatusOK /\
  auto (snd (updateTodoHandler env0
               (mkRequest MethodPut "/todos/1" [] (Some ("wash", true)))
               demo_store)) = auto demo_store /\
  rows (snd (updateTodoHandler env0
               (mkRequest MethodPut "/todos/1" [] (Some ("wash", true)))
               demo_store))
    = [mkTodo 1 "wash" true; mkTodo 2 "cook" false].
Proof.
  split; [exact db_wf_demo_store|]. split; [reflexivity|].
  destruct (db_update_and_delete_touch_one_row env0
              (mkRequest MethodPut "/todos/1" [] (Some ("wash", true)))
              demo_store db_wf_demo_store) as [Hupd _].
  destruct (Hupd eq_refl)
    as (id & t & d & l1 & old & l2 & _ & _ & _ & _ & _ & Hauto & _).
  split; [exact Hauto | vm_compute; reflexivity].
Defined.

(** Every request keeps the table well formed; every answer has one of
    seven statuses; and a request that is answered with an error leaves
    the rows and the counter as they were. *)
Theorem db_requests_keep_the_table :
  forall (e : Env) (r1 : Request string) (r2 : Request (string * bool))
         (st : Store),
    wf ID st ->
    (wf ID (snd (todosHandler e r1 st)) /\
     wf ID (snd (todoItemHandler e r2 st))) /\
    (In (Status (fst (todosHandler e r1 st))) [200; 201; 400; 405; 500] /\
     In (Status (fst (todoItemHandler e r2 st)))
        [200; 204; 400; 404; 405; 500]) /\
    (400 <= Status (fst (todosHandler e r1 st)) ->
     same_table st (snd (todosHandler e r1 st))) /\
    (400 <= Status (fst (todoItemHandler e r2 st)) ->
     same_table st (snd (todoItemHandler e r2 st))).
Proof.
  intros e r1 r2 st Hwf. split; [|split; [|split]].
  - split.
    + unfold todosHandler.
      destruct (String.eqb (Method r1) MethodGet); [now apply db_wf_getTodos|].
      destruct (String.eqb (Method r1) MethodPost);
        [now apply db_wf_createTodo | exact Hwf].
    + unfold todoItemHandler.
      destruct (String.eqb (Method r2) MethodPut); [now apply db_wf_updateTodo|].
      destruct (String.eqb (Method r2) MethodDelete);
        [now apply db_wf_deleteTodo | exact Hwf].
  - split.
    + unfold todosHandler, getTodosHandler, createTodoHandler, select, insert.
      destruct (String.eqb (Method r1) MethodGet);
        [destruct (stmt_fails (fault e)); calm|].
      destruct (String.eqb (Method r1) MethodPost); [|calm].
      destruct (Decoded r1) as [t|]; [|calm].
      destruct (String.eqb (TrimSpace t) ""); [calm|].
      destruct (stmt_fails (fault e)); calm.
    + unfold todoItemHandler, updateTodoHandler, deleteTodoHandler,
        update, delete.
      destruct (Atoi _) as [id|];
        [|destruct (String.eqb (Method r2) MethodPut);
          [|destruct (String.eqb (Method r2) MethodDelete)]; calm].
      destruct (id <=? 0);
        [destruct (String.eqb (Method r2) MethodPut);
         [|destruct (String.eqb (Method r2) MethodDelete)]; calm|].
      destruct (String.eqb (Method r2) MethodPut).
      * destruct (Decoded r2) as [[t d]|]; [|calm].
        destruct (String.eqb (TrimSpace t) ""); [calm|].
        destruct (stmt_fails (fault e)); [calm|].
        destruct (_ =? 0); calm.
      * destruct (String.eqb (Method r2) MethodDelete); [|calm].
        destruct (stmt_fails (fault e)); [calm|].
        destruct (_ =? 0); calm.
  - unfold todosHandler, getTodosHandler, createTodoHandler, select, insert.
    destruct (String.eqb (Method r1) MethodGet);
      [destruct (stmt_fails (fault e)); calm|].
    destruct (String.eqb (Method r1) MethodPost); [|calm].
    destruct (Decoded r1) as [t|]; [|calm].
    destruct (String.eqb (TrimSpace t) ""); [calm|].
    destruct (stmt_fails (fault e)); calm.
  - unfold todoItemHandler.
    destruct (String.eqb (Method r2) MethodPut).
    + unfold updateTodoHandler.
      destruct (Atoi _) as [id|]; [|calm].
      destruct (id <=? 0); [calm|].
      destruct (Decoded r2) as [[t d]|]; [|calm].
      destruct (String.eqb (TrimSpace t) ""); [calm|].
      unfold update. destruct (stmt_fails (fault e)); [calm|].
      destruct (_ =? 0) eqn:Eaff; [|calm].
      intros _. unfold same_table. simpl. repeat split.
      apply Z.eqb_eq in Eaff.
      apply (update_none_counted _ ID id _ _ _ _ Eaff).
      intros x _ Hx. apply andb_true_iff in Hx as [Ht Hd].
      apply String.eqb_eq in Ht. apply Bool.eqb_prop in Hd.
      destruct x; simpl in *. congruence.
    + destruct (String.eqb (Method r2) MethodDelete); [|calm].
      unfold deleteTodoHandler.
      destruct (Atoi _) as [id|]; [|calm].
      destruct (id <=? 0); [calm|].
      unfold delete. destruct (stmt_fails (fault e)); [calm|].
      destruct (_ =? 0) eqn:Eaff; [|calm].
      intros _. unfold same_table. simpl. repeat split.
      apply Z.eqb_eq in Eaff. now apply delete_none_counted.
Qed.

Lemma db_requests_keep_the_table_witness :
  wf ID demo_store /\
  wf ID (snd (todoItemHandler env0
                (mkRequest MethodDelete "/todos/1" [] None) demo_store)) /\
  same_table demo_store
    (snd (todoItemHandler env0
            (mkRequest MethodPut "/todos/7" [] (Some ("iron", true)))
            demo_store)).
Proof.
  split; [exact db_wf_demo_store|].
  destruct (db_requests_keep_the_table env0
              (mkRequest MethodGet "/todos" [] None)
              (mkRequest MethodDelete "/todos/1" [] None)
              demo_store db_wf_demo_store) as ((_ & Hwf) & _).
  split; [exact Hwf|].
  destruct (db_requests_keep_the_table env0
              (mkRequest MethodGet "/todos" [] None)
              (mkRequest MethodPut "/todos/7" [] (Some ("iron", true)))
              demo_store db_wf_demo_store) as (_ & _ & _ & Hsame).
  apply Hsame. vm_compute. discriminate.
Defined.

End DbTodoProofs.
